(** * webcam-ts: the camera session core, embedded and verified

    A shallow embedding of the TypeScript classes [Stream], [Capture],
    [Device] and [Webcam] (core/stream.ts, core/capture.ts, core/device.ts,
    core/webcam.ts) together with the part of the browser they drive:
    [getUserMedia], media tracks, canvas surfaces and pixel buffers.

    - JavaScript numbers are IEEE 754 binary64 values ([spec_float] with
      precision 53 and maximal exponent 1024), so [Math.floor(w * scale)] is
      computed with the rounding the browser applies.
    - A method is a computation in the monad [M S]: it receives the object it
      is called on together with the browser state, and returns either a value
      or a thrown error, always with the state reached at that point (a throw
      does not roll back the assignments made before it).
    - The browser's answers (does [getUserMedia] grant this request? does the
      track accept this constraint?) are the fields of a [Platform] record;
      every call made to it is logged in the [World].
    - The host's callbacks are the host's code: a [Host] says, for each
      invocation, whether the callback returns or throws. *)

From stdpp Require Import gmap list.
From Stdlib Require Import ZArith Lia Bool String.
From Stdlib Require Import Floats.SpecFloat DecimalString.

Local Open Scope string_scope.
Local Open Scope list_scope.
Local Open Scope Z_scope.

(* ===================================================================== *)
(** ** JavaScript numbers                                                 *)
(* ===================================================================== *)

Module JS.

Definition number := spec_float.

Definition prec : Z := 53.
Definition emax : Z := 1024.

(** The double nearest to an integer (exact below 2^53). *)
Definition of_Z (z : Z) : number := binary_normalize prec emax z 0 false.

Definition mul (a b : number) : number := SFmul prec emax a b.
Definition div (a b : number) : number := SFdiv prec emax a b.

(** [a < b], [a <= b], [a === b] on numbers: false as soon as one is NaN. *)
Definition ltb (a b : number) : bool := SFltb a b.
Definition leb (a b : number) : bool := SFleb a b.
Definition eqb (a b : number) : bool := SFeqb a b.

(** [a !== b] on numbers (true when one side is NaN). *)
Definition strict_neq (a b : number) : bool := negb (eqb a b).

(** Truthiness of a number: [0], [-0] and [NaN] are falsy. *)
Definition truthy (x : number) : bool :=
  match x with
  | S754_zero _ | S754_nan => false
  | _ => true
  end.

(** Truthiness of a property that may be missing ([undefined] is falsy). *)
Definition truthy_opt (x : option number) : bool :=
  match x with
  | Some v => truthy v
  | None => false
  end.

(** [Math.floor]: the largest integer not above [x]; zeros, infinities and
    NaN are returned unchanged, and a value without fractional bits
    ([0 <= e]) is its own floor. *)
Definition Math_floor (x : number) : number :=
  match x with
  | S754_finite s m e =>
      if 0 <=? e then x
      else binary_normalize prec emax (cond_Zopp s (Zpos m) / 2 ^ (- e)) 0 s
  | _ => x
  end.

(** [Math.min] and [Math.max] of two numbers: NaN if either is NaN,
    [-0] below [+0]; of two equal numbers the second is returned. *)
Definition Math_min (a b : number) : number :=
  match a, b with
  | S754_nan, _ | _, S754_nan => S754_nan
  | S754_zero sa, S754_zero sb => S754_zero (sa || sb)
  | _, _ => if ltb a b then a else b
  end.

Definition Math_max (a b : number) : number :=
  match a, b with
  | S754_nan, _ | _, S754_nan => S754_nan
  | S754_zero sa, S754_zero sb => S754_zero (sa && sb)
  | _, _ => if ltb b a then a else b
  end.

(** The literals the sources use. *)
Definition lit_0_1 : number := S754_finite false 7205759403792794 (-56).
Definition lit_0_92 : number := S754_finite false 8286623314361713 (-53).
Definition lit_1 : number := S754_finite false 4503599627370496 (-52).
Definition lit_2 : number := S754_finite false 4503599627370496 (-51).
Definition lit_0 : number := S754_zero false.

(** Template-literal rendering [`${n}`] of an integer. *)
Definition string_of_Z (z : Z) : string := NilZero.string_of_int (Z.to_int z).

End JS.

(* ===================================================================== *)
(** ** Errors (utils/errors.ts) and thrown values                        *)
(* ===================================================================== *)

Inductive WebcamErrorCode :=
| PERMISSION_DENIED
| DEVICE_NOT_FOUND
| DEVICE_BUSY
| OVERCONSTRAINED
| CONSTRAINT_ERROR
| STREAM_FAILED
| STREAM_ERROR
| CAPTURE_FAILED
| INVALID_CONFIG
| VIDEO_ELEMENT_NOT_SET
| DEVICES_ERROR
| UNKNOWN_ERROR.

(** What a [throw] or a rejected promise carries. *)
#[warnings="-register-all"]
Inductive ErrorValue :=
| DOMException (name message : string)
    (* what the browser rejects with; an instance of Error *)
| PlainError (message : string)
    (* new Error(message) *)
| TypeError (message : string)
    (* a property read or a call on null/undefined *)
| WebcamError (message : string) (code : WebcamErrorCode)
              (originalError : option ErrorValue)
| NotAnError (name : option string).
    (* a thrown value that is not an instance of Error *)

(** [error instanceof Error] *)
Definition instanceof_Error (e : ErrorValue) : bool :=
  match e with
  | NotAnError _ => false
  | _ => true
  end.

(** [error instanceof WebcamError] *)
Definition instanceof_WebcamError (e : ErrorValue) : bool :=
  match e with
  | WebcamError _ _ _ => true
  | _ => false
  end.

(** [error?.name] *)
Definition error_name (e : ErrorValue) : option string :=
  match e with
  | DOMException n _ => Some n
  | PlainError _ => Some "Error"
  | TypeError _ => Some "TypeError"
  | WebcamError _ _ _ => Some "WebcamError"
  | NotAnError n => n
  end.

(** The [code] property, present on a WebcamError only. *)
Definition error_code (e : ErrorValue) : option WebcamErrorCode :=
  match e with
  | WebcamError _ c _ => Some c
  | _ => None
  end.

Definition original_error (e : ErrorValue) : option ErrorValue :=
  match e with
  | WebcamError _ _ o => o
  | _ => None
  end.

(** [error.message], which every instance of Error has. *)
Definition error_message (e : ErrorValue) : option string :=
  match e with
  | DOMException _ m => Some m
  | PlainError m => Some m
  | TypeError m => Some m
  | WebcamError m _ _ => Some m
  | NotAnError _ => None
  end.

(* ===================================================================== *)
(** ** Computations that read and write a state and may throw            *)
(* ===================================================================== *)

Inductive Result (A : Type) :=
| Ok (a : A)
| Throw (e : ErrorValue).

Arguments Ok {A} a.
Arguments Throw {A} e.

Definition M (S A : Type) : Type := S -> Result A * S.

Definition ret {S A} (a : A) : M S A := fun s => (Ok a, s).

Definition throw {S A} (e : ErrorValue) : M S A := fun s => (Throw e, s).

Definition bind {S A B} (c : M S A) (k : A -> M S B) : M S B :=
  fun s =>
    match c s with
    | (Ok a, s') => k a s'
    | (Throw e, s') => (Throw e, s')
    end.

(** [try { c } catch (error) { h error }]: the handler runs in the state the
    body had reached when it threw. *)
Definition try_catch {S A} (c : M S A) (h : ErrorValue -> M S A) : M S A :=
  fun s =>
    match c s with
    | (Ok a, s') => (Ok a, s')
    | (Throw e, s') => h e s'
    end.

Definition get {S} : M S S := fun s => (Ok s, s).
Definition modify {S} (f : S -> S) : M S unit := fun s => (Ok tt, f s).

(** A function that returns or throws without touching the state. *)
Definition lift_result {S A} (r : Result A) : M S A := fun s => (r, s).

(** Run a computation on a component [T] of the state [S]. *)
Definition focus {S T A} (proj : S -> T) (upd : T -> S -> S) (c : M T A) : M S A :=
  fun s => let '(r, t') := c (proj s) in (r, upd t' s).

Definition when {S} (b : bool) (c : M S unit) : M S unit :=
  if b then c else ret tt.

Declare Scope js_scope.
Delimit Scope js_scope with js.
Notation "'let*' x := c 'in' k" := (bind c (fun x => k))
  (at level 10, x pattern, c at level 100, k at level 200) : js_scope.
Notation "c ;; k" := (bind c (fun _ => k))
  (at level 100, k at level 200, right associativity) : js_scope.
Local Open Scope js_scope.

Definition is_ok {A} (r : Result A) : bool :=
  match r with Ok _ => true | Throw _ => false end.

Definition thrown_code {A} (r : Result A) : option WebcamErrorCode :=
  match r with
  | Ok _ => None
  | Throw e => error_code e
  end.

(* ===================================================================== *)
(** ** The browser: media streams, tracks and constraints                *)
(* ===================================================================== *)

Inductive TrackKind := VideoKind | AudioKind.

Inductive FocusMode :=
| FocusManual | FocusSingleShot | FocusContinuous | FocusAuto | FocusNone.

(** [track.getSettings()]: the negotiated frame size, when the browser
    reports one. *)
Record MediaTrackSettings := {
  settings_width : option Z;
  settings_height : option Z;
}.

Record MediaStreamTrack := {
  track_id : nat;
  track_kind : TrackKind;
  track_settings : MediaTrackSettings;
}.

Record MediaStream := {
  stream_id : nat;
  stream_tracks : list MediaStreamTrack;
}.

(** [stream.getTracks()] and [stream.getVideoTracks()] *)
Definition getTracks (s : MediaStream) : list MediaStreamTrack := stream_tracks s.

Definition is_video (t : MediaStreamTrack) : bool :=
  match track_kind t with VideoKind => true | AudioKind => false end.

Definition getVideoTracks (s : MediaStream) : list MediaStreamTrack :=
  List.filter is_video (stream_tracks s).

(** A dimension constraint: [{ exact: v }] or [{ ideal: v }]. *)
Inductive ConstrainULong :=
| exact (v : option JS.number)
| ideal (v : option JS.number).

Record MediaTrackConstraints := {
  c_deviceId : option string;          (* { exact: deviceId } when set *)
  c_width : option ConstrainULong;
  c_height : option ConstrainULong;
}.

Record MediaStreamConstraints := {
  c_video : MediaTrackConstraints;
  c_audio : bool;
}.

(** The one-key patches passed to [track.applyConstraints({advanced: [..]})]. *)
Inductive MediaTrackConstraintSet :=
| torch_patch (enabled : bool)
| zoom_patch (zoom : JS.number)
| focusMode_patch (mode : FocusMode).

(** What the browser answers. [gum c] is the outcome of
    [navigator.mediaDevices.getUserMedia(c)]: a rejection, or the kinds and
    settings of the tracks of the stream it grants.  [apply_answer t p] is
    the outcome of [t.applyConstraints({advanced: [p]})]: [None] when the
    promise resolves.  [srcObject_checked] says whether the [srcObject]
    setter of a video element refuses a value that is neither null nor a
    media stream: it does on the elements of a browser, and does not on a
    stand-in whose [srcObject] is a plain property. *)
Record Platform := {
  gum : MediaStreamConstraints -> ErrorValue + list (TrackKind * MediaTrackSettings);
  apply_answer : MediaStreamTrack -> MediaTrackConstraintSet -> option ErrorValue;
  srcObject_checked : bool;
}.

(** The mutable part of the browser: which tracks are live, the calls made
    so far (oldest first) and the next fresh object identity. *)
Record World := {
  live_tracks : gset nat;
  gum_calls : list MediaStreamConstraints;
  apply_calls : list (nat * MediaTrackConstraintSet);
  next_id : nat;
}.

Definition initial_world : World :=
  {| live_tracks := ∅; gum_calls := []; apply_calls := []; next_id := 0 |}.

Fixpoint make_tracks (first : nat) (shape : list (TrackKind * MediaTrackSettings))
  : list MediaStreamTrack :=
  match shape with
  | [] => []
  | (k, st) :: rest =>
      {| track_id := first; track_kind := k; track_settings := st |}
        :: make_tracks (S first) rest
  end.

Definition track_ids (s : MediaStream) : gset nat :=
  list_to_set (List.map track_id (stream_tracks s)).

(** [await navigator.mediaDevices.getUserMedia(constraints)] *)
Definition getUserMedia (P : Platform) (c : MediaStreamConstraints) : M World MediaStream :=
  fun w =>
    let calls := gum_calls w ++ [c] in
    match gum P c with
    | inl e =>
        (Throw e,
         {| live_tracks := live_tracks w; gum_calls := calls;
            apply_calls := apply_calls w; next_id := next_id w |})
    | inr shape =>
        let s := {| stream_id := next_id w;
                    stream_tracks := make_tracks (S (next_id w)) shape |} in
        (Ok s,
         {| live_tracks := live_tracks w ∪ track_ids s; gum_calls := calls;
            apply_calls := apply_calls w;
            next_id := (S (next_id w) + List.length shape)%nat |})
    end.

(** [track.stop()] *)
Definition track_stop (t : MediaStreamTrack) (w : World) : World :=
  {| live_tracks := live_tracks w ∖ {[ track_id t ]}; gum_calls := gum_calls w;
     apply_calls := apply_calls w; next_id := next_id w |}.

(** [await track.applyConstraints({ advanced: [patch] })] *)
Definition track_applyConstraints (P : Platform) (t : MediaStreamTrack)
    (patch : MediaTrackConstraintSet) : M World unit :=
  fun w =>
    let w' := {| live_tracks := live_tracks w; gum_calls := gum_calls w;
                 apply_calls := apply_calls w ++ [(track_id t, patch)];
                 next_id := next_id w |} in
    match apply_answer P t patch with
    | Some e => (Throw e, w')
    | None => (Ok tt, w')
    end.

(* ===================================================================== *)
(** ** Configuration and state (types/index.ts)                          *)
(* ===================================================================== *)

Module Types.

(** [width] and [height] are declared as numbers; at run time either may
    be missing, which the validation in [_buildConstraints] checks. *)
Record Resolution := {
  label : string;
  width : option JS.number;
  height : option JS.number;
}.

(** [preferredResolutions?: Resolution | Resolution[]] *)
Inductive ResolutionPreference :=
| single (r : Resolution)
| array (rs : list Resolution).

Record MediaDeviceInfo := {
  deviceId : string;
  device_label : string;
}.

(** The host's [<video>] elements live in the browser and are passed
    around by reference. *)
Definition ElementRef : Type := nat.

(** The callbacks are the host's code; the configuration records which
    are registered, and the session logs each invocation. *)
Record WebcamConfiguration := {
  deviceInfo : option MediaDeviceInfo;
  preferredResolutions : option ResolutionPreference;
  videoElement : option ElementRef;
  enableAudio : option bool;
  enableMirror : option bool;
  onStateChange : bool;
  onStreamStart : bool;
  onStreamStop : bool;
  onError : bool;
}.

Definition empty_config : WebcamConfiguration :=
  {| deviceInfo := None; preferredResolutions := None; videoElement := None;
     enableAudio := None; enableMirror := None; onStateChange := false;
     onStreamStart := false; onStreamStop := false; onError := false |}.

End Types.

Import Types.

(* ===================================================================== *)
(** ** The browser: devices, permissions and capabilities                *)
(* ===================================================================== *)

Inductive MediaDeviceKind := videoinput | audioinput | audiooutput.

(** An entry of [enumerateDevices()]: a device with its [kind]. *)
Record EnumeratedDevice := {
  device_kind : MediaDeviceKind;
  device_info : MediaDeviceInfo;
}.

Inductive PermissionState := granted | denied | prompt.

Inductive PermissionName := camera | microphone.

(** [Record<string, PermissionState>] *)
Notation Permissions := (gmap string PermissionState).

(** A [{ min, max }] range of [getCapabilities()]; a bound may be missing. *)
Record Range := {
  range_min : option JS.number;
  range_max : option JS.number;
}.

(** [track.getCapabilities()]: a member is [None] when the key is absent,
    which is what ["zoom" in capabilities] tests. *)
Record MediaTrackCapabilities := {
  capability_width : option Range;
  capability_height : option Range;
  capability_frameRate : option Range;
  capability_zoom : option Range;
  capability_torch : option bool;
  capability_focusMode : option (list FocusMode);
}.

(** What the browser answers about devices.  [enumerateDevices_answer] and
    [permissions_query] are the outcomes of
    [navigator.mediaDevices.enumerateDevices()] and of
    [navigator.permissions.query({ name })]; [gum_flags video audio] is the
    outcome of [getUserMedia({ video, audio })] with boolean members;
    [getCapabilities_answer t] is the outcome of [t.getCapabilities()], a
    TypeError where the browser lacks the method.  [label_of], [deviceId_of]
    and [frameRate_of] give [t.label] and the members [deviceId] and
    [frameRate] of [t.getSettings()]. *)
Record DevicePlatform := {
  enumerateDevices_answer : ErrorValue + list EnumeratedDevice;
  permissions_query : PermissionName -> ErrorValue + PermissionState;
  gum_flags : bool -> bool -> ErrorValue + list (TrackKind * MediaTrackSettings);
  getCapabilities_answer : MediaStreamTrack -> ErrorValue + MediaTrackCapabilities;
  label_of : MediaStreamTrack -> string;
  deviceId_of : MediaStreamTrack -> option string;
  frameRate_of : MediaStreamTrack -> option JS.number;
}.

(** A browser answer as the outcome of an [await]. *)
Definition answer {S A} (a : ErrorValue + A) : M S A :=
  match a with
  | inl e => throw e
  | inr v => ret v
  end.

(** [await navigator.mediaDevices.getUserMedia({ video, audio })] with
    boolean members.  The stream is created as by [getUserMedia]; the log
    [gum_calls] holds the requests that carry video constraints and is left
    as it is. *)
Definition getUserMedia_flags (D : DevicePlatform) (video audio : bool)
  : M World MediaStream :=
  fun w =>
    match gum_flags D video audio with
    | inl e => (Throw e, w)
    | inr shape =>
        let s := {| stream_id := next_id w;
                    stream_tracks := make_tracks (S (next_id w)) shape |} in
        (Ok s,
         {| live_tracks := live_tracks w ∪ track_ids s; gum_calls := gum_calls w;
            apply_calls := apply_calls w;
            next_id := (S (next_id w) + List.length shape)%nat |})
    end.

(** ["key" in object] for a member that may be absent. *)
Definition has_key {A} (member : option A) : bool :=
  match member with
  | Some _ => true
  | None => false
  end.

(** [a || b] where [a] is a number that may be missing. *)
Definition or_number (a : option JS.number) (b : JS.number) : JS.number :=
  match a with
  | Some v => if JS.truthy v then v else b
  | None => b
  end.

(* ===================================================================== *)
(** ** class Stream (core/stream.ts)                                     *)
(* ===================================================================== *)

Module Stream.

(** The object: [private activeStream: MediaStream | null = null]. *)
Record t := { activeStream : option MediaStream }.

Definition new : t := {| activeStream := None |}.

(** A method runs on the object and the browser. *)
Definition Self : Type := t * World.

Definition in_world {A} (c : M World A) : M Self A :=
  focus snd (fun w s => (fst s, w)) c.

Definition set_activeStream (v : option MediaStream) : M Self unit :=
  modify (fun s => ({| activeStream := v |}, snd s)).

(** [const DEFAULT_RESOLUTION = { width: 1280, height: 720 }] *)
Definition DEFAULT_RESOLUTION_width : JS.number := JS.of_Z 1280.
Definition DEFAULT_RESOLUTION_height : JS.number := JS.of_Z 720.

(** What [startStream] resolves with. *)
Record StartResult := {
  stream : MediaStream;
  usedResolution : option Resolution;
}.

(** [!res.width || !res.height] *)
Definition invalid_resolution (res : Resolution) : bool :=
  negb (JS.truthy_opt (width res)) || negb (JS.truthy_opt (height res)).

(** [deviceId] is used when truthy: present and not the empty string. *)
Definition truthy_deviceId (d : option MediaDeviceInfo) : option string :=
  match d with
  | Some i => if String.eqb (deviceId i) "" then None else Some (deviceId i)
  | None => None
  end.

(** [private async _buildConstraints(config)].  It touches no state. *)
Definition _buildConstraints (config : WebcamConfiguration)
  : Result MediaStreamConstraints :=
  let resolutions :=
    match preferredResolutions config with
    | Some (array rs) => rs
    | Some (single r) => [r]
    | None => []
    end in
  if existsb invalid_resolution resolutions then
    Throw (WebcamError "Invalid resolution: width and height must be specified"
                       INVALID_CONFIG None)
  else
    let dev := truthy_deviceId (deviceInfo config) in
    let audio := match enableAudio config with Some b => b | None => false end in
    match preferredResolutions config with
    | Some pref =>
        let res0 :=
          match pref with
          | array rs => List.head rs
          | single r => Some r
          end in
        match res0 with
        | None =>
            (* preferredResolutions[0] of an empty array is undefined *)
            Throw (TypeError "Cannot read properties of undefined (reading 'width')")
        | Some res =>
            Ok {| c_video := {| c_deviceId := dev;
                                c_width := Some (exact (width res));
                                c_height := Some (exact (height res)) |};
                  c_audio := audio |}
        end
    | None =>
        Ok {| c_video := {| c_deviceId := dev;
                            c_width := Some (ideal (Some DEFAULT_RESOLUTION_width));
                            c_height := Some (ideal (Some DEFAULT_RESOLUTION_height)) |};
              c_audio := audio |}
    end.

(** [private _handleStartError(error, config)] *)
Definition _handleStartError (err : ErrorValue) : ErrorValue :=
  let name_is n :=
    match error_name err with
    | Some m => String.eqb m n
    | None => false
    end in
  if name_is "NotAllowedError" then
    WebcamError "Camera access denied" PERMISSION_DENIED (Some err)
  else if name_is "NotFoundError" then
    WebcamError "Camera device not found" DEVICE_NOT_FOUND (Some err)
  else if name_is "NotReadableError" then
    WebcamError "Camera is already in use" DEVICE_BUSY (Some err)
  else if name_is "OverconstrainedError" then
    WebcamError "Camera constraints not satisfied" OVERCONSTRAINED (Some err)
  else
    WebcamError "Failed to start camera" UNKNOWN_ERROR (Some err).

(** [{ ...config, preferredResolutions: resolution }] *)
Definition with_resolution (config : WebcamConfiguration) (r : Resolution)
  : WebcamConfiguration :=
  {| deviceInfo := deviceInfo config;
     preferredResolutions := Some (single r);
     videoElement := videoElement config;
     enableAudio := enableAudio config;
     enableMirror := enableMirror config;
     onStateChange := onStateChange config;
     onStreamStart := onStreamStart config;
     onStreamStop := onStreamStop config;
     onError := onError config |}.

(** One attempt: build the constraints, then ask the browser. *)
Definition attempt (P : Platform) (config : WebcamConfiguration) : M World MediaStream :=
  let* constraints := lift_result (_buildConstraints config) in
  getUserMedia P constraints.

(** [error instanceof Error ? error : new Error("Failed to get media stream")] *)
Definition as_Error (e : ErrorValue) : ErrorValue :=
  if instanceof_Error e then e else PlainError "Failed to get media stream".

(** The [for (const resolution of config.preferredResolutions)] loop, with
    its local [lastError]; it yields the stream and the resolution of the
    first attempt that succeeds ([break]), or the last error. *)
Fixpoint try_resolutions (P : Platform) (config : WebcamConfiguration)
    (rs : list Resolution) (lastError : option ErrorValue)
  : M World (option (MediaStream * Resolution) * option ErrorValue) :=
  match rs with
  | [] => ret (None, lastError)
  | resolution :: rest =>
      fun w =>
        match attempt P (with_resolution config resolution) w with
        | (Ok s, w') => (Ok (Some (s, resolution), lastError), w')
        | (Throw e, w') =>
            try_resolutions P config rest (Some (as_Error e)) w'
        end
  end.

(** [async startStream(config)] *)
Definition startStream (P : Platform) (config : WebcamConfiguration)
  : M Self StartResult :=
  try_catch
    (let* found :=
       match preferredResolutions config with
       | Some (array rs) =>
           let* out := in_world (try_resolutions P config rs None) in
           match out with
           | (Some (s, r), _) => ret (s, Some r)
           | (None, Some lastError) => throw lastError
           | (None, None) => throw (PlainError "No resolution worked")
           end
       | other =>
           let* s := in_world (attempt P config) in
           ret (s, match other with Some (single r) => Some r | _ => None end)
       end in
     set_activeStream (Some (fst found)) ;;
     ret {| stream := fst found; usedResolution := snd found |})
    (fun err => throw (_handleStartError err)).

Definition stop_tracks (s : MediaStream) (w : World) : World :=
  List.fold_left (fun w t => track_stop t w) (getTracks s) w.

(** [stopStream()] *)
Definition stopStream : M Self unit :=
  let* self := get in
  match activeStream (fst self) with
  | Some s =>
      in_world (modify (stop_tracks s)) ;;
      set_activeStream None
  | None => ret tt
  end.


(** [getActiveStream()] *)
Definition getActiveStream (self : t) : option MediaStream := activeStream self.

(** [getCapabilities()] *)
Definition getCapabilities (D : DevicePlatform) (self : t)
  : Result (option MediaTrackCapabilities) :=
  match activeStream self with
  | None => Ok None
  | Some s =>
      match getVideoTracks s with
      | track :: _ =>
          match getCapabilities_answer D track with
          | inr capabilities => Ok (Some capabilities)
          | inl e => Throw e
          end
      | [] => Ok None
      end
  end.

(** [async applyConstraints(constraints)] *)
Definition applyConstraints (P : Platform) (constraints : MediaTrackConstraintSet)
  : M Self unit :=
  let* self := get in
  match activeStream (fst self) with
  | None =>
      throw (WebcamError "No active stream to apply constraints" STREAM_ERROR None)
  | Some s =>
      match getVideoTracks s with
      | [] =>
          throw (WebcamError "No video track found in active stream" STREAM_ERROR None)
      | track :: _ =>
          try_catch
            (in_world (track_applyConstraints P track constraints))
            (fun err =>
               if instanceof_Error err &&
                  match error_name err with
                  | Some n => String.eqb n "OverconstrainedError"
                  | None => false
                  end
               then throw (WebcamError "Cannot apply constraints: not supported by device"
                                       CONSTRAINT_ERROR (Some err))
               else throw (WebcamError "Failed to apply constraints"
                                       STREAM_ERROR (Some err)))
      end
  end.

End Stream.

(* ===================================================================== *)
(** ** What the session keeps and shows at run time                      *)
(* ===================================================================== *)

(** [state.activeStream], the [srcObject] of a video element and the
    argument of [onStreamStart] are declared as media streams.  [start]
    puts there what [startStream] resolved with, which is the object
    [{ stream, usedResolution }]. *)
Inductive StreamValue :=
| media_stream (s : MediaStream)
| start_result (r : Stream.StartResult).

(** [value.getVideoTracks()]: the object [startStream] resolves with has no
    such method. *)
Definition call_getVideoTracks (v : StreamValue) : Result (list MediaStreamTrack) :=
  match v with
  | media_stream s => Ok (getVideoTracks s)
  | start_result _ =>
      Throw (TypeError "this.state.activeStream.getVideoTracks is not a function")
  end.

(** The sink: the host's [<video>] element, with the properties the core
    reads and writes. *)
Record HTMLVideoElement := {
  srcObject : option StreamValue;
  style_transform : string;
  readyState : Z;
  videoWidth : Z;
  videoHeight : Z;
}.

Inductive WebcamStatus := idle | initializing | ready | error.

(** [permissions], [videoElement] and [device] of the interface are never
    written by the session and are left out. *)
Record WebcamStateInternal := {
  status : WebcamStatus;
  activeStream : option StreamValue;
  state_error : option ErrorValue;            (* the [error] property *)
  zoomLevel : option JS.number;
  focusMode : option FocusMode;
  torchEnabled : option bool;
  activeResolution : option Resolution;
}.

(* ===================================================================== *)
(** ** The browser: canvases, pixel buffers, bitmaps                     *)
(* ===================================================================== *)

Record CropRegion := {
  crop_x : JS.number;
  crop_y : JS.number;
  crop_width : JS.number;
  crop_height : JS.number;
}.

(** Options of the three capture methods ([BaseCaptureOptions] and the
    extra fields of [CaptureImageOptions]). *)
Record CaptureOptions := {
  scale : option JS.number;
  mirror : option bool;
  crop : option CropRegion;
  imageType : option string;
  quality : option JS.number;
  includeBase64 : option bool;
}.

Definition no_options : CaptureOptions :=
  {| scale := None; mirror := None; crop := None; imageType := None;
     quality := None; includeBase64 := None |}.

(** The two transforms the code installs: [setTransform(1,0,0,1,0,0)] and
    [setTransform(-1,0,0,1,w,0)]. *)
Inductive Transform :=
| identity_transform
| mirror_transform (w : JS.number).

(** A canvas keeps the size it was given; the integer conversion the
    browser applies on assignment is not modelled. *)
Record Canvas := {
  canvas_id : nat;
  canvas_width : JS.number;
  canvas_height : JS.number;
}.

Record Context2D := { ctx_transform : Transform }.

(** An [ImageData] object: its identity is what "the same buffer" means.
    Its pixels are a copy of the surface made when [getImageData] was
    called: [data_pixels] is the number of [drawImage] calls made by then. *)
Record ImageData := {
  data_id : nat;
  data_width : JS.number;
  data_height : JS.number;
  data_pixels : nat;
}.

Record Blob := { blob_id : nat; blob_type : string; blob_quality : JS.number }.

Record ImageBitmap := {
  bitmap_id : nat;
  bitmap_width : JS.number;
  bitmap_height : JS.number;
}.

(** One [drawImage] call: the source rectangle (the crop, if any), the size
    of the destination rectangle and the transform in force. *)
Record DrawCall := {
  draw_source : option CropRegion;
  draw_width : JS.number;
  draw_height : JS.number;
  draw_transform : Transform;
}.

(** One [getImageData] call: it allocates the [ImageData] it returns. *)
Inductive PixelRead :=
| read_new (id : nat).

(** What the browser answers to the canvas calls. *)
Record CanvasPlatform := {
  getContext_2d : bool;                 (* does getContext("2d") give a context? *)
  toBlob_ok : bool;                     (* does toBlob hand over a blob? *)
  encoded_type : string -> string;      (* the type of the blob toBlob makes for
                                           a requested type: the browser's
                                           fallback when it cannot encode it *)
  readAsDataURL : Blob -> option string;(* FileReader result, None on error *)
  createImageBitmap_ok : bool;          (* does createImageBitmap resolve? *)
}.

(** The mutable part: fresh identities, the draw and read calls made so far
    (oldest first), the object URLs not yet revoked, and the clock. *)
Record Dom := {
  next_handle : nat;
  draw_calls : list DrawCall;
  pixel_reads : list PixelRead;
  object_urls : gset nat;
  now : Z;
}.

Definition initial_dom : Dom :=
  {| next_handle := 0; draw_calls := []; pixel_reads := []; object_urls := ∅; now := 0 |}.

Definition fresh_handle : M Dom nat :=
  fun d => (Ok (next_handle d),
            {| next_handle := S (next_handle d); draw_calls := draw_calls d;
               pixel_reads := pixel_reads d; object_urls := object_urls d;
               now := now d |}).

Definition log_draw (c : DrawCall) : M Dom unit :=
  modify (fun d => {| next_handle := next_handle d; draw_calls := draw_calls d ++ [c];
                      pixel_reads := pixel_reads d; object_urls := object_urls d;
                      now := now d |}).

Definition log_read (r : PixelRead) : M Dom unit :=
  modify (fun d => {| next_handle := next_handle d; draw_calls := draw_calls d;
                      pixel_reads := pixel_reads d ++ [r]; object_urls := object_urls d;
                      now := now d |}).

Definition set_object_urls (f : gset nat -> gset nat) : M Dom unit :=
  modify (fun d => {| next_handle := next_handle d; draw_calls := draw_calls d;
                      pixel_reads := pixel_reads d; object_urls := f (object_urls d);
                      now := now d |}).

(** [document.createElement("canvas")]: a new 300x150 canvas. *)
Definition createElement_canvas : M Dom Canvas :=
  let* h := fresh_handle in
  ret {| canvas_id := h; canvas_width := JS.of_Z 300; canvas_height := JS.of_Z 150 |}.

(** [canvas.getContext("2d", ...)] *)
Definition getContext (C : CanvasPlatform) : option Context2D :=
  if getContext_2d C then Some {| ctx_transform := identity_transform |} else None.

(** [ctx.drawImage(video, ...)] on [ctx = this.context!]: a call on [null]
    throws a TypeError. *)
Definition drawImage (ctx : option Context2D) (src : option CropRegion)
    (w h : JS.number) : M Dom unit :=
  match ctx with
  | None => throw (TypeError "Cannot read properties of null (reading 'drawImage')")
  | Some c =>
      log_draw {| draw_source := src; draw_width := w; draw_height := h;
                  draw_transform := ctx_transform c |}
  end.

(** [ctx.getImageData(0, 0, w, h)] and [ctx.getImageData(0, 0, w, h, settings)]:
    a new [ImageData] holding a copy of the pixels.  The optional fifth
    argument only selects the colour space. *)
Definition getImageData_new (w h : JS.number) : M Dom ImageData :=
  let* id := fresh_handle in
  log_read (read_new id) ;;
  let* d := get in
  ret {| data_id := id; data_width := w; data_height := h;
         data_pixels := List.length (draw_calls d) |}.

(** [await createImageBitmap(source, ...)] giving a [w] x [h] bitmap. *)
Definition createImageBitmap (C : CanvasPlatform) (w h : JS.number) : M Dom ImageBitmap :=
  if createImageBitmap_ok C then
    let* id := fresh_handle in
    ret {| bitmap_id := id; bitmap_width := w; bitmap_height := h |}
  else throw (DOMException "InvalidStateError" "The source image could not be decoded").

(* ===================================================================== *)
(** ** class Capture (core/capture.ts)                                   *)
(* ===================================================================== *)

Module CaptureImageDataResult.
Record t := {
  imageData : ImageData;
  width : JS.number;
  height : JS.number;
  timestamp : Z;
}.
End CaptureImageDataResult.

Module CaptureImageResult.
Record t := {
  blob : Blob;
  url : nat;
  base64 : option string;
  width : JS.number;
  height : JS.number;
  mimeType : string;
  timestamp : Z;
}.
End CaptureImageResult.

Module CaptureImageBitmapResult.
Record t := {
  imageBitmap : ImageBitmap;
  width : JS.number;
  height : JS.number;
  timestamp : Z;
}.
End CaptureImageBitmapResult.

Module Capture.

Record t := {
  canvas : option Canvas;
  context : option Context2D;
  reusableImageData : option ImageData;
  cachedDimensions : JS.number * JS.number;     (* { width, height } *)
  cachedScale : JS.number;
  cachedMirror : bool;
  mirrorCanvas : option Canvas;
  mirrorContext : option Context2D;
}.

Definition Self : Type := t * Dom.

Definition in_dom {A} (c : M Dom A) : M Self A :=
  focus snd (fun d s => (fst s, d)) c.

Definition update (f : t -> t) : M Self unit :=
  modify (fun s => (f (fst s), snd s)).

Definition this : M Self t := fun s => (Ok (fst s), s).

Definition set_canvas v (c : t) : t :=
  {| canvas := v; context := context c; reusableImageData := reusableImageData c;
     cachedDimensions := cachedDimensions c; cachedScale := cachedScale c;
     cachedMirror := cachedMirror c; mirrorCanvas := mirrorCanvas c;
     mirrorContext := mirrorContext c |}.
Definition set_context v (c : t) : t :=
  {| canvas := canvas c; context := v; reusableImageData := reusableImageData c;
     cachedDimensions := cachedDimensions c; cachedScale := cachedScale c;
     cachedMirror := cachedMirror c; mirrorCanvas := mirrorCanvas c;
     mirrorContext := mirrorContext c |}.
Definition set_reusableImageData v (c : t) : t :=
  {| canvas := canvas c; context := context c; reusableImageData := v;
     cachedDimensions := cachedDimensions c; cachedScale := cachedScale c;
     cachedMirror := cachedMirror c; mirrorCanvas := mirrorCanvas c;
     mirrorContext := mirrorContext c |}.
Definition set_cachedDimensions v (c : t) : t :=
  {| canvas := canvas c; context := context c; reusableImageData := reusableImageData c;
     cachedDimensions := v; cachedScale := cachedScale c;
     cachedMirror := cachedMirror c; mirrorCanvas := mirrorCanvas c;
     mirrorContext := mirrorContext c |}.
Definition set_cachedScale v (c : t) : t :=
  {| canvas := canvas c; context := context c; reusableImageData := reusableImageData c;
     cachedDimensions := cachedDimensions c; cachedScale := v;
     cachedMirror := cachedMirror c; mirrorCanvas := mirrorCanvas c;
     mirrorContext := mirrorContext c |}.
Definition set_cachedMirror v (c : t) : t :=
  {| canvas := canvas c; context := context c; reusableImageData := reusableImageData c;
     cachedDimensions := cachedDimensions c; cachedScale := cachedScale c;
     cachedMirror := v; mirrorCanvas := mirrorCanvas c;
     mirrorContext := mirrorContext c |}.
Definition set_mirrorCanvas v (c : t) : t :=
  {| canvas := canvas c; context := context c; reusableImageData := reusableImageData c;
     cachedDimensions := cachedDimensions c; cachedScale := cachedScale c;
     cachedMirror := cachedMirror c; mirrorCanvas := v;
     mirrorContext := mirrorContext c |}.
Definition set_mirrorContext v (c : t) : t :=
  {| canvas := canvas c; context := context c; reusableImageData := reusableImageData c;
     cachedDimensions := cachedDimensions c; cachedScale := cachedScale c;
     cachedMirror := cachedMirror c; mirrorCanvas := mirrorCanvas c;
     mirrorContext := v |}.

(** [canvas.width = w; canvas.height = h] *)
Definition sized (w h : JS.number) (cv : Canvas) : Canvas :=
  {| canvas_id := canvas_id cv; canvas_width := w; canvas_height := h |}.

(** [constructor()] *)
Definition constructor (C : CanvasPlatform) : M Dom t :=
  let* cv := createElement_canvas in
  match getContext C with
  | None => throw (WebcamError "Failed to create canvas context" UNKNOWN_ERROR None)
  | Some ctx =>
      ret {| canvas := Some cv; context := Some ctx; reusableImageData := None;
             cachedDimensions := (JS.lit_0, JS.lit_0); cachedScale := JS.lit_1;
             cachedMirror := false; mirrorCanvas := None; mirrorContext := None |}
  end.

Definition video_not_ready : ErrorValue :=
  WebcamError "Video element is not ready for capture" VIDEO_ELEMENT_NOT_SET None.

(** [options.scale !== undefined ? Math.max(0.1, Math.min(2, options.scale)) : 1.0] *)
Definition clamp_scale (s : option JS.number) : JS.number :=
  match s with
  | Some v => JS.Math_max JS.lit_0_1 (JS.Math_min JS.lit_2 v)
  | None => JS.lit_1
  end.

(** [options.quality !== undefined ? Math.max(0, Math.min(1, options.quality)) : 0.92] *)
Definition clamp_quality (q : option JS.number) : JS.number :=
  match q with
  | Some v => JS.Math_max JS.lit_0 (JS.Math_min JS.lit_1 v)
  | None => JS.lit_0_92
  end.

(** [crop ? crop.width : videoElement.videoWidth] and the same for height *)
Definition sourceWidth (video : HTMLVideoElement) (c : option CropRegion) : JS.number :=
  match c with Some r => crop_width r | None => JS.of_Z (videoWidth video) end.
Definition sourceHeight (video : HTMLVideoElement) (c : option CropRegion) : JS.number :=
  match c with Some r => crop_height r | None => JS.of_Z (videoHeight video) end.

(** [private resizeCanvas(width, height, scale)] *)
Definition resizeCanvas (w h s : JS.number) : M Self unit :=
  let* self := this in
  match canvas self with
  | None => ret tt
  | Some cv =>
      update (set_canvas (Some (sized w h cv))) ;;
      update (set_cachedDimensions (w, h)) ;;
      update (set_cachedScale s) ;;
      update (set_reusableImageData None)
  end.

(** The test guarding [resizeCanvas] in [captureImageData] and [captureImage]. *)
Definition dimensions_changed (self : t) (w h s : JS.number) : bool :=
  JS.strict_neq (fst (cachedDimensions self)) w
  || JS.strict_neq (snd (cachedDimensions self)) h
  || JS.strict_neq (cachedScale self) s.

(** [ctx.setTransform(...)] where [ctx = this.context!] *)
Definition setTransform (tr : Transform) : M Self unit :=
  let* self := this in
  match context self with
  | None => throw (TypeError "Cannot read properties of null (reading 'setTransform')")
  | Some _ => update (set_context (Some {| ctx_transform := tr |}))
  end.

(** The mirror step shared by [captureImageData] and [captureImage]:
    [if (mirror !== this.cachedMirror) { ctx.setTransform(..); this.cachedMirror = mirror }] *)
Definition apply_mirror (m : bool) (w : JS.number) : M Self unit :=
  let* self := this in
  if negb (Bool.eqb m (cachedMirror self)) then
    setTransform (if m then mirror_transform w else identity_transform) ;;
    update (set_cachedMirror m)
  else ret tt.

(** The guarded draw: [try { ctx.drawImage(..) } catch (error) { throw CAPTURE_FAILED }] *)
Definition draw_frame (c : option CropRegion) (w h : JS.number) : M Self unit :=
  try_catch
    (let* self := this in in_dom (drawImage (context self) c w h))
    (fun err => throw (WebcamError "Failed to draw video to canvas" CAPTURE_FAILED (Some err))).

(** [captureImageData(videoElement, options)] *)
Definition captureImageData (videoElement : option HTMLVideoElement)
    (options : CaptureOptions) : M Self CaptureImageDataResult.t :=
  match videoElement with
  | None => throw video_not_ready
  | Some video =>
      if readyState video <? 2 then throw video_not_ready
      else
        let scale' := clamp_scale (scale options) in
        let mirror' := default false (mirror options) in
        let crop' := crop options in
        let width := JS.Math_floor (JS.mul (sourceWidth video crop') scale') in
        let height := JS.Math_floor (JS.mul (sourceHeight video crop') scale') in
        let* self := this in
        when (dimensions_changed self width height scale')
             (resizeCanvas width height scale') ;;
        apply_mirror mirror' width ;;
        draw_frame crop' width height ;;
        let* self := this in
        let* data :=
          match reusableImageData self with
          | None =>
              let* d := in_dom (getImageData_new width height) in
              update (set_reusableImageData (Some d)) ;;
              ret d
          | Some d =>
              (* [ctx.getImageData(0, 0, width, height, this.reusableImageData)]:
                 the pooled buffer is passed where the settings go, and the
                 [ImageData] the call returns is dropped *)
              in_dom (getImageData_new width height) ;;
              ret d
          end in
        let* dom := in_dom get in
        ret {| CaptureImageDataResult.imageData := data;
               CaptureImageDataResult.width := width;
               CaptureImageDataResult.height := height;
               CaptureImageDataResult.timestamp := now dom |}
  end.

(** [canvas.toBlob(..)] wrapped in a promise.  The blob has the type the
    browser encoded it in. *)
Definition toBlob (C : CanvasPlatform) (type : string) (q : JS.number) : M Self Blob :=
  let* self := this in
  match canvas self with
  | None => throw (PlainError "Canvas lost during blob creation")
  | Some _ =>
      if toBlob_ok C then
        let* id := in_dom fresh_handle in
        ret {| blob_id := id; blob_type := encoded_type C type; blob_quality := q |}
      else throw (PlainError "Failed to create blob from canvas")
  end.

(** [async captureImage(videoElement, options)] *)
Definition captureImage (C : CanvasPlatform) (videoElement : option HTMLVideoElement)
    (options : CaptureOptions) : M Self CaptureImageResult.t :=
  match videoElement with
  | None => throw video_not_ready
  | Some video =>
      if readyState video <? 2 then throw video_not_ready
      else
        let imageType' :=
          match imageType options with
          | Some ty => if String.eqb ty "" then "image/jpeg" else ty
          | None => "image/jpeg"
          end in
        let quality' := clamp_quality (quality options) in
        let scale' := clamp_scale (scale options) in
        let mirror' := default false (mirror options) in
        let includeBase64' := default true (includeBase64 options) in
        let crop' := crop options in
        let width := JS.Math_floor (JS.mul (sourceWidth video crop') scale') in
        let height := JS.Math_floor (JS.mul (sourceHeight video crop') scale') in
        let* self := this in
        when (dimensions_changed self width height scale')
             (resizeCanvas width height scale') ;;
        apply_mirror mirror' width ;;
        draw_frame crop' width height ;;
        let* blob :=
          try_catch (toBlob C imageType' quality')
            (fun err => throw (WebcamError "Failed to convert canvas to blob"
                                           CAPTURE_FAILED (Some err))) in
        let* url := in_dom fresh_handle in
        in_dom (set_object_urls (fun u => u ∪ {[ url ]})) ;;
        let* base64 :=
          if includeBase64' then
            match readAsDataURL C blob with
            | Some text => ret (Some text)
            | None =>
                in_dom (set_object_urls (fun u => u ∖ {[ url ]})) ;;
                throw (WebcamError "Failed to convert blob to base64" CAPTURE_FAILED
                                   (Some (PlainError "FileReader error")))
            end
          else ret None in
        let* dom := in_dom get in
        ret {| CaptureImageResult.blob := blob;
               CaptureImageResult.url := url;
               CaptureImageResult.base64 := base64;
               CaptureImageResult.width := width;
               CaptureImageResult.height := height;
               CaptureImageResult.mimeType := imageType';
               CaptureImageResult.timestamp := now dom |}
  end.

(** The slow path of [captureImageBitmap]: the lazily created mirror canvas. *)
Definition mirrored_bitmap (C : CanvasPlatform) (c : option CropRegion)
    (targetWidth targetHeight : JS.number) : M Self ImageBitmap :=
  let* self := this in
  (match mirrorCanvas self with
   | Some _ => ret tt
   | None =>
       let* cv := in_dom createElement_canvas in
       update (set_mirrorCanvas (Some cv)) ;;
       update (set_mirrorContext (getContext C)) ;;
       match getContext C with
       | None => throw (WebcamError "Failed to create mirror canvas context"
                                    UNKNOWN_ERROR None)
       | Some _ => ret tt
       end
   end) ;;
  let* self := this in
  (match mirrorCanvas self with
   | Some cv =>
       when (JS.strict_neq (canvas_width cv) targetWidth
             || JS.strict_neq (canvas_height cv) targetHeight)
            (update (set_mirrorCanvas (Some (sized targetWidth targetHeight cv))))
   | None => throw (TypeError "Cannot read properties of null (reading 'width')")
   end) ;;
  let* self := this in
  (match mirrorContext self with
   | None => throw (TypeError "Cannot read properties of null (reading 'setTransform')")
   | Some _ =>
       update (set_mirrorContext
                 (Some {| ctx_transform := mirror_transform targetWidth |}))
   end) ;;
  let* self := this in
  in_dom (drawImage (mirrorContext self) c targetWidth targetHeight) ;;
  in_dom (createImageBitmap C targetWidth targetHeight).

(** [async captureImageBitmap(videoElement, options)] *)
Definition captureImageBitmap (C : CanvasPlatform)
    (videoElement : option HTMLVideoElement) (options : CaptureOptions)
  : M Self CaptureImageBitmapResult.t :=
  match videoElement with
  | None => throw video_not_ready
  | Some video =>
      if readyState video <? 2 then throw video_not_ready
      else
        let scale' := clamp_scale (scale options) in
        let mirror' := default false (mirror options) in
        let crop' := crop options in
        try_catch
          (let targetWidth := JS.Math_floor (JS.mul (sourceWidth video crop') scale') in
           let targetHeight := JS.Math_floor (JS.mul (sourceHeight video crop') scale') in
           let* bitmap :=
             if negb mirror' then in_dom (createImageBitmap C targetWidth targetHeight)
             else mirrored_bitmap C crop' targetWidth targetHeight in
           let* dom := in_dom get in
           ret {| CaptureImageBitmapResult.imageBitmap := bitmap;
                  CaptureImageBitmapResult.width := targetWidth;
                  CaptureImageBitmapResult.height := targetHeight;
                  CaptureImageBitmapResult.timestamp := now dom |})
          (fun err => throw (WebcamError "Failed to create ImageBitmap"
                                         CAPTURE_FAILED (Some err)))
  end.

(** [dispose()] *)
Definition dispose : M Self unit :=
  let* self := this in
  (match canvas self with
   | Some cv => update (set_canvas (Some (sized JS.lit_0 JS.lit_0 cv)))
   | None => ret tt
   end) ;;
  let* self := this in
  (match mirrorCanvas self with
   | Some cv => update (set_mirrorCanvas (Some (sized JS.lit_0 JS.lit_0 cv)))
   | None => ret tt
   end) ;;
  update (set_canvas None) ;;
  update (set_context None) ;;
  update (set_mirrorCanvas None) ;;
  update (set_mirrorContext None) ;;
  update (set_reusableImageData None) ;;
  update (set_cachedDimensions (JS.lit_0, JS.lit_0)).

(** [displayImageData(targetCanvas, imageData)], a computation on the
    target canvas.  What [putImageData] writes is outside the model. *)
Definition displayImageData (C : CanvasPlatform) (imageData : ImageData)
  : M Canvas unit :=
  match getContext C with
  | None => throw (WebcamError "Target canvas has no context" UNKNOWN_ERROR None)
  | Some _ =>
      let* targetCanvas := get in
      when (JS.strict_neq (canvas_width targetCanvas) (data_width imageData)
            || JS.strict_neq (canvas_height targetCanvas) (data_height imageData))
           (modify (sized (data_width imageData) (data_height imageData)))
  end.

(** [getCanvas()] *)
Definition getCanvas (self : t) : option Canvas := canvas self.

(** [getDimensions()]: a copy of the cached dimensions. *)
Definition getDimensions (self : t) : JS.number * JS.number := cachedDimensions self.

End Capture.

(* ===================================================================== *)
(** ** class Device (core/device.ts)                                     *)
(* ===================================================================== *)

Record DeviceCapability := {
  capability_deviceId : string;
  capability_label : string;
  maxWidth : JS.number;
  maxHeight : JS.number;
  minWidth : JS.number;
  minHeight : JS.number;
  supportedFrameRates : option (list JS.number);
  hasZoom : bool;
  hasTorch : bool;
  hasFocus : bool;
  maxZoom : option JS.number;
  minZoom : option JS.number;
  supportedFocusModes : option (list FocusMode);
}.

Record PermissionRequestOptions := {
  request_video : option bool;
  request_audio : option bool;
}.

Module Device.

(** The class has no fields: a method runs on the browser alone. *)

Definition is_videoinput (d : EnumeratedDevice) : bool :=
  match device_kind d with videoinput => true | _ => false end.

(** [async getVideoDevices()] *)
Definition getVideoDevices {S} (D : DevicePlatform) : M S (list EnumeratedDevice) :=
  try_catch
    (let* devices := answer (enumerateDevices_answer D) in
     ret (List.filter is_videoinput devices))
    (fun err => throw (WebcamError "Failed to enumerate devices" DEVICES_ERROR (Some err))).

(** [{ video: { deviceId: { exact: deviceId } } }] *)
Definition test_constraints (deviceId : string) : MediaStreamConstraints :=
  {| c_video := {| c_deviceId := Some deviceId; c_width := None; c_height := None |};
     c_audio := false |}.

(** [capabilities.frameRate && min !== undefined && max !== undefined
       ? [min, max] : undefined] *)
Definition frame_rates (r : option Range) : option (list JS.number) :=
  match r with
  | Some {| range_min := Some lo; range_max := Some hi |} => Some [lo; hi]
  | _ => None
  end.

(** [async getDeviceCapabilities(deviceId)] *)
Definition getDeviceCapabilities (P : Platform) (D : DevicePlatform) (deviceId : string)
  : M World DeviceCapability :=
  try_catch
    (let* testStream := getUserMedia P (test_constraints deviceId) in
     match getVideoTracks testStream with
     | [] =>
         throw (TypeError "Cannot read properties of undefined (reading 'getCapabilities')")
     | track :: _ =>
         let* capabilities := answer (getCapabilities_answer D track) in
         let settings := track_settings track in
         modify (Stream.stop_tracks testStream) ;;
         ret {| capability_deviceId := deviceId;
                capability_label := label_of D track;
                maxWidth :=
                  or_number (capability_width capabilities ≫= range_max)
                    (or_number (JS.of_Z <$> settings_width settings) (JS.of_Z 1920));
                maxHeight :=
                  or_number (capability_height capabilities ≫= range_max)
                    (or_number (JS.of_Z <$> settings_height settings) (JS.of_Z 1080));
                minWidth :=
                  or_number (capability_width capabilities ≫= range_min) (JS.of_Z 320);
                minHeight :=
                  or_number (capability_height capabilities ≫= range_min) (JS.of_Z 240);
                supportedFrameRates := frame_rates (capability_frameRate capabilities);
                hasZoom := has_key (capability_zoom capabilities);
                hasTorch := has_key (capability_torch capabilities);
                hasFocus := has_key (capability_focusMode capabilities);
                maxZoom := capability_zoom capabilities ≫= range_max;
                minZoom := capability_zoom capabilities ≫= range_min;
                supportedFocusModes := capability_focusMode capabilities |}
     end)
    (fun err =>
       throw (WebcamError
                ("Failed to get device capabilities: " ++
                 (if instanceof_Error err then default "" (error_message err)
                  else "Unknown error"))
                DEVICES_ERROR (Some err))).

(** One of the two guarded queries of [checkPermissions]:
    [try { permissions[key] = (await query({ name })).state }
     catch { permissions[key] = "prompt" }] *)
Definition record_permission {S} (D : DevicePlatform) (name : PermissionName)
    (key : string) (permissions : Permissions) : M S Permissions :=
  try_catch
    (let* perm := answer (permissions_query D name) in
     ret (<[key := perm]> permissions))
    (fun _ => ret (<[key := prompt]> permissions)).

(** [async checkPermissions()] *)
Definition checkPermissions {S} (D : DevicePlatform) : M S Permissions :=
  let* permissions := record_permission D camera "camera" ∅ in
  let* permissions := record_permission D microphone "microphone" permissions in
  ret permissions.

(** The default of the parameter: [{ video: true, audio: false }]. *)
Definition default_request : PermissionRequestOptions :=
  {| request_video := Some true; request_audio := Some false |}.

(** [async requestPermissions(options = { video: true, audio: false })] *)
Definition requestPermissions (D : DevicePlatform)
    (options : option PermissionRequestOptions) : M World Permissions :=
  let options := default default_request options in
  try_catch
    (let* stream := getUserMedia_flags D (default false (request_video options))
                                         (default false (request_audio options)) in
     modify (Stream.stop_tracks stream) ;;
     checkPermissions D)
    (fun _ => checkPermissions D).

End Device.

(* ===================================================================== *)
(** ** class Webcam (core/webcam.ts)                                     *)
(* ===================================================================== *)

(** Everything outside the session objects: the media side, the canvas side
    and the [<video>] elements of the page. *)
Record Browser := {
  media : World;
  dom : Dom;
  elements : gmap nat HTMLVideoElement;
}.

Definition initial_browser : Browser :=
  {| media := initial_world; dom := initial_dom; elements := ∅ |}.

Module Webcam.

(** An invocation of one of the host's callbacks, with its argument. *)
Inductive Notification :=
| StateChange (snapshot : WebcamStateInternal)
| StreamStart (s : StreamValue)
| StreamStop
| ErrorReported (e : ErrorValue).

(** The host's code: invoked as [n] after the invocations [log] (oldest
    first), a callback returns ([None]) or throws.  A callback does not call
    back into the session. *)
Definition Host : Type := list Notification -> Notification -> option ErrorValue.

(** The host whose callbacks all return. *)
Definition quiet : Host := fun _ _ => None.

Record t := {
  stream : Stream.t;
  capture : Capture.t;
  state : WebcamStateInternal;
  config : option WebcamConfiguration;
  videoElement : option ElementRef;
  deviceChangeListener : bool;
  notifications : list Notification;        (* oldest first *)
}.

Definition Self : Type := t * Browser.

Definition this : M Self t := fun s => (Ok (fst s), s).

Definition update (f : t -> t) : M Self unit :=
  modify (fun s => (f (fst s), snd s)).

Definition set_stream v (o : t) : t :=
  {| stream := v; capture := capture o; state := state o; config := config o;
     videoElement := videoElement o; deviceChangeListener := deviceChangeListener o;
     notifications := notifications o |}.
Definition set_capture v (o : t) : t :=
  {| stream := stream o; capture := v; state := state o; config := config o;
     videoElement := videoElement o; deviceChangeListener := deviceChangeListener o;
     notifications := notifications o |}.
Definition set_state v (o : t) : t :=
  {| stream := stream o; capture := capture o; state := v; config := config o;
     videoElement := videoElement o; deviceChangeListener := deviceChangeListener o;
     notifications := notifications o |}.
Definition set_config v (o : t) : t :=
  {| stream := stream o; capture := capture o; state := state o; config := v;
     videoElement := videoElement o; deviceChangeListener := deviceChangeListener o;
     notifications := notifications o |}.
Definition set_videoElement v (o : t) : t :=
  {| stream := stream o; capture := capture o; state := state o; config := config o;
     videoElement := v; deviceChangeListener := deviceChangeListener o;
     notifications := notifications o |}.
Definition set_deviceChangeListener v (o : t) : t :=
  {| stream := stream o; capture := capture o; state := state o; config := config o;
     videoElement := videoElement o; deviceChangeListener := v;
     notifications := notifications o |}.
Definition notify (n : Notification) (o : t) : t :=
  {| stream := stream o; capture := capture o; state := state o; config := config o;
     videoElement := videoElement o; deviceChangeListener := deviceChangeListener o;
     notifications := notifications o ++ [n] |}.

Definition set_status v (s : WebcamStateInternal) : WebcamStateInternal :=
  {| status := v; activeStream := activeStream s; state_error := state_error s;
     zoomLevel := zoomLevel s; focusMode := focusMode s;
     torchEnabled := torchEnabled s; activeResolution := activeResolution s |}.
Definition set_activeStream v (s : WebcamStateInternal) : WebcamStateInternal :=
  {| status := status s; activeStream := v; state_error := state_error s;
     zoomLevel := zoomLevel s; focusMode := focusMode s;
     torchEnabled := torchEnabled s; activeResolution := activeResolution s |}.
Definition set_error v (s : WebcamStateInternal) : WebcamStateInternal :=
  {| status := status s; activeStream := activeStream s; state_error := v;
     zoomLevel := zoomLevel s; focusMode := focusMode s;
     torchEnabled := torchEnabled s; activeResolution := activeResolution s |}.
Definition set_zoomLevel v (s : WebcamStateInternal) : WebcamStateInternal :=
  {| status := status s; activeStream := activeStream s; state_error := state_error s;
     zoomLevel := v; focusMode := focusMode s;
     torchEnabled := torchEnabled s; activeResolution := activeResolution s |}.
Definition set_focusMode v (s : WebcamStateInternal) : WebcamStateInternal :=
  {| status := status s; activeStream := activeStream s; state_error := state_error s;
     zoomLevel := zoomLevel s; focusMode := v;
     torchEnabled := torchEnabled s; activeResolution := activeResolution s |}.
Definition set_torchEnabled v (s : WebcamStateInternal) : WebcamStateInternal :=
  {| status := status s; activeStream := activeStream s; state_error := state_error s;
     zoomLevel := zoomLevel s; focusMode := focusMode s;
     torchEnabled := v; activeResolution := activeResolution s |}.

Definition update_state (f : WebcamStateInternal -> WebcamStateInternal) : M Self unit :=
  update (fun o => set_state (f (state o)) o).

(** Calls into [this.stream] and [this.capture]. *)
Definition in_stream {A} (c : M Stream.Self A) : M Self A :=
  focus (fun s => (stream (fst s), media (snd s)))
        (fun r s => (set_stream (fst r) (fst s),
                     {| media := snd r; dom := dom (snd s);
                        elements := elements (snd s) |}))
        c.

Definition in_capture {A} (c : M Capture.Self A) : M Self A :=
  focus (fun s => (capture (fst s), dom (snd s)))
        (fun r s => (set_capture (fst r) (fst s),
                     {| media := media (snd s); dom := snd r;
                        elements := elements (snd s) |}))
        c.

(** A property write on the element [h] refers to. *)
Definition update_element (h : ElementRef) (f : HTMLVideoElement -> HTMLVideoElement)
  : M Self unit :=
  modify (fun s => (fst s,
                    {| media := media (snd s); dom := dom (snd s);
                       elements := alter f h (elements (snd s)) |})).

Definition set_srcObject v (e : HTMLVideoElement) : HTMLVideoElement :=
  {| srcObject := v; style_transform := style_transform e;
     readyState := readyState e; videoWidth := videoWidth e;
     videoHeight := videoHeight e |}.
Definition set_style_transform v (e : HTMLVideoElement) : HTMLVideoElement :=
  {| srcObject := srcObject e; style_transform := v;
     readyState := readyState e; videoWidth := videoWidth e;
     videoHeight := videoHeight e |}.

Definition initial_state : WebcamStateInternal :=
  {| status := idle; activeStream := None; state_error := None;
     zoomLevel := None; focusMode := None; torchEnabled := None;
     activeResolution := None |}.

(** [constructor(config?)], with the services it creates itself.  The
    device-change listener is registered. *)
Definition constructor (C : CanvasPlatform) (cfg : option WebcamConfiguration)
  : M Browser t :=
  let* cap := focus dom (fun d b => {| media := media b; dom := d;
                                       elements := elements b |})
                    (Capture.constructor C) in
  ret {| stream := Stream.new; capture := cap; state := initial_state;
         config := cfg;
         videoElement := match cfg with
                         | Some c => Types.videoElement c
                         | None => None
                         end;
         deviceChangeListener := true;
         notifications := [] |}.

(** [getState()]: a copy of the state. *)
Definition getState (o : t) : WebcamStateInternal := state o.

Definition registered (o : t) (handler : WebcamConfiguration -> bool) : bool :=
  match config o with
  | Some c => handler c
  | None => false
  end.

(** A call of a callback of the host: the invocation is logged, and what
    the callback throws is thrown at the place of the call. *)
Definition invoke (H : Host) (n : Notification) : M Self unit :=
  let* o := this in
  update (notify n) ;;
  match H (notifications o) n with
  | Some e => throw e
  | None => ret tt
  end.

(** [private _notifyStateChange()] *)
Definition _notifyStateChange (H : Host) : M Self unit :=
  let* o := this in
  when (registered o onStateChange) (invoke H (StateChange (getState o))).

(** [private _updateStatus(status)] *)
Definition _updateStatus (H : Host) (st : WebcamStatus) : M Self unit :=
  update_state (set_status st) ;;
  update_state (set_error None) ;;
  _notifyStateChange H.

(** [private _setError(error)] *)
Definition _setError (H : Host) (err : ErrorValue) : M Self unit :=
  update_state (set_error (Some err)) ;;
  update_state (set_status error) ;;
  let* o := this in
  when (registered o onError) (invoke H (ErrorReported err)) ;;
  _notifyStateChange H.

(** [setMirror(mirror)] and [getMirror()] *)
Definition setMirror (m : bool) : M Self unit :=
  let* o := this in
  match videoElement o with
  | Some h => update_element h (set_style_transform (if m then "scaleX(-1)" else ""))
  | None => ret tt
  end.

Definition getMirror (s : Self) : bool :=
  match videoElement (fst s) with
  | Some h =>
      match elements (snd s) !! h with
      | Some e => String.eqb (style_transform e) "scaleX(-1)"
      | None => false
      end
  | None => false
  end.

(** [{ ...this.config, ...config }]: the fields of the newer object win
    where it has them. *)
Definition merge_config (old : option WebcamConfiguration) (new : WebcamConfiguration)
  : WebcamConfiguration :=
  match old with
  | None => new
  | Some o =>
      let pick {A} (f : WebcamConfiguration -> option A) :=
        match f new with Some v => Some v | None => f o end in
      {| deviceInfo := pick deviceInfo;
         preferredResolutions := pick preferredResolutions;
         Types.videoElement := pick Types.videoElement;
         enableAudio := pick enableAudio;
         enableMirror := pick enableMirror;
         onStateChange := onStateChange new || onStateChange o;
         onStreamStart := onStreamStart new || onStreamStart o;
         onStreamStop := onStreamStop new || onStreamStop o;
         onError := onError new || onError o |}
  end.

(** [element.srcObject = v] on the element [h] refers to. *)
Definition accepts_srcObject (P : Platform) (v : option StreamValue) : bool :=
  match v with
  | Some (start_result _) => negb (srcObject_checked P)
  | Some (media_stream _) | None => true
  end.

Definition assign_srcObject (P : Platform) (h : ElementRef) (v : option StreamValue)
  : M Self unit :=
  if accepts_srcObject P v then update_element h (set_srcObject v)
  else throw (TypeError "Failed to set the 'srcObject' property on 'HTMLMediaElement'").

(** [async start(config?)].  The constant [stream] of the source is bound to
    what [startStream] resolves with, the whole object
    [{ stream, usedResolution }]: that object is what is stored in
    [state.activeStream], assigned to [srcObject] and passed to
    [onStreamStart].  Its [usedResolution] is never read. *)
Definition start (H : Host) (P : Platform) (cfg : option WebcamConfiguration)
  : M Self unit :=
  (match cfg with
   | Some c =>
       let* o := this in
       update (set_config (Some (merge_config (config o) c))) ;;
       match Types.videoElement c with
       | Some h => update (set_videoElement (Some h))
       | None => ret tt
       end
   | None => ret tt
   end) ;;
  let* o := this in
  match config o with
  | None => throw (WebcamError "Configuration is required" INVALID_CONFIG None)
  | Some c =>
      try_catch
        (_updateStatus H initializing ;;
         let* started := in_stream (Stream.startStream P c) in
         let stream := start_result started in
         update_state (set_activeStream (Some stream)) ;;
         let* o := this in
         (match videoElement o with
          | Some h =>
              assign_srcObject P h (Some stream) ;;
              when (default false (enableMirror c)) (setMirror true)
          | None => ret tt
          end) ;;
         _updateStatus H ready ;;
         when (onStreamStart c) (invoke H (StreamStart stream)))
        (fun err =>
           let webcamError :=
             if instanceof_WebcamError err then err
             else WebcamError "Start failed" UNKNOWN_ERROR (Some err) in
           _setError H webcamError ;;
           throw webcamError)
  end.

(** [stop()] *)
Definition stop (H : Host) : M Self unit :=
  in_stream Stream.stopStream ;;
  update_state (set_activeStream None) ;;
  let* o := this in
  (match videoElement o with
   | Some h => update_element h (set_srcObject None)
   | None => ret tt
   end) ;;
  _updateStatus H idle ;;
  let* o := this in
  when (registered o onStreamStop) (invoke H StreamStop).

(** [async captureImage(options)] *)
Definition captureImage (C : CanvasPlatform) (options : CaptureOptions)
  : M Self CaptureImageResult.t :=
  let* o := this in
  match videoElement o with
  | None => throw (WebcamError "No video element attached" VIDEO_ELEMENT_NOT_SET None)
  | Some h =>
      let* s := get in
      let mirror' :=
        match mirror options with
        | Some m => m
        | None => getMirror s
        end in
      in_capture
        (Capture.captureImage C (elements (snd s) !! h)
           {| scale := scale options; mirror := Some mirror'; crop := crop options;
              imageType := imageType options; quality := quality options;
              includeBase64 := includeBase64 options |})
  end.

(** [getCurrentResolution()] *)
Definition getCurrentResolution (o : t) : Result (option Resolution) :=
  match activeStream (state o) with
  | None => Ok None
  | Some v =>
      match call_getVideoTracks v with
      | Throw e => Throw e
      | Ok [] => Ok None
      | Ok (track :: _) =>
          let settings := track_settings track in
          let or_zero (v : option Z) :=
            match v with
            | Some z => if z =? 0 then 0 else z
            | None => 0
            end in
          let w := or_zero (settings_width settings) in
          let h := or_zero (settings_height settings) in
          Ok (Some {| width := Some (JS.of_Z w);
                      height := Some (JS.of_Z h);
                      label := JS.string_of_Z w ++ "x" ++ JS.string_of_Z h |})
      end
  end.

(** The three live controls share one shape:
    [try { await this.stream.applyConstraints(patch); this.state.x = v;
           this._notifyStateChange() } catch (error) { throw webcamError }] *)
Definition apply_and_record (H : Host) (P : Platform)
    (patch : MediaTrackConstraintSet)
    (record : WebcamStateInternal -> WebcamStateInternal) (failure : string)
  : M Self unit :=
  try_catch
    (in_stream (Stream.applyConstraints P patch) ;;
     update_state record ;;
     _notifyStateChange H)
    (fun err =>
       throw (if instanceof_WebcamError err then err
              else WebcamError failure STREAM_ERROR (Some err))).

(** [async setTorch(enabled)] *)
Definition setTorch (H : Host) (P : Platform) (enabled : bool) : M Self unit :=
  apply_and_record H P (torch_patch enabled) (set_torchEnabled (Some enabled))
                   "Failed to set torch".

(** [async setZoom(zoom)] *)
Definition setZoom (H : Host) (P : Platform) (zoom : JS.number) : M Self unit :=
  if JS.ltb zoom JS.lit_1 then
    throw (WebcamError "Zoom level must be greater than or equal to 1"
                       INVALID_CONFIG None)
  else
    apply_and_record H P (zoom_patch zoom) (set_zoomLevel (Some zoom))
                     "Failed to set zoom".

(** [async setFocusMode(mode)] *)
Definition setFocusMode (H : Host) (P : Platform) (mode : FocusMode) : M Self unit :=
  apply_and_record H P (focusMode_patch mode) (set_focusMode (Some mode))
                   "Failed to set focus mode".

(** Calls into [this.device], which works on the media side of the browser. *)
Definition in_device {A} (c : M World A) : M Self A :=
  focus (fun s => media (snd s))
        (fun w s => (fst s, {| media := w; dom := dom (snd s);
                               elements := elements (snd s) |}))
        c.

(** [async requestPermissions(options?)] *)
Definition requestPermissions (D : DevicePlatform)
    (options : option PermissionRequestOptions) : M Self Permissions :=
  in_device (Device.requestPermissions D options).

(** [async checkPermissions()] *)
Definition checkPermissions (D : DevicePlatform) : M Self Permissions :=
  in_device (Device.checkPermissions D).

(** [async getDevices()] *)
Definition getDevices (D : DevicePlatform) : M Self (list EnumeratedDevice) :=
  in_device (Device.getVideoDevices D).

(** [async getCapabilities(deviceId)] *)
Definition getCapabilities (P : Platform) (D : DevicePlatform) (deviceId : string)
  : M Self DeviceCapability :=
  in_device (Device.getDeviceCapabilities P D deviceId).

(** [async getCurrentDevice()] *)
Definition getCurrentDevice (D : DevicePlatform) : M Self (option EnumeratedDevice) :=
  let* o := this in
  match activeStream (state o) with
  | None => ret None
  | Some v =>
      let* tracks := lift_result (call_getVideoTracks v) in
      match tracks with
      | [] => ret None
      | track :: _ =>
          match deviceId_of D track with
          | None => ret None
          | Some id =>
              if String.eqb id "" then ret None
              else
                let* devices := getDevices D in
                ret (List.find (fun d => String.eqb (deviceId (device_info d)) id)
                               devices)
          end
      end
  end.




(** [isTorchSupported()], [isZoomSupported()], [isFocusSupported()]:
    [!!capabilities && "key" in capabilities] *)
Definition supports {A} (D : DevicePlatform) (key : MediaTrackCapabilities -> option A)
    (o : t) : Result bool :=
  match Stream.getCapabilities D (stream o) with
  | Ok (Some capabilities) => Ok (has_key (key capabilities))
  | Ok None => Ok false
  | Throw e => Throw e
  end.

Definition isTorchSupported (D : DevicePlatform) (o : t) : Result bool :=
  supports D capability_torch o.

Definition isZoomSupported (D : DevicePlatform) (o : t) : Result bool :=
  supports D capability_zoom o.

Definition isFocusSupported (D : DevicePlatform) (o : t) : Result bool :=
  supports D capability_focusMode o.

(** [private removeDeviceChangeListener()] *)
Definition removeDeviceChangeListener : M Self unit :=
  update (set_deviceChangeListener false).

(** [dispose()] *)
Definition dispose (H : Host) : M Self unit :=
  stop H ;;
  in_capture Capture.dispose ;;
  removeDeviceChangeListener.

End Webcam.

(* ===================================================================== *)
(** * Specification vocabulary and scenarios                            *)
(* ===================================================================== *)

(** The platform failure the code singles out:
    [error instanceof Error && error.name === "OverconstrainedError"]. *)
Definition overconstraint_failure (e : ErrorValue) : Prop :=
  instanceof_Error e = true /\ error_name e = Some "OverconstrainedError".

(** The constraints the specification prescribes for a candidate: the exact
    device id when one is given, the candidate's exact width and height. *)
Definition candidate_constraints (config : WebcamConfiguration) (r : Resolution)
  : MediaStreamConstraints :=
  {| c_video := {| c_deviceId := Stream.truthy_deviceId (deviceInfo config);
                   c_width := Some (exact (width r));
                   c_height := Some (exact (height r)) |};
     c_audio := default false (enableAudio config) |}.

Definition invalid_config_error : ErrorValue :=
  WebcamError "Invalid resolution: width and height must be specified"
              INVALID_CONFIG None.

(** What trying a candidate comes to: rejected by the validation, or the
    browser's answer to its constraints. *)
Definition candidate_outcome (P : Platform) (config : WebcamConfiguration)
    (r : Resolution) : ErrorValue + list (TrackKind * MediaTrackSettings) :=
  if Stream.invalid_resolution r then inl invalid_config_error
  else gum P (candidate_constraints config r).

Definition candidate_fails (P : Platform) (config : WebcamConfiguration)
    (r : Resolution) : Prop :=
  exists e, candidate_outcome P config r = inl e.

(** The requests that reach the browser for a list of candidates. *)
Definition requests (config : WebcamConfiguration) (rs : list Resolution)
  : list MediaStreamConstraints :=
  List.map (candidate_constraints config)
           (List.filter (fun r => negb (Stream.invalid_resolution r)) rs).

(** The stream the browser creates in world [w] for a granted request. *)
Definition granted_stream (w : World) (shape : list (TrackKind * MediaTrackSettings))
  : MediaStream :=
  {| stream_id := next_id w; stream_tracks := make_tracks (S (next_id w)) shape |}.

Definition add_gum_calls (cs : list MediaStreamConstraints) (w : World) : World :=
  {| live_tracks := live_tracks w; gum_calls := gum_calls w ++ cs;
     apply_calls := apply_calls w; next_id := next_id w |}.



(** ** Vocabulary for the single-resolution and default paths *)

(** The request made when no resolution is configured: ideal 1280x720. *)
Definition default_constraints (config : WebcamConfiguration) : MediaStreamConstraints :=
  {| c_video := {| c_deviceId := Stream.truthy_deviceId (deviceInfo config);
                   c_width := Some (ideal (Some (JS.of_Z 1280)));
                   c_height := Some (ideal (Some (JS.of_Z 720))) |};
     c_audio := default false (enableAudio config) |}.

Definition uses_ideal_dimensions (c : MediaStreamConstraints) : Prop :=
  (exists v, c_width (c_video c) = Some (ideal v))
  /\ (exists v, c_height (c_video c) = Some (ideal v)).

(** "Exactly one attempt, with ideal dimensions": the calls logged by
    [startStream] are one request, and it uses [ideal]. *)
Definition one_attempt_with_ideal_dimensions (P : Platform)
    (config : WebcamConfiguration) (self : Stream.t) (w : World) : Prop :=
  exists c,
    gum_calls (snd (snd (Stream.startStream P config (self, w)))) = gum_calls w ++ [c]
    /\ uses_ideal_dimensions c.

(** A dimension that is missing or zero. *)
Definition missing_or_zero (v : option JS.number) : Prop :=
  v = None \/ exists s, v = Some (S754_zero s).

(** [{ ...config, preferredResolutions: pref }] *)
Definition with_preference (pref : option ResolutionPreference)
    (config : WebcamConfiguration) : WebcamConfiguration :=
  {| deviceInfo := deviceInfo config;
     preferredResolutions := pref;
     videoElement := Types.videoElement config;
     enableAudio := enableAudio config;
     enableMirror := enableMirror config;
     onStateChange := onStateChange config;
     onStreamStart := onStreamStart config;
     onStreamStop := onStreamStop config;
     onError := onError config |}.

(** ** Vocabulary for the session controller *)

(** The configuration [start(cfg)] works with: the merge of the stored one
    and the argument, when there is an argument. *)
Definition effective_config (o : Webcam.t) (cfg : option WebcamConfiguration)
  : option WebcamConfiguration :=
  match cfg with
  | Some c => Some (Webcam.merge_config (Webcam.config o) c)
  | None => Webcam.config o
  end.

(** The tracks of the stream the manager holds. *)
Definition held_tracks (o : Stream.t) : gset nat :=
  match Stream.activeStream o with
  | Some s => track_ids s
  | None => ∅
  end.

(** What the sink of the session displays: every element the session's
    [videoElement] refers to has [v] as its [srcObject]. *)
Definition sink_shows (s : Webcam.Self) (v : option StreamValue) : Prop :=
  forall h e,
    Webcam.videoElement (fst s) = Some h ->
    elements (snd s) !! h = Some e ->
    srcObject e = v.

(** The session as a whole holds no stream: neither the state, nor the
    stream manager, nor the sink. *)
Definition nothing_attached (s : Webcam.Self) : Prop :=
  activeStream (Webcam.state (fst s)) = None
  /\ Stream.activeStream (Webcam.stream (fst s)) = None
  /\ sink_shows s None.

(** The world after one more [applyConstraints] call on track [t]. *)
Definition add_apply_call (t : MediaStreamTrack) (patch : MediaTrackConstraintSet)
    (w : World) : World :=
  {| live_tracks := live_tracks w; gum_calls := gum_calls w;
     apply_calls := apply_calls w ++ [(track_id t, patch)];
     next_id := next_id w |}.

(** The error [Stream.applyConstraints] builds from a platform failure. *)
Definition constraint_failure (e : ErrorValue) : ErrorValue :=
  if instanceof_Error e &&
     match error_name e with
     | Some n => String.eqb n "OverconstrainedError"
     | None => false
     end
  then WebcamError "Cannot apply constraints: not supported by device"
                   CONSTRAINT_ERROR (Some e)
  else WebcamError "Failed to apply constraints" STREAM_ERROR (Some e).

(** ** Vocabulary for the capture pipeline *)

(** The specification's dimension rule: [floor(sourceDim * scale)]. *)
Definition floor_of_scaled (sourceDim scale : JS.number) : JS.number :=
  JS.Math_floor (JS.mul sourceDim scale).

(** The source size: the crop region's size when a crop is given, the full
    video frame otherwise. *)
Definition source_size (video : HTMLVideoElement) (options : CaptureOptions)
  : JS.number * JS.number :=
  match crop options with
  | Some c => (crop_width c, crop_height c)
  | None => (JS.of_Z (videoWidth video), JS.of_Z (videoHeight video))
  end.

(** The scale a call works with. *)
Definition effective_scale (options : CaptureOptions) : JS.number :=
  Capture.clamp_scale (scale options).

(** The output size the specification prescribes for a call. *)
Definition expected_size (video : HTMLVideoElement) (options : CaptureOptions)
  : JS.number * JS.number :=
  (floor_of_scaled (fst (source_size video options)) (effective_scale options),
   floor_of_scaled (snd (source_size video options)) (effective_scale options)).

(** The geometry of a call: output width, output height and scale. *)
Definition geometry (video : HTMLVideoElement) (options : CaptureOptions)
  : JS.number * JS.number * JS.number :=
  (fst (expected_size video options), snd (expected_size video options),
   effective_scale options).

(** Two geometries the code treats as the same: [===] on all three numbers. *)
Definition same_geometry (a b : JS.number * JS.number * JS.number) : bool :=
  JS.eqb (fst (fst a)) (fst (fst b))
  && JS.eqb (snd (fst a)) (snd (fst b))
  && JS.eqb (snd a) (snd b).

(** A video element that has decoded a frame. *)
Definition has_frame (video : HTMLVideoElement) : Prop :=
  (readyState video <? 2) = false.

(** A capture engine that still owns its main surface, in a browser whose
    handle counter is past the pooled buffer. *)
Definition usable (s : Capture.Self) : Prop :=
  is_Some (Capture.canvas (fst s))
  /\ is_Some (Capture.context (fst s))
  /\ forall d, Capture.reusableImageData (fst s) = Some d ->
               (data_id d < next_handle (snd s))%nat.

(** A capture engine that owns nothing. *)
Definition released (c : Capture.t) : Prop :=
  Capture.canvas c = None /\ Capture.context c = None
  /\ Capture.mirrorCanvas c = None /\ Capture.mirrorContext c = None
  /\ Capture.reusableImageData c = None.

(** The engine [dispose] leaves behind: nothing owned, the cached
    dimensions reset, the cached scale and mirror flag as they were. *)
Definition disposed (c : Capture.t) : Capture.t :=
  {| Capture.canvas := None; Capture.context := None;
     Capture.reusableImageData := None;
     Capture.cachedDimensions := (JS.lit_0, JS.lit_0);
     Capture.cachedScale := Capture.cachedScale c;
     Capture.cachedMirror := Capture.cachedMirror c;
     Capture.mirrorCanvas := None; Capture.mirrorContext := None |}.

(* ===================================================================== *)
(** * Further properties: vocabulary                                     *)
(* ===================================================================== *)

(** Track identities are handed out in increasing order: in a world built
    by the browser every live track is older than the next identity. *)
Definition fresh_ids (w : World) : Prop :=
  forall i, i ∈ live_tracks w -> (i < next_id w)%nat.

(** What a permission query comes to in [checkPermissions]: the state the
    browser reports, "prompt" when the query fails. *)
Definition reported_state (D : DevicePlatform) (name : PermissionName) : PermissionState :=
  match permissions_query D name with
  | inr st => st
  | inl _ => prompt
  end.

(** The browser granted the stream [s] between the worlds [w] and [w']:
    its tracks are new, they are live, and nothing else changed among the
    live tracks. *)
Definition acquired (w w' : World) (s : MediaStream) : Prop :=
  exists shape,
    s = granted_stream w shape
    /\ live_tracks w' = live_tracks w ∪ track_ids s
    /\ next_id w' = (S (next_id w) + List.length shape)%nat.

(** The element the session refers to once [start(cfg)] has taken its
    argument in. *)
Definition element_for (o : Webcam.t) (cfg : option WebcamConfiguration)
  : option ElementRef :=
  match cfg with
  | Some c =>
      match Types.videoElement c with
      | Some h => Some h
      | None => Webcam.videoElement o
      end
  | None => Webcam.videoElement o
  end.

(** The invocation of a callback, when it is registered. *)
Definition reported (registered : bool) (n : Webcam.Notification)
  : list Webcam.Notification :=
  if registered then [n] else [].

(** The state [_updateStatus(status)] leaves. *)
Definition with_status (st : WebcamStatus) (s : WebcamStateInternal)
  : WebcamStateInternal :=
  Webcam.set_error None (Webcam.set_status st s).

(** The state [_setError(e)] leaves. *)
Definition with_error (e : ErrorValue) (s : WebcamStateInternal)
  : WebcamStateInternal :=
  Webcam.set_status error (Webcam.set_error (Some e) s).

(** A session whose callback log has grown by [ns]. *)
Definition notified (ns : list Webcam.Notification) (o : Webcam.t) : Webcam.t :=
  {| Webcam.stream := Webcam.stream o;
     Webcam.capture := Webcam.capture o;
     Webcam.state := Webcam.state o;
     Webcam.config := Webcam.config o;
     Webcam.videoElement := Webcam.videoElement o;
     Webcam.deviceChangeListener := Webcam.deviceChangeListener o;
     Webcam.notifications := Webcam.notifications o ++ ns |}.

(** The session once [start(cfg)] has taken its argument in: the merged
    configuration, and the element of the argument when it names one. *)
Definition prepared (o : Webcam.t) (cfg : option WebcamConfiguration) : Webcam.t :=
  {| Webcam.stream := Webcam.stream o;
     Webcam.capture := Webcam.capture o;
     Webcam.state := Webcam.state o;
     Webcam.config := effective_config o cfg;
     Webcam.videoElement := element_for o cfg;
     Webcam.deviceChangeListener := Webcam.deviceChangeListener o;
     Webcam.notifications := Webcam.notifications o |}.

(** What a callback of the host throws when it is invoked as [n] after
    the invocations [log]: nothing when it is not registered. *)
Definition heard (H : Webcam.Host) (registered : bool)
    (log : list Webcam.Notification) (n : Webcam.Notification)
  : option ErrorValue :=
  if registered then H log n else None.

(** The outcome of a call that returns unless [k] is thrown. *)
Definition unless (k : option ErrorValue) : Result unit :=
  match k with
  | Some e => Throw e
  | None => Ok tt
  end.

(** The state a successful [start] leaves, and the callbacks it invokes. *)
Definition ready_state (s : StreamValue) (st : WebcamStateInternal)
  : WebcamStateInternal :=
  with_status ready
    (Webcam.set_activeStream (Some s) (with_status initializing st)).

Definition start_callbacks (c : WebcamConfiguration) (s : StreamValue)
    (st : WebcamStateInternal) : list Webcam.Notification :=
  reported (onStateChange c) (Webcam.StateChange (with_status initializing st))
  ++ reported (onStateChange c) (Webcam.StateChange (ready_state s st))
  ++ reported (onStreamStart c) (Webcam.StreamStart s).

(** The state a failed [start] leaves, and the callbacks it invokes. *)
Definition failed_state (e : ErrorValue) (st : WebcamStateInternal)
  : WebcamStateInternal :=
  with_error e (with_status initializing st).

Definition failure_callbacks (c : WebcamConfiguration) (e : ErrorValue)
    (st : WebcamStateInternal) : list Webcam.Notification :=
  reported (onStateChange c) (Webcam.StateChange (with_status initializing st))
  ++ reported (onError c) (Webcam.ErrorReported e)
  ++ reported (onStateChange c) (Webcam.StateChange (failed_state e st)).

(** The error the catch block of [start] makes of the failure [err]. *)
Definition start_error (err : ErrorValue) : ErrorValue :=
  if instanceof_WebcamError err then err
  else WebcamError "Start failed" UNKNOWN_ERROR (Some err).

(** The state [start] leaves when it fails with [e] after the acquisition:
    the start result [v] stays in the state. *)
Definition stranded_state (e : ErrorValue) (v : StreamValue) (st : WebcamStateInternal)
  : WebcamStateInternal :=
  with_error e (Webcam.set_activeStream (Some v) (with_status initializing st)).

Definition stranded_callbacks (c : WebcamConfiguration) (e : ErrorValue)
    (v : StreamValue) (st : WebcamStateInternal) : list Webcam.Notification :=
  reported (onStateChange c) (Webcam.StateChange (with_status initializing st))
  ++ reported (onError c) (Webcam.ErrorReported e)
  ++ reported (onStateChange c) (Webcam.StateChange (stranded_state e v st)).

(** The catch block of [start], entered with [err] in the session [(o, b)]
    whose configuration is [c]: the error is recorded, [onError] and
    [onStateChange] are invoked, and the error is thrown, unless one of the
    two callbacks throws first. *)
Definition start_caught (H : Webcam.Host) (c : WebcamConfiguration)
    (err : ErrorValue) (o : Webcam.t) (b : Browser) : Result unit * Webcam.Self :=
  let e := start_error err in
  let o1 := Webcam.set_state (with_error e (Webcam.state o)) o in
  let nE := Webcam.ErrorReported e in
  let nS := Webcam.StateChange (with_error e (Webcam.state o)) in
  match heard H (onError c) (Webcam.notifications o) nE with
  | Some x => (Throw x, (notified (reported (onError c) nE) o1, b))
  | None =>
      (match heard H (onStateChange c)
               (Webcam.notifications o ++ reported (onError c) nE) nS with
       | Some x => Throw x
       | None => Throw e
       end,
       (notified (reported (onError c) nE ++ reported (onStateChange c) nS) o1, b))
  end.

(** The error of a [srcObject] setter that refuses its argument. *)
Definition srcObject_refused : ErrorValue :=
  TypeError "Failed to set the 'srcObject' property on 'HTMLMediaElement'".

(** The page once [s] is the [srcObject] of the element [h], mirrored when
    the configuration asks for it. *)
Definition attached (c : WebcamConfiguration) (s : StreamValue) (h : option ElementRef)
    (els : gmap nat HTMLVideoElement) : gmap nat HTMLVideoElement :=
  match h with
  | Some h =>
      let shown := alter (Webcam.set_srcObject (Some s)) h els in
      if default false (enableMirror c)
      then alter (Webcam.set_style_transform "scaleX(-1)") h shown
      else shown
  | None => els
  end.

(** The sink step of [start] for the start result [v]: the page it leaves,
    or the error of the [srcObject] setter. *)
Definition sink_step (P : Platform) (c : WebcamConfiguration) (v : StreamValue)
    (h : option ElementRef) (els : gmap nat HTMLVideoElement)
  : ErrorValue + gmap nat HTMLVideoElement :=
  match h with
  | Some _ =>
      if Webcam.accepts_srcObject P (Some v) then inr (attached c v h els)
      else inl srcObject_refused
  | None => inr els
  end.

(** What [start] does in the session [(o, b)] once the configuration [c]
    is taken in, path by path: the "initializing" report, the acquisition,
    the sink step, the "ready" report and [onStreamStart]; each of them can
    fail, and the catch block then takes over in the session reached. *)
Definition start_paths (H : Webcam.Host) (P : Platform) (c : WebcamConfiguration)
    (o : Webcam.t) (b : Browser) : Result unit * Webcam.Self :=
  let st1 := with_status initializing (Webcam.state o) in
  let n1 := Webcam.StateChange st1 in
  let o1 := notified (reported (onStateChange c) n1) (Webcam.set_state st1 o) in
  match heard H (onStateChange c) (Webcam.notifications o) n1 with
  | Some x => start_caught H c x o1 b
  | None =>
      match Stream.startStream P c (Webcam.stream o, media b) with
      | (Throw err, (t, w)) =>
          start_caught H c err (Webcam.set_stream t o1)
            {| media := w; dom := dom b; elements := elements b |}
      | (Ok r, (t, w)) =>
          let v := start_result r in
          let o2 := Webcam.set_state (Webcam.set_activeStream (Some v) st1)
                      (Webcam.set_stream t o1) in
          match sink_step P c v (Webcam.videoElement o) (elements b) with
          | inl x =>
              start_caught H c x o2
                {| media := w; dom := dom b; elements := elements b |}
          | inr els =>
              let b3 := {| media := w; dom := dom b; elements := els |} in
              let n4 := Webcam.StateChange (ready_state v (Webcam.state o)) in
              let o4 := notified (reported (onStateChange c) n4)
                          (Webcam.set_state (ready_state v (Webcam.state o)) o2) in
              match heard H (onStateChange c) (Webcam.notifications o2) n4 with
              | Some x => start_caught H c x o4 b3
              | None =>
                  let n5 := Webcam.StreamStart v in
                  match heard H (onStreamStart c) (Webcam.notifications o4) n5 with
                  | Some x =>
                      start_caught H c x
                        (notified (reported (onStreamStart c) n5) o4) b3
                  | None =>
                      (Ok tt, (notified (reported (onStreamStart c) n5) o4, b3))
                  end
              end
          end
      end
  end.

(** The world once the stream manager [t] has stopped the tracks of the
    stream it holds, if it holds one. *)
Definition released_world (t : Stream.t) (w : World) : World :=
  match Stream.activeStream t with
  | Some s => Stream.stop_tracks s w
  | None => w
  end.

(** The state [stop] leaves, and the callbacks it invokes. *)
Definition idle_state (st : WebcamStateInternal) : WebcamStateInternal :=
  with_status idle (Webcam.set_activeStream None st).

Definition stop_callbacks (o : Webcam.t) : list Webcam.Notification :=
  reported (Webcam.registered o onStateChange)
           (Webcam.StateChange (idle_state (Webcam.state o)))
  ++ reported (Webcam.registered o onStreamStop) Webcam.StreamStop.

(** The page once the element [h] shows nothing. *)
Definition detached (h : option ElementRef) (els : gmap nat HTMLVideoElement)
  : gmap nat HTMLVideoElement :=
  match h with
  | Some h => alter (Webcam.set_srcObject None) h els
  | None => els
  end.

(** What [stop] does, path by path: the stream is released and the state
    reset before any callback is invoked; [onStateChange] and then
    [onStreamStop] can throw. *)
Definition stop_paths (H : Webcam.Host) (o : Webcam.t) (b : Browser)
  : Result unit * Webcam.Self :=
  let o1 := Webcam.set_state (idle_state (Webcam.state o))
              (Webcam.set_stream Stream.new o) in
  let b1 := {| media := released_world (Webcam.stream o) (media b);
               dom := dom b;
               elements := detached (Webcam.videoElement o) (elements b) |} in
  let nS := Webcam.StateChange (idle_state (Webcam.state o)) in
  match heard H (Webcam.registered o onStateChange) (Webcam.notifications o) nS with
  | Some x =>
      (Throw x, (notified (reported (Webcam.registered o onStateChange) nS) o1, b1))
  | None =>
      (unless (heard H (Webcam.registered o onStreamStop)
                 (Webcam.notifications o
                  ++ reported (Webcam.registered o onStateChange) nS)
                 Webcam.StreamStop),
       (notified (stop_callbacks o) o1, b1))
  end.

(** The error a live control throws for the failure [err] of its [try]
    block. *)
Definition control_error (failure : string) (err : ErrorValue) : ErrorValue :=
  if instanceof_WebcamError err then err
  else WebcamError failure STREAM_ERROR (Some err).

(** What a live control ([setTorch], [setZoom], [setFocusMode]) does to the
    session [s], given the update [record] it makes to the state and the
    message [failure] of its fallback error.  It returns when the track
    accepts the patch and [onStateChange] returns: the value is recorded and
    the new state reported.  It throws the error of
    [Stream.applyConstraints] when that call fails: the state and the
    callback log are left alone.  And it throws what [onStateChange] threw,
    wrapped into the fallback error unless it is a WebcamError: by then the
    value is recorded and the callback was invoked.  In every case the rest
    of the session, the page and the live tracks are untouched. *)
Definition control_outcome (H : Webcam.Host) (s : Webcam.Self)
    (record : WebcamStateInternal -> WebcamStateInternal) (failure : string)
    (result : Result unit * Webcam.Self) : Prop :=
  let out := snd result in
  let recorded := record (Webcam.state (fst s)) in
  let registered := Webcam.registered (fst s) onStateChange in
  let n := Webcam.StateChange recorded in
  match fst result with
  | Ok _ =>
      Webcam.state (fst out) = recorded
      /\ Webcam.notifications (fst out)
         = Webcam.notifications (fst s) ++ reported registered n
      /\ heard H registered (Webcam.notifications (fst s)) n = None
  | Throw e =>
      ((error_code e = Some STREAM_ERROR \/ error_code e = Some CONSTRAINT_ERROR)
       /\ Webcam.state (fst out) = Webcam.state (fst s)
       /\ Webcam.notifications (fst out) = Webcam.notifications (fst s))
      \/ (exists thrown,
            heard H registered (Webcam.notifications (fst s)) n = Some thrown
            /\ e = control_error failure thrown
            /\ Webcam.state (fst out) = recorded
            /\ Webcam.notifications (fst out) = Webcam.notifications (fst s) ++ [n])
  end
  /\ Webcam.stream (fst out) = Webcam.stream (fst s)
  /\ Webcam.capture (fst out) = Webcam.capture (fst s)
  /\ Webcam.config (fst out) = Webcam.config (fst s)
  /\ Webcam.videoElement (fst out) = Webcam.videoElement (fst s)
  /\ elements (snd out) = elements (snd s)
  /\ dom (snd out) = dom (snd s)
  /\ live_tracks (media (snd out)) = live_tracks (media (snd s))
  /\ next_id (media (snd out)) = next_id (media (snd s)).

(** ** Vocabulary for the session's invariants *)

(** A call of a method of the session, with the answers the browser gives
    while it runs. *)
Inductive Call :=
| call_start (P : Platform) (cfg : option WebcamConfiguration)
| call_stop
| call_dispose
| call_captureImage (C : CanvasPlatform) (options : CaptureOptions)
| call_setMirror (mirror : bool)
| call_setTorch (P : Platform) (enabled : bool)
| call_setZoom (P : Platform) (zoom : JS.number)
| call_setFocusMode (P : Platform) (mode : FocusMode)
| call_requestPermissions (D : DevicePlatform)
                          (options : option PermissionRequestOptions)
| call_checkPermissions (D : DevicePlatform)
| call_getDevices (D : DevicePlatform)
| call_getCapabilities (P : Platform) (D : DevicePlatform) (deviceId : string)
| call_getCurrentDevice (D : DevicePlatform).

(** The session once the call has settled, whether it returned or threw,
    for the host [H]. *)
Definition settled (H : Webcam.Host) (c : Call) (s : Webcam.Self) : Webcam.Self :=
  match c with
  | call_start P cfg => snd (Webcam.start H P cfg s)
  | call_stop => snd (Webcam.stop H s)
  | call_dispose => snd (Webcam.dispose H s)
  | call_captureImage C options => snd (Webcam.captureImage C options s)
  | call_setMirror mirror => snd (Webcam.setMirror mirror s)
  | call_setTorch P enabled => snd (Webcam.setTorch H P enabled s)
  | call_setZoom P zoom => snd (Webcam.setZoom H P zoom s)
  | call_setFocusMode P mode => snd (Webcam.setFocusMode H P mode s)
  | call_requestPermissions D options => snd (Webcam.requestPermissions D options s)
  | call_checkPermissions D => snd (Webcam.checkPermissions D s)
  | call_getDevices D => snd (Webcam.getDevices D s)
  | call_getCapabilities P D deviceId => snd (Webcam.getCapabilities P D deviceId s)
  | call_getCurrentDevice D => snd (Webcam.getCurrentDevice D s)
  end.

(** The session after a sequence of calls, each made once the one before
    it has settled. *)
Definition history (H : Webcam.Host) (cs : list Call) (s : Webcam.Self)
  : Webcam.Self :=
  List.fold_left (fun s c => settled H c s) cs s.

(** What the state holds as [activeStream] when the stream manager holds
    [held]: nothing when the manager holds nothing, and otherwise not that
    stream but a start result whose [stream] it is. *)
Definition wraps (v : option StreamValue) (held : option MediaStream) : Prop :=
  match v, held with
  | None, None => True
  | Some (start_result r), Some s => Stream.stream r = s
  | _, _ => False
  end.

(** What holds of the session between calls. *)
Definition consistent (s : Webcam.Self) : Prop :=
  let st := Webcam.state (fst s) in
  wraps (activeStream st) (Stream.activeStream (Webcam.stream (fst s)))
  /\ status st <> initializing
  /\ (status st = ready -> is_Some (activeStream st))
  /\ (status st = idle -> activeStream st = None)
  /\ (status st = error <-> is_Some (state_error st))
  /\ held_tracks (Webcam.stream (fst s)) ⊆ live_tracks (media (snd s))
  /\ fresh_ids (media (snd s)).

(** ** Vocabulary for the capture engine *)

(** A video element the capture methods refuse: missing, or without a
    decoded frame. *)
Definition not_ready (videoElement : option HTMLVideoElement) : Prop :=
  match videoElement with
  | None => True
  | Some v => (readyState v <? 2) = true
  end.

(** Handles are handed out in increasing order: every object URL that is
    still registered is older than the next handle. *)
Definition handles_fresh (d : Dom) : Prop :=
  forall u, u ∈ object_urls d -> (u < next_handle d)%nat.

(** The pooled buffer, if there is one, was read from the surface in the
    past: when its pixels were copied, no more [drawImage] calls had been
    made than have been made by now. *)
Definition pool_from_the_past (s : Capture.Self) : Prop :=
  forall d, Capture.reusableImageData (fst s) = Some d ->
            (data_pixels d <= List.length (draw_calls (snd s)))%nat.

(** The part of the engine behind [captureImageData] and [captureImage]:
    the main surface, its context, the pooled buffer and the cached
    geometry and mirror flag. *)
Definition main_pipeline (c : Capture.t)
  : option Canvas * option Context2D * option ImageData
    * (JS.number * JS.number) * JS.number * bool :=
  (Capture.canvas c, Capture.context c, Capture.reusableImageData c,
   Capture.cachedDimensions c, Capture.cachedScale c, Capture.cachedMirror c).

(** The mirror surface of [captureImageBitmap] is in working order: either
    it was not created yet, or it has its context. *)
Definition mirror_ready (c : Capture.t) : Prop :=
  Capture.mirrorCanvas c = None \/ is_Some (Capture.mirrorContext c).

(** Two numbers the code does not tell apart: the same value, or equal
    under [===]. *)
Definition same_number (a b : JS.number) : Prop :=
  a = b \/ JS.eqb a b = true.

(** The errors [captureImageBitmap] builds. *)
Definition bitmap_failure (cause : ErrorValue) : ErrorValue :=
  WebcamError "Failed to create ImageBitmap" CAPTURE_FAILED (Some cause).

Definition no_mirror_context : ErrorValue :=
  WebcamError "Failed to create mirror canvas context" UNKNOWN_ERROR None.

(** ** Scenarios: a camera whose only mode is 1280x720 *)

Module Scenario.

Definition resolution (name : string) (w h : Z) : Resolution :=
  {| label := name; width := Some (JS.of_Z w); height := Some (JS.of_Z h) |}.

Definition S720 : Resolution := resolution "S720" 720 720.
Definition HD : Resolution := resolution "HD" 1280 720.

(** A candidate whose width is missing. *)
Definition broken : Resolution :=
  {| label := "broken"; width := None; height := Some (JS.of_Z 720) |}.

(** Does a dimension constraint leave room for the value [z]? *)
Definition admits (z : Z) (c : option ConstrainULong) : bool :=
  match c with
  | Some (exact (Some v)) => JS.eqb v (JS.of_Z z)
  | Some (exact None) => false
  | Some (ideal _) | None => true
  end.

Definition hd_settings : MediaTrackSettings :=
  {| settings_width := Some 1280; settings_height := Some 720 |}.

(** The camera grants a request that admits 1280x720 and rejects any other
    as over-constrained; its track accepts a zoom up to 4 and has no torch.
    The page runs in a browser: the [srcObject] of its video elements takes
    null or a media stream only. *)
Definition hd_camera : Platform :=
  {| gum := fun c =>
       if admits 1280 (c_width (c_video c)) && admits 720 (c_height (c_video c))
       then inr [(VideoKind, hd_settings)]
       else inl (DOMException "OverconstrainedError" "no such mode");
     apply_answer := fun _ patch =>
       match patch with
       | zoom_patch z =>
           if JS.ltb (JS.of_Z 4) z
           then Some (DOMException "OverconstrainedError" "zoom out of range")
           else None
       | torch_patch _ => Some (DOMException "NotSupportedError" "no torch")
       | focusMode_patch _ => None
       end;
     srcObject_checked := true |}.

(** The same camera behind stand-in elements, whose [srcObject] is a plain
    property. *)
Definition stand_in : Platform :=
  {| gum := gum hd_camera; apply_answer := apply_answer hd_camera;
     srcObject_checked := false |}.

Definition config_with (pref : option ResolutionPreference) : WebcamConfiguration :=
  {| deviceInfo := Some {| deviceId := "cam-0"; device_label := "Front camera" |};
     preferredResolutions := pref;
     videoElement := Some 0%nat;
     enableAudio := None;
     enableMirror := None;
     onStateChange := true;
     onStreamStart := true;
     onStreamStop := true;
     onError := true |}.

(** A [<video>] element showing a 1280x720 frame. *)
Definition video : HTMLVideoElement :=
  {| srcObject := None; style_transform := ""; readyState := 4;
     videoWidth := 1280; videoHeight := 720 |}.

(** The page holds that element under the reference the configuration uses. *)
Definition page : Browser :=
  {| media := initial_world; dom := initial_dom; elements := {[ 0%nat := video ]} |}.

Definition canvases : CanvasPlatform :=
  {| getContext_2d := true; toBlob_ok := true;
     encoded_type := fun type =>
       if String.eqb type "image/jpeg" || String.eqb type "image/webp"
       then type else "image/png";
     readAsDataURL := fun _ => Some "data:image/jpeg;base64,";
     createImageBitmap_ok := true |}.

(** The stream the camera hands out first, and its single video track. *)
Definition hd_track : MediaStreamTrack :=
  {| track_id := 1; track_kind := VideoKind; track_settings := hd_settings |}.

Definition hd_stream : MediaStream :=
  {| stream_id := 0; stream_tracks := [hd_track] |}.

(** A stream without a video track. *)
Definition audio_only_stream : MediaStream :=
  {| stream_id := 0;
     stream_tracks := [{| track_id := 1; track_kind := AudioKind;
                          track_settings := {| settings_width := None;
                                               settings_height := None |} |}] |}.

Definition unconfigured : Webcam.t :=
  {| Webcam.stream := Stream.new;
     Webcam.capture :=
       {| Capture.canvas := None; Capture.context := None;
          Capture.reusableImageData := None;
          Capture.cachedDimensions := (JS.lit_0, JS.lit_0);
          Capture.cachedScale := JS.lit_1; Capture.cachedMirror := false;
          Capture.mirrorCanvas := None; Capture.mirrorContext := None |};
     Webcam.state := Webcam.initial_state;
     Webcam.config := None;
     Webcam.videoElement := None;
     Webcam.deviceChangeListener := false;
     Webcam.notifications := [] |}.

(** [new Webcam(cfg)] on the page. *)
Definition session (cfg : option WebcamConfiguration) : Webcam.Self :=
  match Webcam.constructor canvases cfg page with
  | (Ok o, b) => (o, b)
  | (Throw _, b) => (unconfigured, b)
  end.

(** The configuration of the specification's example: S720 first, then HD,
    with the video element of the page. *)
Definition s720_then_hd : WebcamConfiguration :=
  config_with (Some (array [S720; HD])).

(** The same configuration without a video element. *)
Definition headless : WebcamConfiguration :=
  {| deviceInfo := deviceInfo s720_then_hd;
     preferredResolutions := preferredResolutions s720_then_hd;
     videoElement := None;
     enableAudio := enableAudio s720_then_hd;
     enableMirror := enableMirror s720_then_hd;
     onStateChange := onStateChange s720_then_hd;
     onStreamStart := onStreamStart s720_then_hd;
     onStreamStop := onStreamStop s720_then_hd;
     onError := onError s720_then_hd |}.

(** The session after [start(headless)] on the 1280x720 camera, with a host
    whose callbacks return. *)
Definition started : Webcam.Self :=
  snd (Webcam.start Webcam.quiet hd_camera (Some headless) (session None)).

(** A host whose [onStateChange] throws once a zoom level is recorded; its
    other callbacks return. *)
Definition zoom_averse : Webcam.Host :=
  fun _ n =>
    match n with
    | Webcam.StateChange st =>
        match zoomLevel st with
        | Some _ => Some (PlainError "listener failed")
        | None => None
        end
    | _ => None
    end.

(** The session after [start(s720_then_hd)], with the video element: in the
    browser, and with stand-in elements. *)
Definition previewed : Webcam.Self :=
  snd (Webcam.start Webcam.quiet hd_camera (Some s720_then_hd) (session None)).

Definition previewed_on_stand_in : Webcam.Self :=
  snd (Webcam.start Webcam.quiet stand_in (Some s720_then_hd) (session None)).

(** What [startStream] resolves with in these sessions. *)
Definition hd_result : Stream.StartResult :=
  {| Stream.stream := hd_stream; Stream.usedResolution := Some HD |}.

Definition one_half : JS.number := JS.div (JS.of_Z 1) (JS.of_Z 2).

(** [new Capture()] in a browser where nothing was allocated yet. *)
Definition fresh_capture : Capture.Self :=
  match Capture.constructor canvases initial_dom with
  | (Ok c, d) => (c, d)
  | (Throw _, d) => (Webcam.capture unconfigured, d)
  end.


Definition at_scale (s : JS.number) : CaptureOptions :=
  {| scale := Some s; mirror := None; crop := None; imageType := None;
     quality := None; includeBase64 := None |}.

Definition mirrored_at_scale (s : JS.number) : CaptureOptions :=
  {| scale := Some s; mirror := Some true; crop := None; imageType := None;
     quality := None; includeBase64 := None |}.

(** A capture as a BMP, a type the scenario's browser does not encode. *)
Definition as_bmp : CaptureOptions :=
  {| scale := None; mirror := None; crop := None; imageType := Some "image/bmp";
     quality := None; includeBase64 := None |}.

(** A 200x100 region at (10, 20). *)
Definition region : CropRegion :=
  {| crop_x := JS.of_Z 10; crop_y := JS.of_Z 20;
     crop_width := JS.of_Z 200; crop_height := JS.of_Z 100 |}.

Definition cropped_at_scale (s : JS.number) : CaptureOptions :=
  {| scale := Some s; mirror := None; crop := Some region; imageType := None;
     quality := None; includeBase64 := None |}.

End Scenario.

(** ** Scenarios: a studio with two cameras and a microphone *)

Module Studio.

Definition device (kind : MediaDeviceKind) (id name : string) : EnumeratedDevice :=
  {| device_kind := kind;
     device_info := {| deviceId := id; device_label := name |} |}.

Definition microphone_in : EnumeratedDevice := device audioinput "mic-0" "Microphone".
Definition front_camera : EnumeratedDevice := device videoinput "cam-0" "Front camera".
Definition speaker_out : EnumeratedDevice := device audiooutput "out-0" "Speaker".
Definition back_camera : EnumeratedDevice := device videoinput "cam-1" "Back camera".

(** What a camera of the studio can do: up to 1920x1080, zoom from 1 to 4,
    no torch, no focus control. *)
Definition camera_capabilities : MediaTrackCapabilities :=
  {| capability_width :=
       Some {| range_min := Some (JS.of_Z 320); range_max := Some (JS.of_Z 1920) |};
     capability_height :=
       Some {| range_min := Some (JS.of_Z 240); range_max := Some (JS.of_Z 1080) |};
     capability_frameRate :=
       Some {| range_min := Some (JS.of_Z 1); range_max := Some (JS.of_Z 30) |};
     capability_zoom :=
       Some {| range_min := Some (JS.of_Z 1); range_max := Some (JS.of_Z 4) |};
     capability_torch := None;
     capability_focusMode := None |}.

Definition audio_settings : MediaTrackSettings :=
  {| settings_width := None; settings_height := None |}.

(** The browser lists four devices, reports the camera permission as
    granted and cannot be asked for the microphone permission; a request by
    flags is granted with one track per flag. *)
Definition browser : DevicePlatform :=
  {| enumerateDevices_answer :=
       inr [microphone_in; front_camera; speaker_out; back_camera];
     permissions_query := fun name =>
       match name with
       | camera => inr granted
       | microphone => inl (TypeError "'microphone' is not a valid permission name")
       end;
     gum_flags := fun video audio =>
       match video, audio with
       | false, false =>
           inl (TypeError "At least one of audio and video must be requested")
       | _, _ =>
           inr ((if video then [(VideoKind, Scenario.hd_settings)] else [])
                ++ (if audio then [(AudioKind, audio_settings)] else []))
       end;
     getCapabilities_answer := fun _ => inr camera_capabilities;
     label_of := fun _ => "Front camera";
     deviceId_of := fun _ => Some "cam-0";
     frameRate_of := fun _ => Some (JS.of_Z 30) |}.

(** The same browser without [getCapabilities] on its tracks. *)
Definition old_browser : DevicePlatform :=
  {| enumerateDevices_answer := enumerateDevices_answer browser;
     permissions_query := permissions_query browser;
     gum_flags := gum_flags browser;
     getCapabilities_answer := fun _ =>
       inl (TypeError "track.getCapabilities is not a function");
     label_of := label_of browser;
     deviceId_of := deviceId_of browser;
     frameRate_of := frameRate_of browser |}.

(** A browser that refuses every camera request. *)
Definition locked_camera : Platform :=
  {| gum := fun _ => inl (DOMException "NotAllowedError" "Permission denied");
     apply_answer := fun _ _ => None;
     srcObject_checked := true |}.

(** A browser whose canvases give no 2D context. *)
Definition no_context : CanvasPlatform :=
  {| getContext_2d := false; toBlob_ok := true;
     encoded_type := fun type => type;
     readAsDataURL := fun _ => None;
     createImageBitmap_ok := true |}.

(** A browser whose FileReader fails. *)
Definition no_reader : CanvasPlatform :=
  {| getContext_2d := true; toBlob_ok := true;
     encoded_type := fun type => type;
     readAsDataURL := fun _ => None;
     createImageBitmap_ok := true |}.

(** The engine after [dispose]. *)
Definition disposed_capture : Capture.Self :=
  snd (Capture.dispose Scenario.fresh_capture).

(** A configuration whose list of resolutions is empty. *)
Definition empty_list : WebcamConfiguration :=
  Scenario.config_with (Some (array [])).

(** A 640x360 pixel buffer and a canvas of the default size. *)
Definition frame : ImageData :=
  {| data_id := 7; data_width := JS.of_Z 640; data_height := JS.of_Z 360;
     data_pixels := 1 |}.

Definition target : Canvas :=
  {| canvas_id := 9; canvas_width := JS.of_Z 300; canvas_height := JS.of_Z 150 |}.

End Studio.
(* ===================================================================== *)
(** * Properties                                                         *)
(* ===================================================================== *)

(** ** Live constraints: the error taxonomy of [Stream.applyConstraints] *)

Lemma overconstraint_failure_test (e : ErrorValue) :
  overconstraint_failure e <->
  instanceof_Error e &&
    match error_name e with
    | Some n => String.eqb n "OverconstrainedError"
    | None => false
    end = true.
Proof.
  unfold overconstraint_failure. rewrite andb_true_iff.
  split; intros [Hi Hn]; split; auto.
  - rewrite Hn. apply String.eqb_refl.
  - destruct (error_name e) as [n|]; [|discriminate].
    apply String.eqb_eq in Hn. now subst.
Qed.

Section ApplyConstraints.

Variable P : Platform.
Variable patch : MediaTrackConstraintSet.
Variable self : Stream.t.
Variable w : World.

Let outcome := Stream.applyConstraints P patch (self, w).

Lemma applyConstraints_no_stream :
  Stream.activeStream self = None ->
  thrown_code (fst outcome) = Some STREAM_ERROR /\ snd outcome = (self, w).
Proof.
  intros H. subst outcome. unfold Stream.applyConstraints, bind, get. cbn.
  rewrite H. now cbn.
Qed.

Lemma applyConstraints_no_video_track (s : MediaStream) :
  Stream.activeStream self = Some s -> getVideoTracks s = [] ->
  thrown_code (fst outcome) = Some STREAM_ERROR /\ snd outcome = (self, w).
Proof.
  intros H Hv. subst outcome. unfold Stream.applyConstraints, bind, get. cbn.
  rewrite H, Hv. now cbn.
Qed.

Lemma applyConstraints_platform_failure (s : MediaStream)
    (track : MediaStreamTrack) (rest : list MediaStreamTrack) (e : ErrorValue) :
  Stream.activeStream self = Some s -> getVideoTracks s = track :: rest ->
  apply_answer P track patch = Some e ->
  fst outcome =
    Throw (if instanceof_Error e &&
              match error_name e with
              | Some n => String.eqb n "OverconstrainedError"
              | None => false
              end
           then WebcamError "Cannot apply constraints: not supported by device"
                            CONSTRAINT_ERROR (Some e)
           else WebcamError "Failed to apply constraints" STREAM_ERROR (Some e)).
Proof.
  intros H Hv Ha. subst outcome.
  unfold Stream.applyConstraints, bind, get, try_catch, Stream.in_world, focus,
    track_applyConstraints. cbn.
  rewrite H, Hv. cbn. rewrite Ha.
  now destruct (instanceof_Error e && _).
Qed.

End ApplyConstraints.

(** C6. [Stream.applyConstraints] throws a STREAM_ERROR-coded error when there
    is no active stream and when the active stream has no video track; when
    the track's [applyConstraints] fails with an OverconstrainedError it
    throws a CONSTRAINT_ERROR-coded error, and for every other failure of
    that call a STREAM_ERROR-coded one, each carrying the platform error. *)
Theorem applyConstraints_error_codes (P : Platform) (patch : MediaTrackConstraintSet)
    (self : Stream.t) (w : World) :
  let outcome := fst (Stream.applyConstraints P patch (self, w)) in
  (Stream.activeStream self = None -> thrown_code outcome = Some STREAM_ERROR)
  /\ (forall s, Stream.activeStream self = Some s -> getVideoTracks s = [] ->
        thrown_code outcome = Some STREAM_ERROR)
  /\ (forall s track rest e,
        Stream.activeStream self = Some s -> getVideoTracks s = track :: rest ->
        apply_answer P track patch = Some e ->
        (overconstraint_failure e ->
           exists msg, outcome = Throw (WebcamError msg CONSTRAINT_ERROR (Some e)))
        /\ (~ overconstraint_failure e ->
           exists msg, outcome = Throw (WebcamError msg STREAM_ERROR (Some e)))).
Proof.
  cbv zeta. split; [|split].
  - intros H. now apply applyConstraints_no_stream.
  - intros s H Hv. now apply (applyConstraints_no_video_track P patch self w s).
  - intros s track rest e H Hv Ha.
    rewrite (applyConstraints_platform_failure P patch self w s track rest e H Hv Ha).
    split; intros Ho.
    + apply overconstraint_failure_test in Ho. rewrite Ho. eauto.
    + destruct (instanceof_Error e && _) eqn:Ht; [|eauto].
      exfalso. apply Ho. now apply overconstraint_failure_test.
Qed.

(** On the 1280x720 camera: a zoom of 8 is over-constrained, the torch fails
    for another reason, and without a stream, or with an audio-only stream,
    nothing can be applied. *)
Lemma applyConstraints_error_codes_witness :
  thrown_code (fst (Stream.applyConstraints Scenario.hd_camera (zoom_patch (JS.of_Z 8))
                      (Stream.new, initial_world))) = Some STREAM_ERROR
  /\ thrown_code (fst (Stream.applyConstraints Scenario.hd_camera (zoom_patch (JS.of_Z 8))
                      ({| Stream.activeStream := Some Scenario.audio_only_stream |},
                       initial_world))) = Some STREAM_ERROR
  /\ (exists msg,
        fst (Stream.applyConstraints Scenario.hd_camera (zoom_patch (JS.of_Z 8))
               ({| Stream.activeStream := Some Scenario.hd_stream |}, initial_world))
        = Throw (WebcamError msg CONSTRAINT_ERROR
                   (Some (DOMException "OverconstrainedError" "zoom out of range"))))
  /\ (exists msg,
        fst (Stream.applyConstraints Scenario.hd_camera (torch_patch true)
               ({| Stream.activeStream := Some Scenario.hd_stream |}, initial_world))
        = Throw (WebcamError msg STREAM_ERROR
                   (Some (DOMException "NotSupportedError" "no torch")))).
Proof.
  split; [|split; [|split]].
  - exact (proj1 (applyConstraints_error_codes Scenario.hd_camera
                    (zoom_patch (JS.of_Z 8)) Stream.new initial_world) eq_refl).
  - exact (proj1 (proj2 (applyConstraints_error_codes Scenario.hd_camera
                           (zoom_patch (JS.of_Z 8))
                           {| Stream.activeStream := Some Scenario.audio_only_stream |}
                           initial_world))
             Scenario.audio_only_stream eq_refl eq_refl).
  - apply (proj2 (proj2 (applyConstraints_error_codes Scenario.hd_camera
                           (zoom_patch (JS.of_Z 8))
                           {| Stream.activeStream := Some Scenario.hd_stream |}
                           initial_world))
             Scenario.hd_stream Scenario.hd_track []
             (DOMException "OverconstrainedError" "zoom out of range")
             eq_refl eq_refl eq_refl).
    split; reflexivity.
  - apply (proj2 (proj2 (applyConstraints_error_codes Scenario.hd_camera
                           (torch_patch true)
                           {| Stream.activeStream := Some Scenario.hd_stream |}
                           initial_world))
             Scenario.hd_stream Scenario.hd_track []
             (DOMException "NotSupportedError" "no torch")
             eq_refl eq_refl eq_refl).
    intros [_ Hname]. discriminate Hname.
Defined.

(** ** Acquisition: the resolution candidates of [Stream.startStream] *)

Lemma add_gum_calls_nil (w : World) : add_gum_calls [] w = w.
Proof. destruct w. unfold add_gum_calls. cbn. now rewrite app_nil_r. Qed.




Section Candidates.

Variable P : Platform.
Variable config : WebcamConfiguration.

Lemma _buildConstraints_candidate (r : Resolution) :
  Stream._buildConstraints (Stream.with_resolution config r) =
  if Stream.invalid_resolution r then Throw invalid_config_error
  else Ok (candidate_constraints config r).
Proof.
  unfold Stream._buildConstraints. cbn. rewrite orb_false_r.
  now destruct (Stream.invalid_resolution r).
Qed.

(** One attempt, in terms of the candidate's outcome. *)
Lemma attempt_candidate (r : Resolution) (w : World) :
  Stream.attempt P (Stream.with_resolution config r) w =
  match candidate_outcome P config r with
  | inl e => (Throw e, add_gum_calls (requests config [r]) w)
  | inr shape =>
      (Ok (granted_stream w shape),
       {| live_tracks := live_tracks w ∪ track_ids (granted_stream w shape);
          gum_calls := gum_calls w ++ requests config [r];
          apply_calls := apply_calls w;
          next_id := (S (next_id w) + List.length shape)%nat |})
  end.
Proof.
  unfold Stream.attempt, bind, lift_result, candidate_outcome, requests.
  rewrite _buildConstraints_candidate. cbn.
  destruct (Stream.invalid_resolution r); cbn.
  - now rewrite add_gum_calls_nil.
  - unfold getUserMedia.
    now destruct (gum P (candidate_constraints config r)).
Qed.




End Candidates.



(** ** Acquisition with a single resolution, or none *)

Section SinglePath.

Variable P : Platform.
Variable config : WebcamConfiguration.
Variable self : Stream.t.
Variable w : World.

(** Outside the list case [startStream] is one attempt on the configuration
    as it stands. *)
Lemma startStream_one_attempt :
  (forall rs, preferredResolutions config <> Some (array rs)) ->
  Stream.startStream P config (self, w) =
  match Stream.attempt P config w with
  | (Ok s, w') =>
      (Ok {| Stream.stream := s;
             Stream.usedResolution :=
               match preferredResolutions config with
               | Some (single r) => Some r
               | _ => None
               end |},
       ({| Stream.activeStream := Some s |}, w'))
  | (Throw e, w') => (Throw (Stream._handleStartError e), (self, w'))
  end.
Proof.
  intros Hna.
  unfold Stream.startStream, try_catch, bind, Stream.in_world, focus.
  destruct (preferredResolutions config) as [[r|rs]|] eqn:Hp;
    try (exfalso; now apply (Hna rs));
    cbn [fst snd];
    destruct (Stream.attempt P config w) as [[s|e] w'];
    cbn; destruct self; reflexivity.
Qed.

Lemma _buildConstraints_single (r : Resolution) :
  preferredResolutions config = Some (single r) ->
  Stream._buildConstraints config =
  if Stream.invalid_resolution r then Throw invalid_config_error
  else Ok (candidate_constraints config r).
Proof.
  intros Hp. unfold Stream._buildConstraints. rewrite Hp. cbn.
  rewrite orb_false_r. now destruct (Stream.invalid_resolution r).
Qed.

Lemma _buildConstraints_default :
  preferredResolutions config = None ->
  Stream._buildConstraints config = Ok (default_constraints config).
Proof.
  intros Hp. unfold Stream._buildConstraints. rewrite Hp. reflexivity.
Qed.

Lemma startStream_single (r : Resolution) :
  preferredResolutions config = Some (single r) ->
  Stream.invalid_resolution r = false ->
  Stream.startStream P config (self, w) =
  match gum P (candidate_constraints config r) with
  | inl e =>
      (Throw (Stream._handleStartError e),
       (self, add_gum_calls [candidate_constraints config r] w))
  | inr shape =>
      (Ok {| Stream.stream := granted_stream w shape;
             Stream.usedResolution := Some r |},
       ({| Stream.activeStream := Some (granted_stream w shape) |},
        {| live_tracks := live_tracks w ∪ track_ids (granted_stream w shape);
           gum_calls := gum_calls w ++ [candidate_constraints config r];
           apply_calls := apply_calls w;
           next_id := (S (next_id w) + List.length shape)%nat |}))
  end.
Proof.
  intros Hp Hv. rewrite startStream_one_attempt by (intros rs; congruence).
  unfold Stream.attempt, bind, lift_result.
  rewrite (_buildConstraints_single r Hp), Hv, Hp. unfold getUserMedia.
  now destruct (gum P (candidate_constraints config r)).
Qed.

Lemma startStream_default :
  preferredResolutions config = None ->
  Stream.startStream P config (self, w) =
  match gum P (default_constraints config) with
  | inl e =>
      (Throw (Stream._handleStartError e),
       (self, add_gum_calls [default_constraints config] w))
  | inr shape =>
      (Ok {| Stream.stream := granted_stream w shape;
             Stream.usedResolution := None |},
       ({| Stream.activeStream := Some (granted_stream w shape) |},
        {| live_tracks := live_tracks w ∪ track_ids (granted_stream w shape);
           gum_calls := gum_calls w ++ [default_constraints config];
           apply_calls := apply_calls w;
           next_id := (S (next_id w) + List.length shape)%nat |}))
  end.
Proof.
  intros Hp. rewrite startStream_one_attempt by (intros rs; congruence).
  unfold Stream.attempt, bind, lift_result.
  rewrite (_buildConstraints_default Hp), Hp. unfold getUserMedia.
  now destruct (gum P (default_constraints config)).
Qed.

Lemma startStream_single_invalid (r : Resolution) :
  preferredResolutions config = Some (single r) ->
  Stream.invalid_resolution r = true ->
  Stream.startStream P config (self, w) =
  (Throw (WebcamError "Failed to start camera" UNKNOWN_ERROR
            (Some invalid_config_error)),
   (self, w)).
Proof.
  intros Hp Hv. rewrite startStream_one_attempt by (intros rs; congruence).
  unfold Stream.attempt, bind, lift_result.
  now rewrite (_buildConstraints_single r Hp), Hv.
Qed.

End SinglePath.

(** C7, as amended.  With a single resolution whose width and height are set,
    [startStream] makes exactly one request, and it carries the exact width
    and height of that resolution (and the exact device id when given); with
    no resolution at all it makes exactly one request, for the ideal
    dimensions 1280x720. *)
Theorem startStream_single_or_default_request (P : Platform)
    (config : WebcamConfiguration) (self : Stream.t) (w : World) :
  (forall r,
      preferredResolutions config = Some (single r) ->
      Stream.invalid_resolution r = false ->
      gum_calls (snd (snd (Stream.startStream P config (self, w))))
      = gum_calls w ++ [candidate_constraints config r]
      /\ c_width (c_video (candidate_constraints config r)) = Some (exact (width r))
      /\ c_height (c_video (candidate_constraints config r)) = Some (exact (height r)))
  /\ (preferredResolutions config = None ->
      gum_calls (snd (snd (Stream.startStream P config (self, w))))
      = gum_calls w ++ [default_constraints config]
      /\ uses_ideal_dimensions (default_constraints config)
      /\ one_attempt_with_ideal_dimensions P config self w).
Proof.
  split.
  - intros r Hp Hv. rewrite (startStream_single P config self w r Hp Hv).
    now destruct (gum P (candidate_constraints config r)).
  - intros Hp.
    assert (Hc : gum_calls (snd (snd (Stream.startStream P config (self, w))))
                 = gum_calls w ++ [default_constraints config]).
    { rewrite (startStream_default P config self w Hp).
      now destruct (gum P (default_constraints config)). }
    assert (Hi : uses_ideal_dimensions (default_constraints config)).
    { split; eexists; reflexivity. }
    split; [exact Hc|]. split; [exact Hi|].
    exists (default_constraints config). now split.
Qed.

(** A single HD resolution and no resolution at all, on the 1280x720 camera. *)
Lemma startStream_single_or_default_request_witness :
  gum_calls (snd (snd (Stream.startStream Scenario.hd_camera
                         (Scenario.config_with (Some (single Scenario.HD)))
                         (Stream.new, initial_world))))
  = [candidate_constraints (Scenario.config_with None) Scenario.HD]
  /\ gum_calls (snd (snd (Stream.startStream Scenario.hd_camera
                         (Scenario.config_with None) (Stream.new, initial_world))))
  = [default_constraints (Scenario.config_with None)].
Proof.
  split.
  - exact (proj1 (proj1 (startStream_single_or_default_request Scenario.hd_camera
                          (Scenario.config_with (Some (single Scenario.HD)))
                          Stream.new initial_world)
                   Scenario.HD eq_refl eq_refl)).
  - exact (proj1 (proj2 (startStream_single_or_default_request Scenario.hd_camera
                          (Scenario.config_with None) Stream.new initial_world)
                   eq_refl)).
Defined.

(** C7 as stated fails: for the single resolution HD the one request made
    asks for [exact] dimensions, not [ideal] ones. *)
Lemma single_resolution_is_not_requested_as_ideal :
  ~ one_attempt_with_ideal_dimensions Scenario.hd_camera
      (Scenario.config_with (Some (single Scenario.HD))) Stream.new initial_world.
Proof.
  intros (c & Hcalls & (v & Hw) & _).
  cbn in Hcalls. injection Hcalls as <-. discriminate Hw.
Qed.

(** ** Validation of the configured resolutions *)

Lemma missing_or_zero_falsy (v : option JS.number) :
  missing_or_zero v -> JS.truthy_opt v = false.
Proof. intros [-> | [s ->]]; reflexivity. Qed.

Lemma invalid_resolution_intro (r : Resolution) :
  missing_or_zero (width r) \/ missing_or_zero (height r) ->
  Stream.invalid_resolution r = true.
Proof.
  unfold Stream.invalid_resolution.
  intros [H | H]; rewrite (missing_or_zero_falsy _ H); cbn;
    [reflexivity | apply orb_true_r].
Qed.

Lemma _buildConstraints_rejects (config : WebcamConfiguration) (rs : list Resolution) :
  preferredResolutions config = Some (array rs)
  \/ (exists r, preferredResolutions config = Some (single r) /\ rs = [r]) ->
  existsb Stream.invalid_resolution rs = true ->
  Stream._buildConstraints config = Throw invalid_config_error.
Proof.
  intros Hp He. unfold Stream._buildConstraints.
  destruct Hp as [-> | (r & -> & ->)]; now rewrite He.
Qed.

Section InvalidCandidate.

Variable P : Platform.
Variable config : WebcamConfiguration.

(** The loop's answer does not depend on the error remembered before it
    started, as soon as there is a candidate to try. *)
Lemma try_resolutions_forgets (rs : list Resolution) (e1 e2 : option ErrorValue)
    (w : World) :
  rs <> [] ->
  match Stream.try_resolutions P config rs e1 w,
        Stream.try_resolutions P config rs e2 w with
  | (Ok (Some f1, _), w1), (Ok (Some f2, _), w2) => f1 = f2 /\ w1 = w2
  | (Ok (None, l1), w1), (Ok (None, l2), w2) => l1 = l2 /\ w1 = w2
  | _, _ => False
  end.
Proof.
  revert e1 e2 w.
  induction rs as [|r rs IH]; intros e1 e2 w Hne; [congruence|].
  cbn [Stream.try_resolutions].
  destruct (Stream.attempt P (Stream.with_resolution config r) w) as [[s|e] w'].
  - auto.
  - destruct rs as [|r' rs'].
    + cbn. auto.
    + apply IH. discriminate.
Qed.

Lemma with_resolution_with_preference (pref : option ResolutionPreference)
    (r : Resolution) :
  Stream.with_resolution (with_preference pref config) r
  = Stream.with_resolution config r.
Proof. reflexivity. Qed.

Lemma try_resolutions_with_preference (pref : option ResolutionPreference)
    (rs : list Resolution) (before : option ErrorValue) (w : World) :
  Stream.try_resolutions P (with_preference pref config) rs before w
  = Stream.try_resolutions P config rs before w.
Proof.
  revert before w. induction rs as [|r rs IH]; intros before w; [reflexivity|].
  cbn [Stream.try_resolutions]. rewrite with_resolution_with_preference.
  destruct (Stream.attempt P (Stream.with_resolution config r) w) as [[s|e] w'];
    [reflexivity | apply IH].
Qed.

(** An invalid candidate in front of other candidates changes nothing:
    no request is made for it and the rest is tried as if it were absent. *)
Lemma startStream_skips_invalid (bad : Resolution) (rest : list Resolution)
    (self : Stream.t) (w : World) :
  Stream.invalid_resolution bad = true ->
  rest <> [] ->
  Stream.startStream P (with_preference (Some (array (bad :: rest))) config) (self, w)
  = Stream.startStream P (with_preference (Some (array rest)) config) (self, w).
Proof.
  intros Hbad Hne.
  unfold Stream.startStream, try_catch, bind, Stream.in_world, focus.
  cbn [preferredResolutions with_preference fst snd].
  rewrite !try_resolutions_with_preference.
  cbn [Stream.try_resolutions].
  rewrite attempt_candidate. unfold candidate_outcome, requests. cbn [List.filter List.map].
  rewrite Hbad. cbn [negb List.map]. rewrite add_gum_calls_nil.
  pose proof (try_resolutions_forgets rest
                (Some (Stream.as_Error invalid_config_error)) None w Hne) as H.
  destruct (Stream.try_resolutions P config rest
              (Some (Stream.as_Error invalid_config_error)) w)
    as [[[[f1|] l1]|x1] w1];
    destruct (Stream.try_resolutions P config rest None w)
      as [[[[f2|] l2]|x2] w2]; try contradiction;
    destruct H as [-> ->]; reflexivity.
Qed.

End InvalidCandidate.

(** C10. A configured resolution whose width or height is missing or zero
    makes [_buildConstraints] throw an INVALID_CONFIG-coded error, be it the
    single resolution or a member of the list.  On the single-resolution path
    of [startStream] this happens before any [getUserMedia] call (none is
    logged, the state is untouched, and the error surfaces as the original
    error of the thrown one).  On the list path the invalid candidate counts
    as a failed candidate: no request is made for it and the candidates after
    it are tried as if it were not there. *)
Theorem invalid_resolution_is_rejected (P : Platform) (config : WebcamConfiguration)
    (self : Stream.t) (w : World) :
  (forall r,
      preferredResolutions config = Some (single r) ->
      missing_or_zero (width r) \/ missing_or_zero (height r) ->
      thrown_code (Stream._buildConstraints config) = Some INVALID_CONFIG
      /\ snd (Stream.startStream P config (self, w)) = (self, w)
      /\ exists thrown,
           fst (Stream.startStream P config (self, w)) = Throw thrown
           /\ option_map error_code (original_error thrown)
              = Some (Some INVALID_CONFIG))
  /\ (forall rs r,
      preferredResolutions config = Some (array rs) ->
      In r rs ->
      missing_or_zero (width r) \/ missing_or_zero (height r) ->
      thrown_code (Stream._buildConstraints config) = Some INVALID_CONFIG)
  /\ (forall bad rest,
      missing_or_zero (width bad) \/ missing_or_zero (height bad) ->
      candidate_fails P config bad
      /\ requests config [bad] = []
      /\ (rest <> [] ->
          Stream.startStream P (with_preference (Some (array (bad :: rest))) config)
                             (self, w)
          = Stream.startStream P (with_preference (Some (array rest)) config)
                               (self, w))).
Proof.
  split; [|split].
  - intros r Hp Hbad. apply invalid_resolution_intro in Hbad.
    rewrite (startStream_single_invalid P config self w r Hp Hbad).
    rewrite (_buildConstraints_single config r Hp), Hbad.
    split; [reflexivity|]. split; [reflexivity|].
    eexists. split; reflexivity.
  - intros rs r Hp Hin Hbad. apply invalid_resolution_intro in Hbad.
    rewrite (_buildConstraints_rejects config rs); [reflexivity | now left |].
    apply existsb_exists. now exists r.
  - intros bad rest Hbad. apply invalid_resolution_intro in Hbad.
    split; [|split].
    + exists invalid_config_error. unfold candidate_outcome. now rewrite Hbad.
    + unfold requests. cbn. now rewrite Hbad.
    + intros Hne. now apply startStream_skips_invalid.
Qed.

(** A single resolution without width is rejected before the camera is
    asked; in a list, the same resolution in front of HD is passed over. *)
Lemma invalid_resolution_is_rejected_witness :
  (thrown_code (Stream._buildConstraints
                  (Scenario.config_with (Some (single Scenario.broken))))
   = Some INVALID_CONFIG
   /\ snd (Stream.startStream Scenario.hd_camera
             (Scenario.config_with (Some (single Scenario.broken)))
             (Stream.new, initial_world))
      = (Stream.new, initial_world))
  /\ Stream.startStream Scenario.hd_camera
       (with_preference (Some (array [Scenario.broken; Scenario.HD]))
                        (Scenario.config_with None))
       (Stream.new, initial_world)
     = Stream.startStream Scenario.hd_camera
         (with_preference (Some (array [Scenario.HD])) (Scenario.config_with None))
         (Stream.new, initial_world).
Proof.
  split.
  - destruct (proj1 (invalid_resolution_is_rejected Scenario.hd_camera
                       (Scenario.config_with (Some (single Scenario.broken)))
                       Stream.new initial_world)
                Scenario.broken eq_refl (or_introl (or_introl eq_refl)))
      as (Hbuild & Hstate & _).
    split; [exact Hbuild | exact Hstate].
  - refine (proj2 (proj2 (proj2 (proj2 (invalid_resolution_is_rejected
                       Scenario.hd_camera (Scenario.config_with None)
                       Stream.new initial_world))
                Scenario.broken [Scenario.HD] (or_introl (or_introl eq_refl)))) _).
    discriminate.
Defined.

(** ** What [startStream] leaves behind *)

Lemma _handleStartError_is_WebcamError (e : ErrorValue) :
  instanceof_WebcamError (Stream._handleStartError e) = true.
Proof.
  unfold Stream._handleStartError.
  repeat match goal with |- context [if ?b then _ else _] => destruct b end;
    reflexivity.
Qed.

Section StartStreamEffects.

Variable P : Platform.

Lemma attempt_throw_keeps_tracks (config : WebcamConfiguration) (w w' : World)
    (e : ErrorValue) :
  Stream.attempt P config w = (Throw e, w') ->
  live_tracks w' = live_tracks w /\ next_id w' = next_id w.
Proof.
  unfold Stream.attempt, bind, lift_result.
  destruct (Stream._buildConstraints config) as [c|e0].
  - unfold getUserMedia. destruct (gum P c); intros [= <- <-]; auto.
  - intros [= <- <-]. auto.
Qed.

Lemma try_resolutions_none_keeps_tracks (config : WebcamConfiguration)
    (rs : list Resolution) (before l : option ErrorValue) (w w' : World) :
  Stream.try_resolutions P config rs before w = (Ok (None, l), w') ->
  live_tracks w' = live_tracks w /\ next_id w' = next_id w.
Proof.
  revert before w. induction rs as [|r rs IH]; intros before w.
  - cbn. intros [= <- <-]. auto.
  - cbn [Stream.try_resolutions].
    destruct (Stream.attempt P (Stream.with_resolution config r) w)
      as [[s|e] w1] eqn:Ha; [discriminate|].
    intros H. apply IH in H. apply attempt_throw_keeps_tracks in Ha.
    destruct H, Ha. split; congruence.
Qed.

Lemma try_resolutions_never_throws (config : WebcamConfiguration)
    (rs : list Resolution) (before : option ErrorValue) (w w' : World)
    (e : ErrorValue) :
  Stream.try_resolutions P config rs before w <> (Throw e, w').
Proof.
  revert before w. induction rs as [|r rs IH]; intros before w; [discriminate|].
  cbn [Stream.try_resolutions].
  destruct (Stream.attempt P (Stream.with_resolution config r) w) as [[s|e0] w1];
    [discriminate | apply IH].
Qed.

(** A successful start installs the returned stream as the active one. *)
Lemma startStream_ok (config : WebcamConfiguration) (self self' : Stream.t)
    (w w' : World) (r : Stream.StartResult) :
  Stream.startStream P config (self, w) = (Ok r, (self', w')) ->
  Stream.activeStream self' = Some (Stream.stream r).
Proof.
  unfold Stream.startStream, try_catch, bind, Stream.in_world, focus.
  destruct (preferredResolutions config) as [[r0|rs]|]; cbn [fst snd].
  - destruct (Stream.attempt P config w) as [[s|e] w1]; cbn; [|discriminate].
    now intros [= <- <- <-].
  - destruct (Stream.try_resolutions P config rs None w) as [[[[[s r1]|] [l|]]|e] w1];
      cbn; try discriminate; now intros [= <- <- <-].
  - destruct (Stream.attempt P config w) as [[s|e] w1]; cbn; [|discriminate].
    now intros [= <- <- <-].
Qed.

(** A failed start leaves the object and the live tracks as they were and
    throws a WebcamError. *)
Lemma startStream_throw (config : WebcamConfiguration) (self self' : Stream.t)
    (w w' : World) (e : ErrorValue) :
  Stream.startStream P config (self, w) = (Throw e, (self', w')) ->
  self' = self /\ instanceof_WebcamError e = true
  /\ live_tracks w' = live_tracks w.
Proof.
  unfold Stream.startStream, try_catch, bind, Stream.in_world, focus.
  destruct (preferredResolutions config) as [[r0|rs]|]; cbn [fst snd].
  - destruct (Stream.attempt P config w) as [[s|e0] w1] eqn:Ha; cbn; [discriminate|].
    intros [= <- <- <-]. apply attempt_throw_keeps_tracks in Ha.
    destruct self. split; [reflexivity|].
    split; [apply _handleStartError_is_WebcamError | apply Ha].
  - destruct (Stream.try_resolutions P config rs None w)
      as [[[[[s r1]|] [l|]]|e0] w1] eqn:Ht; cbn; try discriminate.
    + intros [= <- <- <-]. apply try_resolutions_none_keeps_tracks in Ht.
      destruct self. split; [reflexivity|].
      split; [apply _handleStartError_is_WebcamError | apply Ht].
    + intros [= <- <- <-]. apply try_resolutions_none_keeps_tracks in Ht.
      destruct self. split; [reflexivity|].
      split; [reflexivity | apply Ht].
    + exfalso. exact (try_resolutions_never_throws _ _ _ _ _ _ Ht).
  - destruct (Stream.attempt P config w) as [[s|e0] w1] eqn:Ha; cbn; [discriminate|].
    intros [= <- <- <-]. apply attempt_throw_keeps_tracks in Ha.
    destruct self. split; [reflexivity|].
    split; [apply _handleStartError_is_WebcamError | apply Ha].
Qed.

End StartStreamEffects.

(** ** JavaScript numbers: the literals, rounding and comparisons *)

Example lit_0_1_is_one_tenth : JS.lit_0_1 = JS.div (JS.of_Z 1) (JS.of_Z 10).
Proof. vm_compute. reflexivity. Qed.

Example lit_0_92_is_92_hundredths : JS.lit_0_92 = JS.div (JS.of_Z 92) (JS.of_Z 100).
Proof. vm_compute. reflexivity. Qed.

Example lit_1_is_one : JS.lit_1 = JS.of_Z 1.
Proof. vm_compute. reflexivity. Qed.

Example lit_2_is_two : JS.lit_2 = JS.of_Z 2.
Proof. vm_compute. reflexivity. Qed.

(** [Math.floor(1280 * 0.5)] is 640, and [Math.floor(-0.5)] is -1. *)
Example floor_of_half_of_1280 :
  floor_of_scaled (JS.of_Z 1280) (JS.div (JS.of_Z 1) (JS.of_Z 2)) = JS.of_Z 640.
Proof. vm_compute. reflexivity. Qed.

Example floor_of_minus_one_half :
  JS.Math_floor (JS.div (JS.of_Z (-1)) (JS.of_Z 2)) = JS.of_Z (-1).
Proof. vm_compute. reflexivity. Qed.

(** The floor is taken after the product is rounded to a double:
    [100 * 0.57] is [56.99999999999999], so [Math.floor(100 * 0.57)] is 56. *)
Example floor_is_taken_after_rounding :
  floor_of_scaled (JS.of_Z 100) (JS.div (JS.of_Z 57) (JS.of_Z 100)) = JS.of_Z 56.
Proof. vm_compute. reflexivity. Qed.


Lemma SFcompare_antisym (a b : spec_float) :
  SFcompare b a = option_map CompOpp (SFcompare a b).
Proof.
  destruct a as [sa|sa| |sa ma ea], b as [sb|sb| |sb mb eb]; cbn;
    try reflexivity;
    try (destruct sa; reflexivity); try (destruct sb; reflexivity);
    try (destruct sa, sb; reflexivity).
  destruct sa, sb; cbn; try reflexivity.
  all: rewrite (Z.compare_antisym ea eb);
    destruct (ea ?= eb); cbn; try reflexivity;
    change (Pos.compare_cont Eq mb ma) with (Pos.compare mb ma);
    change (Pos.compare_cont Eq ma mb) with (Pos.compare ma mb);
    rewrite (Pos.compare_antisym ma mb); try reflexivity;
    now rewrite CompOpp_involutive.
Qed.

(** [a <= b] rules out [b < a]. *)
Lemma leb_not_ltb (a b : JS.number) : JS.leb a b = true -> JS.ltb b a = false.
Proof.
  unfold JS.leb, JS.ltb, SFleb, SFltb. rewrite (SFcompare_antisym a b).
  destruct (SFcompare a b) as [[]|]; cbn; congruence.
Qed.

Lemma ltb_not_leb (a b : JS.number) : JS.ltb a b = true -> JS.leb b a = false.
Proof.
  unfold JS.leb, JS.ltb, SFleb, SFltb. rewrite (SFcompare_antisym a b).
  destruct (SFcompare a b) as [[]|]; cbn; congruence.
Qed.

(** ** Symbolic execution *)

Arguments Stream.startStream : simpl never.
Arguments Stream.stopStream : simpl never.
Arguments Stream.applyConstraints : simpl never.

(** Case analysis on the first test that blocks the computation in [H]. *)
Ltac step_in H :=
  match type of H with
  | context [match ?x with _ => _ end] =>
      lazymatch x with
      | context [match _ with _ => _ end] => fail
      | _ => destruct x eqn:?
      end
  end; cbn in H.

(** ** Tracks: stopping, and what an acquisition adds *)

Lemma stop_tracks_live (ts : list MediaStreamTrack) (w : World) :
  live_tracks (List.fold_left (fun w t => track_stop t w) ts w)
  = live_tracks w ∖ list_to_set (List.map track_id ts).
Proof.
  revert w. induction ts as [|t ts IH]; intros w; cbn.
  - set_solver.
  - rewrite IH. cbn. set_solver.
Qed.

(** [stopStream] always returns, forgets the stream it held and ends the
    tracks of that stream. *)
Lemma stopStream_run (self : Stream.t) (w : World) :
  exists w',
    Stream.stopStream (self, w) = (Ok tt, ({| Stream.activeStream := None |}, w'))
    /\ live_tracks w' = live_tracks w ∖ held_tracks self.
Proof.
  unfold Stream.stopStream, held_tracks, bind, get, Stream.in_world, focus,
    Stream.set_activeStream, modify. cbn.
  destruct self as [[s|]]; cbn.
  - eexists. split; [reflexivity|]. apply stop_tracks_live.
  - exists w. split; [reflexivity | set_solver].
Qed.

Lemma sink_after_alter (f : HTMLVideoElement -> HTMLVideoElement)
    (els : gmap nat HTMLVideoElement) (h : nat) (e : HTMLVideoElement) :
  alter f h els !! h = Some e -> exists e0, els !! h = Some e0 /\ e = f e0.
Proof.
  rewrite lookup_alter_eq. destruct (els !! h) as [e0|]; cbn; [|discriminate].
  intros [= <-]. eauto.
Qed.

(** ** Track identities *)

Arguments Stream.stop_tracks : simpl never.
Arguments granted_stream : simpl never.

Lemma track_ids_make_tracks (n : nat) (shape : list (TrackKind * MediaTrackSettings))
    (i : nat) :
  i ∈ (list_to_set (List.map track_id (make_tracks n shape)) : gset nat)
  <-> (n <= i < n + List.length shape)%nat.
Proof.
  revert n. induction shape as [|[k st] shape IH]; intros n; cbn.
  - split; [set_solver | lia].
  - rewrite elem_of_union, elem_of_singleton, IH. lia.
Qed.

Lemma granted_stream_fresh (w : World) (shape : list (TrackKind * MediaTrackSettings)) :
  fresh_ids w -> track_ids (granted_stream w shape) ## live_tracks w.
Proof.
  intros Hf i Hi Hl. apply Hf in Hl.
  unfold track_ids, granted_stream in Hi. cbn in Hi.
  apply track_ids_make_tracks in Hi. lia.
Qed.

Lemma stop_tracks_run (s : MediaStream) (w : World) :
  live_tracks (Stream.stop_tracks s w) = live_tracks w ∖ track_ids s
  /\ next_id (Stream.stop_tracks s w) = next_id w
  /\ gum_calls (Stream.stop_tracks s w) = gum_calls w
  /\ apply_calls (Stream.stop_tracks s w) = apply_calls w.
Proof.
  unfold Stream.stop_tracks, track_ids, getTracks.
  split; [apply stop_tracks_live|].
  generalize (stream_tracks s). intros ts. revert w.
  induction ts as [|t ts IH]; intros w; cbn; [auto|].
  destruct (IH (track_stop t w)) as (-> & -> & ->). auto.
Qed.

Lemma getUserMedia_run (P : Platform) (c : MediaStreamConstraints) (w : World) :
  match gum P c with
  | inl e => getUserMedia P c w = (Throw e, add_gum_calls [c] w)
  | inr shape =>
      exists w',
        getUserMedia P c w = (Ok (granted_stream w shape), w')
        /\ live_tracks w' = live_tracks w ∪ track_ids (granted_stream w shape)
        /\ gum_calls w' = gum_calls w ++ [c]
        /\ apply_calls w' = apply_calls w
        /\ next_id w' = (S (next_id w) + List.length shape)%nat
  end.
Proof.
  unfold getUserMedia, add_gum_calls, granted_stream.
  destruct (gum P c); [reflexivity|]. eexists. split; [reflexivity|]. cbn. auto.
Qed.

Lemma fresh_ids_granted (w w' : World) (shape : list (TrackKind * MediaTrackSettings)) :
  fresh_ids w ->
  live_tracks w' ⊆ live_tracks w ∪ track_ids (granted_stream w shape) ->
  next_id w' = (S (next_id w) + List.length shape)%nat ->
  fresh_ids w'.
Proof.
  intros Hf Hl Hn i Hi. rewrite Hn. apply Hl in Hi.
  apply elem_of_union in Hi as [Hi|Hi].
  - apply Hf in Hi. lia.
  - unfold track_ids, granted_stream in Hi. cbn in Hi.
    apply track_ids_make_tracks in Hi. lia.
Qed.

Lemma fresh_ids_initial : fresh_ids initial_world.
Proof. intros i Hi. cbn in Hi. now apply not_elem_of_empty in Hi. Qed.


Lemma acquired_fresh (w w' : World) (s : MediaStream) :
  acquired w w' s -> fresh_ids w ->
  fresh_ids w' /\ track_ids s ## live_tracks w.
Proof.
  intros (shape & -> & Hl & Hn) Hf. split.
  - apply (fresh_ids_granted w w' shape Hf); [rewrite Hl; set_solver | exact Hn].
  - now apply granted_stream_fresh.
Qed.

Lemma granted_stream_next_id (w1 w2 : World) (shape : list (TrackKind * MediaTrackSettings)) :
  next_id w1 = next_id w2 -> granted_stream w1 shape = granted_stream w2 shape.
Proof. unfold granted_stream. now intros ->. Qed.

Lemma attempt_acquires (P : Platform) (config : WebcamConfiguration) (w w' : World)
    (s : MediaStream) :
  Stream.attempt P config w = (Ok s, w') -> acquired w w' s.
Proof.
  unfold Stream.attempt, bind, lift_result.
  destruct (Stream._buildConstraints config) as [c|e]; [|discriminate].
  pose proof (getUserMedia_run P c w) as Hg.
  destruct (gum P c) as [e|shape]; [rewrite Hg; discriminate|].
  destruct Hg as (w1 & -> & Hl & _ & _ & Hn). intros [= <- <-].
  exists shape. auto.
Qed.

Lemma try_resolutions_acquires (P : Platform) (config : WebcamConfiguration)
    (rs : list Resolution) (before l : option ErrorValue) (w w' : World)
    (s : MediaStream) (r : Resolution) :
  Stream.try_resolutions P config rs before w = (Ok (Some (s, r), l), w') ->
  acquired w w' s.
Proof.
  revert before w. induction rs as [|r0 rs IH]; intros before w; [discriminate|].
  cbn [Stream.try_resolutions].
  destruct (Stream.attempt P (Stream.with_resolution config r0) w)
    as [[s0|e] w1] eqn:Ha.
  - intros [= <- <- <- <-]. now apply attempt_acquires in Ha.
  - intros H. apply IH in H as (shape & -> & Hl & Hn).
    apply attempt_throw_keeps_tracks in Ha as [Hl1 Hn1].
    exists shape. rewrite (granted_stream_next_id w1 w shape Hn1) in *.
    split; [reflexivity|]. split; congruence.
Qed.

Lemma startStream_acquires (P : Platform) (config : WebcamConfiguration)
    (self self' : Stream.t) (w w' : World) (r : Stream.StartResult) :
  Stream.startStream P config (self, w) = (Ok r, (self', w')) ->
  acquired w w' (Stream.stream r).
Proof.
  unfold Stream.startStream, try_catch, bind, Stream.in_world, focus.
  destruct (preferredResolutions config) as [[r0|rs]|]; cbn [fst snd].
  - destruct (Stream.attempt P config w) as [[s|e] w1] eqn:Ha; cbn; [|discriminate].
    intros [= <- <- <-]. now apply attempt_acquires in Ha.
  - destruct (Stream.try_resolutions P config rs None w)
      as [[[[[s r1]|] [l|]]|e] w1] eqn:Ht; cbn; try discriminate.
    + intros [= <- <- <-]. now apply try_resolutions_acquires in Ht.
    + intros [= <- <- <-]. now apply try_resolutions_acquires in Ht.
  - destruct (Stream.attempt P config w) as [[s|e] w1] eqn:Ha; cbn; [|discriminate].
    intros [= <- <- <-]. now apply attempt_acquires in Ha.
Qed.

Lemma startStream_throw_world (P : Platform) (config : WebcamConfiguration)
    (self self' : Stream.t) (w w' : World) (e : ErrorValue) :
  Stream.startStream P config (self, w) = (Throw e, (self', w')) ->
  next_id w' = next_id w.
Proof.
  unfold Stream.startStream, try_catch, bind, Stream.in_world, focus.
  destruct (preferredResolutions config) as [[r0|rs]|]; cbn [fst snd].
  - destruct (Stream.attempt P config w) as [[s|e0] w1] eqn:Ha; cbn; [discriminate|].
    intros [= <- <- <-]. now apply attempt_throw_keeps_tracks in Ha.
  - destruct (Stream.try_resolutions P config rs None w)
      as [[[[[s r1]|] [l|]]|e0] w1] eqn:Ht; cbn; try discriminate.
    + intros [= <- <- <-]. now apply try_resolutions_none_keeps_tracks in Ht.
    + intros [= <- <- <-]. now apply try_resolutions_none_keeps_tracks in Ht.
    + exfalso. exact (try_resolutions_never_throws _ _ _ _ _ _ _ Ht).
  - destruct (Stream.attempt P config w) as [[s|e0] w1] eqn:Ha; cbn; [discriminate|].
    intros [= <- <- <-]. now apply attempt_throw_keeps_tracks in Ha.
Qed.


Lemma applyConstraints_on_track (P : Platform) (patch : MediaTrackConstraintSet)
    (self : Stream.t) (w : World) (s : MediaStream) (track : MediaStreamTrack)
    (rest : list MediaStreamTrack) :
  Stream.activeStream self = Some s ->
  getVideoTracks s = track :: rest ->
  Stream.applyConstraints P patch (self, w) =
  (match apply_answer P track patch with
   | None => Ok tt
   | Some e => Throw (constraint_failure e)
   end,
   (self, add_apply_call track patch w)).
Proof.
  intros H Hv.
  unfold Stream.applyConstraints, bind, get, try_catch, Stream.in_world, focus,
    track_applyConstraints, constraint_failure. cbn.
  rewrite H, Hv. cbn. destruct self.
  destruct (apply_answer P track patch) as [e|]; [|reflexivity].
  now destruct (instanceof_Error e && _).
Qed.


Lemma stopStream_closed (t : Stream.t) (w : World) :
  Stream.stopStream (t, w) = (Ok tt, (Stream.new, released_world t w)).
Proof.
  unfold Stream.stopStream, released_world, bind, get, Stream.in_world, focus,
    Stream.set_activeStream, modify, Stream.new. cbn.
  destruct t as [[s|]]; reflexivity.
Qed.

Lemma released_world_live (t : Stream.t) (w : World) :
  live_tracks (released_world t w) = live_tracks w ∖ held_tracks t
  /\ next_id (released_world t w) = next_id w.
Proof.
  unfold released_world, held_tracks.
  destruct (Stream.activeStream t) as [s|].
  - destruct (stop_tracks_run s w) as (-> & -> & _). auto.
  - split; [set_solver | reflexivity].
Qed.

(** ** Capture: scale and output dimensions *)

Arguments JS.mul : simpl never.
Arguments JS.div : simpl never.
Arguments JS.of_Z : simpl never.
Arguments JS.Math_floor : simpl never.
Arguments JS.Math_min : simpl never.
Arguments JS.Math_max : simpl never.
Arguments JS.strict_neq : simpl never.
Arguments JS.ltb : simpl never.
Arguments JS.leb : simpl never.
Arguments JS.eqb : simpl never.
Arguments Capture.clamp_scale : simpl never.
Arguments Capture.clamp_quality : simpl never.
Arguments Capture.dimensions_changed : simpl never.
Arguments Capture.sourceWidth : simpl never.
Arguments Capture.sourceHeight : simpl never.

Ltac unfold_capture :=
  unfold Capture.captureImageData, Capture.captureImage, Capture.captureImageBitmap,
    Capture.mirrored_bitmap, Capture.toBlob, Capture.draw_frame, Capture.apply_mirror,
    Capture.setTransform, Capture.resizeCanvas, Capture.dispose, Capture.update,
    Capture.this, Capture.in_dom, drawImage, getImageData_new,
    createImageBitmap, createElement_canvas, fresh_handle, log_draw, log_read,
    set_object_urls,
    bind, ret, throw, try_catch, when, modify, get, focus in *.

Lemma clamp_scale_in_range (v : JS.number) :
  JS.leb JS.lit_0_1 v = true -> JS.leb v JS.lit_2 = true ->
  Capture.clamp_scale (Some v) = v.
Proof.
  intros Hlo Hhi. unfold Capture.clamp_scale.
  pose proof (leb_not_ltb _ _ Hlo) as Hlo'.
  pose proof (leb_not_ltb _ _ Hhi) as Hhi'.
  destruct v as [s|s| |s m e].
  - exfalso. unfold JS.leb, SFleb, SFcompare, JS.lit_0_1 in Hlo. discriminate.
  - exfalso. unfold JS.leb, SFleb, SFcompare, JS.lit_0_1, JS.lit_2 in Hlo, Hhi.
    destruct s; discriminate.
  - exfalso. unfold JS.leb, SFleb, SFcompare, JS.lit_0_1 in Hlo. discriminate.
  - unfold JS.Math_min. unfold JS.lit_2 at 1. rewrite Hhi'.
    unfold JS.Math_max. unfold JS.lit_0_1 at 1. now rewrite Hlo'.
Qed.

Lemma below_0_1_not_above_2 (v : JS.number) :
  JS.ltb v JS.lit_0_1 = true -> JS.ltb JS.lit_2 v = false.
Proof.
  unfold JS.ltb, SFltb, SFcompare, JS.lit_0_1, JS.lit_2.
  destruct v as [s|s| |s m e]; try reflexivity.
  - now destruct s.
  - destruct s; [reflexivity|].
    destruct (Z.compare_spec e (-56)); destruct (Z.compare_spec (-51) e);
      try lia; try discriminate; reflexivity.
Qed.

Lemma clamp_scale_below (v : JS.number) :
  JS.ltb v JS.lit_0_1 = true -> Capture.clamp_scale (Some v) = JS.lit_0_1.
Proof.
  intros Hlo. pose proof (below_0_1_not_above_2 v Hlo) as Hhi.
  unfold Capture.clamp_scale.
  destruct v as [s|s| |s m e].
  - reflexivity.
  - destruct s; [reflexivity|].
    exfalso. unfold JS.ltb, SFltb, SFcompare, JS.lit_0_1 in Hlo. discriminate.
  - exfalso. unfold JS.ltb, SFltb, SFcompare, JS.lit_0_1 in Hlo. discriminate.
  - unfold JS.Math_min. unfold JS.lit_2 at 1. rewrite Hhi.
    unfold JS.Math_max. unfold JS.lit_0_1 at 1. now rewrite Hlo.
Qed.

Lemma clamp_scale_above (v : JS.number) :
  JS.ltb JS.lit_2 v = true -> Capture.clamp_scale (Some v) = JS.lit_2.
Proof.
  intros Hhi. unfold Capture.clamp_scale.
  destruct v as [s|s| |s m e].
  - exfalso. unfold JS.ltb, SFltb, SFcompare, JS.lit_2 in Hhi. discriminate.
  - destruct s; [|reflexivity].
    exfalso. unfold JS.ltb, SFltb, SFcompare, JS.lit_2 in Hhi. discriminate.
  - exfalso. unfold JS.ltb, SFltb, SFcompare, JS.lit_2 in Hhi. discriminate.
  - unfold JS.Math_min. unfold JS.lit_2 at 1. rewrite Hhi. reflexivity.
Qed.

Lemma sourceWidth_source_size (video : HTMLVideoElement) (options : CaptureOptions) :
  Capture.sourceWidth video (crop options) = fst (source_size video options)
  /\ Capture.sourceHeight video (crop options) = snd (source_size video options).
Proof.
  unfold Capture.sourceWidth, Capture.sourceHeight, source_size.
  now destruct (crop options).
Qed.

Section OutputSize.

Variable C : CanvasPlatform.
Variable video : HTMLVideoElement.
Variable options : CaptureOptions.

Lemma captureImageData_size (s out : Capture.Self) (r : CaptureImageDataResult.t) :
  Capture.captureImageData (Some video) options s = (Ok r, out) ->
  (CaptureImageDataResult.width r, CaptureImageDataResult.height r)
  = expected_size video options.
Proof.
  destruct s as [o d]. intros H.
  unfold expected_size, floor_of_scaled, effective_scale.
  destruct (sourceWidth_source_size video options) as [<- <-].
  unfold_capture. cbn in H.
  repeat step_in H.
  all: try discriminate H.
  all: injection H as <- <-; reflexivity.
Qed.

Lemma captureImage_size (s out : Capture.Self) (r : CaptureImageResult.t) :
  Capture.captureImage C (Some video) options s = (Ok r, out) ->
  (CaptureImageResult.width r, CaptureImageResult.height r)
  = expected_size video options.
Proof.
  destruct s as [o d]. intros H.
  unfold expected_size, floor_of_scaled, effective_scale.
  destruct (sourceWidth_source_size video options) as [<- <-].
  unfold_capture. cbn in H.
  repeat step_in H.
  all: try discriminate H.
  all: injection H as <- <-; reflexivity.
Qed.

Lemma captureImageBitmap_size (s out : Capture.Self) (r : CaptureImageBitmapResult.t) :
  Capture.captureImageBitmap C (Some video) options s = (Ok r, out) ->
  (CaptureImageBitmapResult.width r, CaptureImageBitmapResult.height r)
  = expected_size video options.
Proof.
  destruct s as [o d]. intros H.
  unfold expected_size, floor_of_scaled, effective_scale.
  destruct (sourceWidth_source_size video options) as [<- <-].
  unfold_capture. cbn in H.
  repeat step_in H.
  all: try discriminate H.
  all: injection H as <- <-; reflexivity.
Qed.

End OutputSize.

(** C4. Whatever [captureImageData], [captureImage] or [captureImageBitmap]
    returns, its width and height are [floor(sourceDimension * scale)], where
    the source dimension is the crop region's size when a crop is given and
    the video frame's size otherwise, and the scale is the requested one
    when it lies in [0.1, 2.0], 0.1 when it is below, 2.0 when it is above. *)
Theorem capture_output_dimensions (C : CanvasPlatform) (video : HTMLVideoElement)
    (options : CaptureOptions) (s : Capture.Self) :
  (forall r, fst (Capture.captureImageData (Some video) options s) = Ok r ->
     (CaptureImageDataResult.width r, CaptureImageDataResult.height r)
     = expected_size video options)
  /\ (forall r, fst (Capture.captureImage C (Some video) options s) = Ok r ->
     (CaptureImageResult.width r, CaptureImageResult.height r)
     = expected_size video options)
  /\ (forall r, fst (Capture.captureImageBitmap C (Some video) options s) = Ok r ->
     (CaptureImageBitmapResult.width r, CaptureImageBitmapResult.height r)
     = expected_size video options)
  /\ (forall v, scale options = Some v ->
        JS.leb JS.lit_0_1 v = true -> JS.leb v JS.lit_2 = true ->
        effective_scale options = v)
  /\ (forall v, scale options = Some v -> JS.ltb v JS.lit_0_1 = true ->
        effective_scale options = JS.lit_0_1)
  /\ (forall v, scale options = Some v -> JS.ltb JS.lit_2 v = true ->
        effective_scale options = JS.lit_2).
Proof.
  repeat split.
  - intros r H.
    destruct (Capture.captureImageData (Some video) options s) as [r0 out] eqn:E.
    cbn in H. subst r0. exact (captureImageData_size video options s out r E).
  - intros r H.
    destruct (Capture.captureImage C (Some video) options s) as [r0 out] eqn:E.
    cbn in H. subst r0. exact (captureImage_size C video options s out r E).
  - intros r H.
    destruct (Capture.captureImageBitmap C (Some video) options s) as [r0 out] eqn:E.
    cbn in H. subst r0. exact (captureImageBitmap_size C video options s out r E).
  - intros v Hs Hlo Hhi. unfold effective_scale. rewrite Hs.
    now apply clamp_scale_in_range.
  - intros v Hs Hlo. unfold effective_scale. rewrite Hs.
    now apply clamp_scale_below.
  - intros v Hs Hhi. unfold effective_scale. rewrite Hs.
    now apply clamp_scale_above.
Qed.

(** A 1280x720 frame at scale 0.5 comes out as 640x360, its 200x100 region
    as 100x50; 0.5 is kept as it is, 4 is clamped to 2, 0 to 0.1. *)
Lemma capture_output_dimensions_witness :
  (exists r,
      fst (Capture.captureImageData (Some Scenario.video)
             (Scenario.at_scale Scenario.one_half) Scenario.fresh_capture) = Ok r
      /\ (CaptureImageDataResult.width r, CaptureImageDataResult.height r)
         = (JS.of_Z 640, JS.of_Z 360))
  /\ (exists r,
      fst (Capture.captureImageBitmap Scenario.canvases (Some Scenario.video)
             (Scenario.cropped_at_scale Scenario.one_half) Scenario.fresh_capture) = Ok r
      /\ (CaptureImageBitmapResult.width r, CaptureImageBitmapResult.height r)
         = (JS.of_Z 100, JS.of_Z 50))
  /\ effective_scale (Scenario.at_scale Scenario.one_half) = Scenario.one_half
  /\ effective_scale (Scenario.at_scale (JS.of_Z 4)) = JS.lit_2
  /\ effective_scale (Scenario.at_scale JS.lit_0) = JS.lit_0_1.
Proof.
  split; [|split; [|split; [|split]]].
  - refine (ex_intro _ _ (conj _ _)); [vm_compute; reflexivity |].
    etransitivity.
    + apply (proj1 (capture_output_dimensions Scenario.canvases Scenario.video
                      (Scenario.at_scale Scenario.one_half) Scenario.fresh_capture)).
      vm_compute; reflexivity.
    + vm_compute; reflexivity.
  - refine (ex_intro _ _ (conj _ _)); [vm_compute; reflexivity |].
    etransitivity.
    + apply (proj1 (proj2 (proj2 (capture_output_dimensions Scenario.canvases
                      Scenario.video (Scenario.cropped_at_scale Scenario.one_half)
                      Scenario.fresh_capture)))).
      vm_compute; reflexivity.
    + vm_compute; reflexivity.
  - apply (proj1 (proj2 (proj2 (proj2 (capture_output_dimensions Scenario.canvases
             Scenario.video (Scenario.at_scale Scenario.one_half)
             Scenario.fresh_capture)))) Scenario.one_half eq_refl);
      vm_compute; reflexivity.
  - apply (proj2 (proj2 (proj2 (proj2 (proj2 (capture_output_dimensions
             Scenario.canvases Scenario.video (Scenario.at_scale (JS.of_Z 4))
             Scenario.fresh_capture))))) (JS.of_Z 4) eq_refl);
      vm_compute; reflexivity.
  - apply (proj1 (proj2 (proj2 (proj2 (proj2 (capture_output_dimensions
             Scenario.canvases Scenario.video (Scenario.at_scale JS.lit_0)
             Scenario.fresh_capture))))) JS.lit_0 eq_refl);
      vm_compute; reflexivity.
Defined.

(** ** Capture: the pooled pixel buffer *)

Lemma eqb_true_cases (a b : JS.number) :
  JS.eqb a b = true ->
  (exists s s', a = S754_zero s /\ b = S754_zero s') \/ a = b.
Proof.
  unfold JS.eqb, SFeqb, SFcompare.
  destruct a as [sa|sa| |sa ma ea], b as [sb|sb| |sb mb eb]; intros H;
    try discriminate H;
    try (left; eauto; fail);
    try (destruct sa; discriminate H);
    try (destruct sb; discriminate H);
    try (destruct sa, sb; try discriminate H; now right).
  destruct sa, sb; try discriminate H;
    destruct (Z.compare_spec ea eb); try discriminate H; subst;
    destruct (Pos.compare_cont Eq ma mb) eqn:Hm; try discriminate H;
    apply Pos.compare_eq in Hm; subst; now right.
Qed.

Lemma eqb_compat (a b c : JS.number) :
  JS.eqb a b = true -> JS.eqb a c = JS.eqb b c.
Proof.
  intros H. destruct (eqb_true_cases a b H) as [(s & s' & -> & ->) | ->];
    [|reflexivity].
  unfold JS.eqb, SFeqb, SFcompare. now destruct c.
Qed.

Lemma dimensions_changed_spec (o : Capture.t) (w h s : JS.number) :
  Capture.dimensions_changed o w h s
  = negb (same_geometry (Capture.cachedDimensions o, Capture.cachedScale o) (w, h, s)).
Proof.
  unfold Capture.dimensions_changed, same_geometry, JS.strict_neq. cbn [fst snd].
  now rewrite !negb_andb.
Qed.

Lemma same_geometry_compat (a b c : JS.number * JS.number * JS.number) :
  same_geometry a b = true -> same_geometry a c = same_geometry b c.
Proof.
  unfold same_geometry. rewrite !andb_true_iff. intros [[H1 H2] H3].
  now rewrite (eqb_compat _ _ _ H1), (eqb_compat _ _ _ H2), (eqb_compat _ _ _ H3).
Qed.

Section PooledBuffer.

Variable video : HTMLVideoElement.
Variable options : CaptureOptions.

(** One call on a usable engine: it returns, it leaves the engine usable
    with the returned buffer pooled, it draws once and reads the pixels
    once, into a new buffer; the buffer it returns is that one when the
    geometry changed or nothing was pooled, and the pooled one otherwise. *)
Lemma captureImageData_step (s : Capture.Self) :
  usable s -> has_frame video ->
  exists r out,
    Capture.captureImageData (Some video) options s = (Ok r, out)
    /\ usable out
    /\ Capture.reusableImageData (fst out) = Some (CaptureImageDataResult.imageData r)
    /\ (forall g, negb (Capture.dimensions_changed (fst out) (fst (fst g)) (snd (fst g)) (snd g))
                  = same_geometry (geometry video options) g)
    /\ match (if Capture.dimensions_changed (fst s)
                   (fst (fst (geometry video options)))
                   (snd (fst (geometry video options)))
                   (snd (geometry video options))
              then None else Capture.reusableImageData (fst s)) with
       | Some old => CaptureImageDataResult.imageData r = old
       | None =>
           data_id (CaptureImageDataResult.imageData r) = next_handle (snd s)
           /\ data_pixels (CaptureImageDataResult.imageData r)
              = List.length (draw_calls (snd out))
       end
    /\ next_handle (snd out) = S (next_handle (snd s))
    /\ pixel_reads (snd out) = pixel_reads (snd s) ++ [read_new (next_handle (snd s))]
    /\ List.length (draw_calls (snd out)) = S (List.length (draw_calls (snd s))).
Proof.
  destruct s as [o d]. intros ([cv Hcv] & [ctx Hctx] & Hfresh) Hready.
  destruct o as [cv0 ctx0 pooled dims sc0 mir mcv mctx].
  cbn [fst snd Capture.canvas Capture.context Capture.reusableImageData] in *.
  subst cv0 ctx0. unfold has_frame in Hready.
  unfold geometry, expected_size, floor_of_scaled, effective_scale. cbn [fst snd].
  destruct (sourceWidth_source_size video options) as [<- <-].
  destruct (Capture.captureImageData (Some video) options _) as [r0 out] eqn:H.
  unfold Capture.captureImageData in H. rewrite Hready in H.
  unfold_capture. cbn in H.
  repeat step_in H.
  all: injection H as <- <-; cbn [fst snd].
  all: eexists; eexists; split; [reflexivity|]; cbn.
  all: repeat match goal with |- _ /\ _ => split end.
  all: try reflexivity.
  all: try (rewrite ?length_app; cbn; lia).
  all: try match goal with
       | |- usable _ =>
           split; [eexists; reflexivity|]; split; [eexists; reflexivity|];
           let d0 := fresh "d" in let Hd := fresh "Hd" in
           intros d0 Hd; cbn in Hd; injection Hd as <-; cbn;
           first [lia | pose proof (Hfresh _ eq_refl); cbn in *; lia]
       end.
  all: intros g; rewrite dimensions_changed_spec, negb_involutive; cbn;
    try reflexivity.
  all: match goal with
       | Hc : Capture.dimensions_changed _ _ _ _ = false |- _ =>
           rewrite dimensions_changed_spec in Hc;
           apply negb_false_iff in Hc; cbn in Hc;
           exact (same_geometry_compat _ _ g Hc)
       end.
Qed.

End PooledBuffer.

(** C8 (the code departs from it).  On an engine that still owns its
    surface, two consecutive [captureImageData] calls on frames that are
    ready both return, and each draws its frame and reads the pixels into a
    newly allocated [ImageData].  When the second call has the same output
    width, height and scale as the first, it does return the very same
    [ImageData] object, but that object is not updated: its pixels are the
    ones copied before the second call drew its frame, and the [ImageData]
    the second call did read is another object, which is dropped.  When the
    width, height or scale differs, the call returns the [ImageData] it has
    just read, a different object. *)
Theorem pooled_buffer_is_returned_stale (video1 video2 : HTMLVideoElement)
    (options1 options2 : CaptureOptions) (s0 : Capture.Self) :
  usable s0 -> pool_from_the_past s0 -> has_frame video1 -> has_frame video2 ->
  exists r1 s1 r2 s2,
    Capture.captureImageData (Some video1) options1 s0 = (Ok r1, s1)
    /\ Capture.captureImageData (Some video2) options2 s1 = (Ok r2, s2)
    /\ List.length (draw_calls (snd s2)) = S (List.length (draw_calls (snd s1)))
    /\ next_handle (snd s2) = S (next_handle (snd s1))
    /\ pixel_reads (snd s2) = pixel_reads (snd s1) ++ [read_new (next_handle (snd s1))]
    /\ (same_geometry (geometry video1 options1) (geometry video2 options2) = true ->
        CaptureImageDataResult.imageData r2 = CaptureImageDataResult.imageData r1
        /\ (data_pixels (CaptureImageDataResult.imageData r2)
            < List.length (draw_calls (snd s2)))%nat
        /\ data_id (CaptureImageDataResult.imageData r2) <> next_handle (snd s1))
    /\ (same_geometry (geometry video1 options1) (geometry video2 options2) = false ->
        data_id (CaptureImageDataResult.imageData r2)
        <> data_id (CaptureImageDataResult.imageData r1)
        /\ data_id (CaptureImageDataResult.imageData r2) = next_handle (snd s1)
        /\ data_pixels (CaptureImageDataResult.imageData r2)
           = List.length (draw_calls (snd s2))).
Proof.
  intros Hs0 Hpast Hv1 Hv2.
  destruct (captureImageData_step video1 options1 s0 Hs0 Hv1)
    as (r1 & s1 & H1 & Hs1 & Hpool1 & Hgeo1 & Hcase1 & _ & _ & Hd1).
  destruct (captureImageData_step video2 options2 s1 Hs1 Hv2)
    as (r2 & s2 & H2 & _ & _ & _ & Hcase2 & Hn2 & Hr2 & Hd2).
  exists r1, s1, r2, s2. split; [exact H1|]. split; [exact H2|].
  split; [exact Hd2|]. split; [exact Hn2|]. split; [exact Hr2|].
  specialize (Hgeo1 (geometry video2 options2)).
  assert (data_id (CaptureImageDataResult.imageData r1) < next_handle (snd s1))%nat
    as Hold by (destruct Hs1 as (_ & _ & Hfresh); exact (Hfresh _ Hpool1)).
  split; intros Hsame; rewrite Hsame in Hgeo1.
  - apply negb_true_iff in Hgeo1. rewrite Hgeo1, Hpool1 in Hcase2.
    rewrite Hcase2. split; [reflexivity|]. split; [|lia].
    rewrite Hd2. apply Nat.lt_succ_r.
    destruct (Capture.dimensions_changed (fst s0) _ _ _).
    + destruct Hcase1 as [_ ->]. lia.
    + destruct (Capture.reusableImageData (fst s0)) as [old|] eqn:Hp.
      * rewrite Hcase1. specialize (Hpast old Hp). lia.
      * destruct Hcase1 as [_ ->]. lia.
  - apply negb_false_iff in Hgeo1. rewrite Hgeo1 in Hcase2.
    destruct Hcase2 as [Hid Hpx]. split; [lia|]. split; [exact Hid | exact Hpx].
Qed.

(** The specification's scenario: two calls at scale 0.5.  The second call
    returns the buffer of the first, read when one frame had been drawn,
    although two have been drawn by now. *)
Lemma pooled_buffer_is_returned_stale_witness :
  exists r1 s1 r2 s2,
    Capture.captureImageData (Some Scenario.video)
      (Scenario.at_scale Scenario.one_half) Scenario.fresh_capture = (Ok r1, s1)
    /\ Capture.captureImageData (Some Scenario.video)
         (Scenario.at_scale Scenario.one_half) s1 = (Ok r2, s2)
    /\ CaptureImageDataResult.imageData r2 = CaptureImageDataResult.imageData r1
    /\ (data_pixels (CaptureImageDataResult.imageData r2)
        < List.length (draw_calls (snd s2)))%nat.
Proof.
  assert (Hfresh : usable Scenario.fresh_capture).
  { split; [eexists; vm_compute; reflexivity|].
    split; [eexists; vm_compute; reflexivity|].
    intros d Hd. vm_compute in Hd. discriminate Hd. }
  assert (Hpast : pool_from_the_past Scenario.fresh_capture).
  { intros d Hd. vm_compute in Hd. discriminate Hd. }
  assert (Hv : has_frame Scenario.video) by reflexivity.
  destruct (pooled_buffer_is_returned_stale Scenario.video Scenario.video
              (Scenario.at_scale Scenario.one_half)
              (Scenario.at_scale Scenario.one_half)
              Scenario.fresh_capture Hfresh Hpast Hv Hv)
    as (r1 & s1 & r2 & s2 & H1 & H2 & _ & _ & _ & Hsame & _).
  exists r1, s1, r2, s2. split; [exact H1|]. split; [exact H2|].
  destruct (Hsame ltac:(vm_compute; reflexivity)) as (He & Hlt & _).
  split; [exact He | exact Hlt].
Defined.
(** ** Disposal *)

Lemma dispose_run (s : Capture.Self) :
  Capture.dispose s = (Ok tt, (disposed (fst s), snd s)).
Proof.
  destruct s as [c d].
  destruct c as [[cv|] ctx pooled dims sc mir [mcv|] mctx]; reflexivity.
Qed.



Section AfterDispose.

Variable C : CanvasPlatform.
Variable videoElement : option HTMLVideoElement.
Variable options : CaptureOptions.



End AfterDispose.

Arguments Capture.dispose : simpl never.

Lemma stopStream_none (w : World) :
  Stream.stopStream ({| Stream.activeStream := None |}, w)
  = (Ok tt, ({| Stream.activeStream := None |}, w)).
Proof. reflexivity. Qed.



(** ** The session's methods in closed form *)

Arguments Webcam._updateStatus : simpl never.
Arguments Webcam._setError : simpl never.
Arguments Webcam._notifyStateChange : simpl never.
Arguments Webcam.invoke : simpl never.
Arguments Webcam.setMirror : simpl never.
Arguments Webcam.assign_srcObject : simpl never.
Arguments Webcam.merge_config : simpl never.

Ltac unfold_monad :=
  unfold Webcam.in_stream, Webcam.in_capture, Webcam.update_state,
    Webcam.update_element, Webcam.update, Webcam.this,
    bind, ret, throw, try_catch, when, modify, get, focus in *.

Lemma notified_nil (o : Webcam.t) : notified [] o = o.
Proof. destruct o. unfold notified. cbn. now rewrite app_nil_r. Qed.

Lemma notified_app (a b : list Webcam.Notification) (o : Webcam.t) :
  notified b (notified a o) = notified (a ++ b) o.
Proof. unfold notified. cbn. now rewrite app_assoc. Qed.

Lemma heard_quiet (registered : bool) (log : list Webcam.Notification)
    (n : Webcam.Notification) :
  heard Webcam.quiet registered log n = None.
Proof. now destruct registered. Qed.

Lemma registered_set_state (v : WebcamStateInternal) (o : Webcam.t)
    (handler : WebcamConfiguration -> bool) :
  Webcam.registered (Webcam.set_state v o) handler = Webcam.registered o handler.
Proof. reflexivity. Qed.

Lemma registered_notified (ns : list Webcam.Notification) (o : Webcam.t)
    (handler : WebcamConfiguration -> bool) :
  Webcam.registered (notified ns o) handler = Webcam.registered o handler.
Proof. reflexivity. Qed.

Section Hosted.

Variable H : Webcam.Host.

Lemma invoke_run (n : Webcam.Notification) (o : Webcam.t) (b : Browser) :
  Webcam.invoke H n (o, b)
  = (unless (H (Webcam.notifications o) n), (notified [n] o, b)).
Proof.
  unfold Webcam.invoke, bind, Webcam.this, Webcam.update, modify, unless. cbn.
  now destruct (H (Webcam.notifications o) n).
Qed.

Lemma announce_run (registered : bool) (n : Webcam.Notification)
    (o : Webcam.t) (b : Browser) :
  when registered (Webcam.invoke H n) (o, b)
  = (unless (heard H registered (Webcam.notifications o) n),
     (notified (reported registered n) o, b)).
Proof.
  unfold when, heard, reported. destruct registered.
  - apply invoke_run.
  - now rewrite notified_nil.
Qed.

Lemma _notifyStateChange_run (o : Webcam.t) (b : Browser) :
  Webcam._notifyStateChange H (o, b)
  = (unless (heard H (Webcam.registered o onStateChange) (Webcam.notifications o)
               (Webcam.StateChange (Webcam.state o))),
     (notified (reported (Webcam.registered o onStateChange)
                 (Webcam.StateChange (Webcam.state o))) o, b)).
Proof.
  unfold Webcam._notifyStateChange, bind, Webcam.this. cbn [fst].
  apply announce_run.
Qed.

Lemma _updateStatus_run (st : WebcamStatus) (o : Webcam.t) (b : Browser) :
  Webcam._updateStatus H st (o, b)
  = (unless (heard H (Webcam.registered o onStateChange) (Webcam.notifications o)
               (Webcam.StateChange (with_status st (Webcam.state o)))),
     (notified (reported (Webcam.registered o onStateChange)
                 (Webcam.StateChange (with_status st (Webcam.state o))))
        (Webcam.set_state (with_status st (Webcam.state o)) o), b)).
Proof.
  unfold Webcam._updateStatus, bind, Webcam.update_state, Webcam.update, modify.
  cbn. rewrite _notifyStateChange_run. reflexivity.
Qed.

Lemma _setError_run (e : ErrorValue) (o : Webcam.t) (b : Browser) :
  Webcam._setError H e (o, b)
  = let o1 := Webcam.set_state (with_error e (Webcam.state o)) o in
    let nE := Webcam.ErrorReported e in
    let nS := Webcam.StateChange (with_error e (Webcam.state o)) in
    match heard H (Webcam.registered o onError) (Webcam.notifications o) nE with
    | Some x => (Throw x, (notified (reported (Webcam.registered o onError) nE) o1, b))
    | None =>
        (unless (heard H (Webcam.registered o onStateChange)
                   (Webcam.notifications o
                    ++ reported (Webcam.registered o onError) nE) nS),
         (notified (reported (Webcam.registered o onError) nE
                    ++ reported (Webcam.registered o onStateChange) nS) o1, b))
    end.
Proof.
  unfold Webcam._setError, bind, Webcam.update_state, Webcam.update, modify,
    Webcam.this.
  cbn. rewrite announce_run. cbn. rewrite !registered_set_state.
  destruct (heard H (Webcam.registered o onError) (Webcam.notifications o)
              (Webcam.ErrorReported e)); cbn; [reflexivity|].
  rewrite _notifyStateChange_run. cbn.
  rewrite notified_app, registered_notified, !registered_set_state. reflexivity.
Qed.

End Hosted.

Lemma setMirror_run (m : bool) (o : Webcam.t) (b : Browser) :
  Webcam.setMirror m (o, b)
  = (Ok tt,
     (o, {| media := media b; dom := dom b;
            elements :=
              match Webcam.videoElement o with
              | Some h =>
                  alter (Webcam.set_style_transform (if m then "scaleX(-1)" else ""))
                        h (elements b)
              | None => elements b
              end |})).
Proof.
  unfold Webcam.setMirror, bind, Webcam.this, Webcam.update_element, modify, ret.
  cbn. destruct (Webcam.videoElement o); [reflexivity|]. now destruct b.
Qed.

Lemma assign_srcObject_run (P : Platform) (h : ElementRef) (v : option StreamValue)
    (o : Webcam.t) (b : Browser) :
  Webcam.assign_srcObject P h v (o, b)
  = if Webcam.accepts_srcObject P v
    then (Ok tt, (o, {| media := media b; dom := dom b;
                        elements := alter (Webcam.set_srcObject v) h (elements b) |}))
    else (Throw srcObject_refused, (o, b)).
Proof.
  unfold Webcam.assign_srcObject, Webcam.update_element, modify, throw.
  now destruct (Webcam.accepts_srcObject P v).
Qed.

Arguments start_caught : simpl never.
Arguments sink_step : simpl never.
Arguments Webcam.accepts_srcObject : simpl never.
Arguments heard : simpl never.
Arguments reported : simpl never.
Arguments start_error : simpl never.

Section HostedStart.

Variable H : Webcam.Host.
Variable P : Platform.

Lemma start_caught_run (c : WebcamConfiguration) (err : ErrorValue)
    (o : Webcam.t) (b : Browser) :
  Webcam.config o = Some c ->
  bind (Webcam._setError H (start_error err)) (fun _ => throw (start_error err)) (o, b)
  = start_caught H c err o b.
Proof.
  intros Hc. unfold bind, start_caught. rewrite _setError_run.
  unfold Webcam.registered. rewrite Hc. cbn.
  destruct (heard H (onError c) _ _); [reflexivity|].
  now destruct (heard H (onStateChange c) _ _).
Qed.

Lemma start_caught_let (c : WebcamConfiguration) (err : ErrorValue)
    (o : Webcam.t) (b : Browser) :
  Webcam.config o = Some c ->
  (let (r, s') := Webcam._setError H (start_error err) (o, b) in
   match r with
   | Ok _ => (Throw (start_error err), s')
   | Throw e => (Throw e, s')
   end)
  = start_caught H c err o b.
Proof. exact (start_caught_run c err o b). Qed.

Ltac caught := apply start_caught_let; reflexivity.

(** [start] first takes its argument in. *)
Lemma start_takes_config (cfg : option WebcamConfiguration) (o : Webcam.t)
    (b : Browser) :
  Webcam.start H P cfg (o, b) = Webcam.start H P None (prepared o cfg, b).
Proof.
  unfold Webcam.start, prepared, effective_config, element_for. unfold_monad.
  destruct cfg as [c0|]; [destruct (Types.videoElement c0) as [h0|]|];
    destruct o; reflexivity.
Qed.

(** The sink step of [start], run. *)
Lemma sink_step_run (c : WebcamConfiguration) (v : StreamValue)
    (o : Webcam.t) (b : Browser) :
  match Webcam.videoElement o with
  | Some h =>
      bind (Webcam.assign_srcObject P h (Some v))
           (fun _ => when (default false (enableMirror c)) (Webcam.setMirror true))
  | None => ret tt
  end (o, b)
  = match sink_step P c v (Webcam.videoElement o) (elements b) with
    | inl x => (Throw x, (o, b))
    | inr els => (Ok tt, (o, {| media := media b; dom := dom b; elements := els |}))
    end.
Proof.
  unfold sink_step, attached, bind, when, ret.
  destruct (Webcam.videoElement o) as [h|] eqn:Hv; [|now destruct b].
  rewrite assign_srcObject_run.
  destruct (Webcam.accepts_srcObject P (Some v)); [|reflexivity].
  destruct (default false (enableMirror c)); [|reflexivity].
  rewrite setMirror_run. cbn. now rewrite Hv.
Qed.

Lemma start_prepared (c : WebcamConfiguration) (o : Webcam.t) (b : Browser) :
  Webcam.config o = Some c ->
  Webcam.start H P None (o, b) = start_paths H P c o b.
Proof.
  intros Hc. destruct o as [t0 cap st cf ve dl ns]. cbn in Hc. subst cf.
  unfold Webcam.start, start_paths. unfold_monad. cbn.
  rewrite _updateStatus_run. cbn. unfold Webcam.registered; cbn.
  destruct (heard H (onStateChange c) ns _) as [x|] eqn:H1; cbn.
  { fold (start_error x). caught. }
  clear H1. unfold ready_state.
  destruct (Stream.startStream P c (t0, media b)) as [[r|err] [t w]]; cbn.
  2: { fold (start_error err). caught. }
  unfold sink_step, attached.
  destruct ve as [h|]; cbn;
    [rewrite assign_srcObject_run;
     destruct (Webcam.accepts_srcObject P _) eqn:Ha; cbn;
     [destruct (default false (enableMirror c)) eqn:Hm; cbn;
      rewrite ?setMirror_run; cbn
     | change (WebcamError "Start failed" UNKNOWN_ERROR (Some srcObject_refused))
         with (start_error srcObject_refused); caught] | ].
  all: rewrite _updateStatus_run; cbn; unfold Webcam.registered; cbn.
  all: destruct (heard H (onStateChange c) _ _) as [x|] eqn:H4; cbn;
    [fold (start_error x); caught|].
  all: change (if onStreamStart c
               then Webcam.invoke H (Webcam.StreamStart (start_result r))
               else ret tt)
         with (when (onStreamStart c)
                 (Webcam.invoke H (Webcam.StreamStart (start_result r)))).
  all: rewrite announce_run; cbn.
  all: destruct (heard H (onStreamStart c) _ _) as [x|] eqn:H5; cbn;
    [fold (start_error x); caught | reflexivity].
Qed.


(** [start], path by path. *)
Lemma start_cases (cfg : option WebcamConfiguration) (o : Webcam.t) (b : Browser) :
  Webcam.start H P cfg (o, b)
  = match effective_config o cfg with
    | None =>
        (Throw (WebcamError "Configuration is required" INVALID_CONFIG None), (o, b))
    | Some c => start_paths H P c (prepared o cfg) b
    end.
Proof.
  destruct (effective_config o cfg) as [c|] eqn:Hc.
  - rewrite start_takes_config. now apply start_prepared.
  - unfold effective_config in Hc. destruct cfg; [discriminate|].
    unfold Webcam.start. unfold_monad. cbn. now rewrite Hc.
Qed.

(** [stop], path by path. *)
Lemma stop_cases (o : Webcam.t) (b : Browser) :
  Webcam.stop H (o, b) = stop_paths H o b.
Proof.
  unfold Webcam.stop, stop_paths. unfold_monad. cbn.
  rewrite stopStream_closed. cbn.
  destruct (Webcam.videoElement o) as [h|] eqn:Hv; cbn.
  all: rewrite _updateStatus_run; cbn.
  all: rewrite !registered_set_state.
  all: change (Webcam.registered (Webcam.set_stream Stream.new o))
         with (Webcam.registered o).
  all: unfold idle_state, detached.
  all: destruct (heard H (Webcam.registered o onStateChange) _ _); cbn;
         [reflexivity|].
  all: match goal with
       | |- (if ?r then Webcam.invoke H ?n else ret tt) ?s = ?rhs =>
           change (when r (Webcam.invoke H n) s = rhs)
       end.
  all: rewrite announce_run; cbn.
  all: unfold stop_callbacks, idle_state; rewrite notified_app; reflexivity.
Qed.

(** [dispose]: the capture engine is disposed of and the listener removed
    only when [stop] has returned. *)
Lemma dispose_cases (o : Webcam.t) (b : Browser) :
  Webcam.dispose H (o, b)
  = match Webcam.stop H (o, b) with
    | (Ok _, (o', b')) =>
        (Ok tt,
         (Webcam.set_deviceChangeListener false
            (Webcam.set_capture (disposed (Webcam.capture o')) o'), b'))
    | (Throw x, s') => (Throw x, s')
    end.
Proof.
  unfold Webcam.dispose, Webcam.removeDeviceChangeListener. unfold bind at 1.
  destruct (Webcam.stop H (o, b)) as [[[]|x] [o' b']]; [|reflexivity].
  unfold_monad. cbn. rewrite dispose_run. cbn. now destruct b'.
Qed.

End HostedStart.

(** ** The session with a host whose callbacks return *)

Lemma start_caught_quiet (c : WebcamConfiguration) (err : ErrorValue)
    (o : Webcam.t) (b : Browser) :
  start_caught Webcam.quiet c err o b
  = (Throw (start_error err),
     (notified (reported (onError c) (Webcam.ErrorReported (start_error err))
                ++ reported (onStateChange c)
                     (Webcam.StateChange
                        (with_error (start_error err) (Webcam.state o))))
        (Webcam.set_state (with_error (start_error err) (Webcam.state o)) o), b)).
Proof. unfold start_caught. now rewrite !heard_quiet. Qed.

Lemma start_run (P : Platform) (cfg : option WebcamConfiguration)
    (o : Webcam.t) (b : Browser) :
  Webcam.start Webcam.quiet P cfg (o, b)
  = match effective_config o cfg with
    | None =>
        (Throw (WebcamError "Configuration is required" INVALID_CONFIG None), (o, b))
    | Some c =>
        match Stream.startStream P c (Webcam.stream o, media b) with
        | (Ok r, (t, w')) =>
            match sink_step P c (start_result r) (element_for o cfg) (elements b) with
            | inr els =>
                (Ok tt,
                 (notified (start_callbacks c (start_result r) (Webcam.state o))
                    (Webcam.set_state (ready_state (start_result r) (Webcam.state o))
                       (Webcam.set_stream t (prepared o cfg))),
                  {| media := w'; dom := dom b; elements := els |}))
            | inl x =>
                (Throw (start_error x),
                 (notified (stranded_callbacks c (start_error x) (start_result r)
                              (Webcam.state o))
                    (Webcam.set_state
                       (stranded_state (start_error x) (start_result r)
                          (Webcam.state o))
                       (Webcam.set_stream t (prepared o cfg))),
                  {| media := w'; dom := dom b; elements := elements b |}))
            end
        | (Throw err, (t, w')) =>
            (Throw (start_error err),
             (notified (failure_callbacks c (start_error err) (Webcam.state o))
                (Webcam.set_state (failed_state (start_error err) (Webcam.state o))
                   (Webcam.set_stream t (prepared o cfg))),
              {| media := w'; dom := dom b; elements := elements b |}))
        end
    end.
Proof.
  rewrite start_cases.
  destruct (effective_config o cfg) as [c|]; [|reflexivity].
  unfold start_paths. cbn zeta. rewrite !heard_quiet.
  destruct (Stream.startStream P c _) as [[r|err] [t w']];
    change (Webcam.videoElement (prepared o cfg)) with (element_for o cfg).
  - destruct (sink_step P c (start_result r) (element_for o cfg) (elements b))
      as [x|els].
    + rewrite start_caught_quiet.
      unfold stranded_callbacks, stranded_state, notified. cbn.
      now rewrite <- !app_assoc.
    + rewrite !heard_quiet. unfold start_callbacks, notified. cbn.
      now rewrite <- !app_assoc.
  - rewrite start_caught_quiet.
    unfold failure_callbacks, failed_state, notified. cbn.
    now rewrite <- !app_assoc.
Qed.

Lemma stop_run (o : Webcam.t) (b : Browser) :
  Webcam.stop Webcam.quiet (o, b)
  = (Ok tt,
     (notified (stop_callbacks o)
        (Webcam.set_state (idle_state (Webcam.state o))
           (Webcam.set_stream Stream.new o)),
      {| media := released_world (Webcam.stream o) (media b);
         dom := dom b;
         elements := detached (Webcam.videoElement o) (elements b) |})).
Proof. rewrite stop_cases. unfold stop_paths. now rewrite !heard_quiet. Qed.


(** ** Live controls, path by path *)

Lemma applyConstraints_effects (P : Platform) (patch : MediaTrackConstraintSet)
    (t : Stream.t) (w : World) :
  exists w',
    snd (Stream.applyConstraints P patch (t, w)) = (t, w')
    /\ live_tracks w' = live_tracks w
    /\ next_id w' = next_id w
    /\ gum_calls w' = gum_calls w
    /\ forall e, fst (Stream.applyConstraints P patch (t, w)) = Throw e ->
                 instanceof_WebcamError e = true
                 /\ (error_code e = Some STREAM_ERROR
                     \/ error_code e = Some CONSTRAINT_ERROR).
Proof.
  unfold Stream.applyConstraints, bind, get, try_catch, Stream.in_world, focus,
    track_applyConstraints, throw. cbn.
  destruct t as [[s|]]; cbn;
    [destruct (getVideoTracks s) as [|track rest]; cbn;
     [|destruct (apply_answer P track patch) as [e0|]; cbn;
       [destruct (instanceof_Error e0 && _); cbn|]]|].
  all: eexists; (split; [reflexivity|]); cbn.
  all: (split; [reflexivity|]); (split; [reflexivity|]); (split; [reflexivity|]).
  all: intros e' He'; simplify_eq; cbn; auto.
Qed.

Lemma control_cases (H : Webcam.Host) (P : Platform)
    (patch : MediaTrackConstraintSet)
    (record : WebcamStateInternal -> WebcamStateInternal) (failure : string)
    (o : Webcam.t) (b : Browser) :
  Webcam.apply_and_record H P patch record failure (o, b)
  = match Stream.applyConstraints P patch (Webcam.stream o, media b) with
    | (Throw err, (t, w)) =>
        (Throw (control_error failure err),
         (Webcam.set_stream t o,
          {| media := w; dom := dom b; elements := elements b |}))
    | (Ok _, (t, w)) =>
        let n := Webcam.StateChange (record (Webcam.state o)) in
        (match heard H (Webcam.registered o onStateChange)
                 (Webcam.notifications o) n with
         | Some x => Throw (control_error failure x)
         | None => Ok tt
         end,
         (notified (reported (Webcam.registered o onStateChange) n)
            (Webcam.set_state (record (Webcam.state o)) (Webcam.set_stream t o)),
          {| media := w; dom := dom b; elements := elements b |}))
    end.
Proof.
  unfold Webcam.apply_and_record, control_error. unfold_monad. cbn.
  destruct (Stream.applyConstraints P patch (Webcam.stream o, media b))
    as [[[]|err] [t w]]; cbn; [|reflexivity].
  rewrite _notifyStateChange_run. cbn.
  rewrite registered_set_state.
  change (Webcam.registered (Webcam.set_stream t o)) with (Webcam.registered o).
  now destruct (heard H (Webcam.registered o onStateChange) _ _).
Qed.

(** ** Paths of [start] *)

Lemma start_caught_spec (H : Webcam.Host) (c : WebcamConfiguration)
    (err : ErrorValue) (o : Webcam.t) (b : Browser) :
  exists e ns,
    start_caught H c err o b
    = (Throw e,
       (notified ns (Webcam.set_state (with_error (start_error err) (Webcam.state o)) o),
        b))
    /\ (ns = reported (onError c) (Webcam.ErrorReported (start_error err))
        \/ ns = reported (onError c) (Webcam.ErrorReported (start_error err))
                ++ reported (onStateChange c)
                     (Webcam.StateChange
                        (with_error (start_error err) (Webcam.state o)))).
Proof.
  unfold start_caught.
  destruct (heard H (onError c) _ _); [eauto|].
  destruct (heard H (onStateChange c) _ _); eauto.
Qed.

Lemma start_result_accepted (P : Platform) (r : Stream.StartResult) :
  Webcam.accepts_srcObject P (Some (start_result r)) = negb (srcObject_checked P).
Proof. reflexivity. Qed.

Lemma sink_step_inr (P : Platform) (c : WebcamConfiguration)
    (r : Stream.StartResult) (h : option ElementRef)
    (els els' : gmap nat HTMLVideoElement) :
  sink_step P c (start_result r) h els = inr els' ->
  els' = attached c (start_result r) h els
  /\ (h = None \/ srcObject_checked P = false).
Proof.
  unfold sink_step. rewrite start_result_accepted.
  destruct h as [h0|]; [|intros [= <-]; auto].
  destruct (srcObject_checked P); cbn; [discriminate|].
  intros [= <-]. auto.
Qed.

Lemma sink_step_inl (P : Platform) (c : WebcamConfiguration)
    (r : Stream.StartResult) (h : option ElementRef)
    (els : gmap nat HTMLVideoElement) (x : ErrorValue) :
  sink_step P c (start_result r) h els = inl x ->
  x = srcObject_refused /\ is_Some h /\ srcObject_checked P = true.
Proof.
  unfold sink_step. rewrite start_result_accepted.
  destruct h as [h0|]; [|discriminate].
  destruct (srcObject_checked P); cbn; [|discriminate].
  intros [= <-]. eauto.
Qed.

Lemma sink_step_refused (P : Platform) (c : WebcamConfiguration)
    (r : Stream.StartResult) (h : ElementRef) (els : gmap nat HTMLVideoElement) :
  srcObject_checked P = true ->
  sink_step P c (start_result r) (Some h) els = inl srcObject_refused.
Proof. intros Hc. unfold sink_step. now rewrite start_result_accepted, Hc. Qed.

Lemma attached_shows (c : WebcamConfiguration) (v : StreamValue) (h : ElementRef)
    (els : gmap nat HTMLVideoElement) (e : HTMLVideoElement) :
  attached c v (Some h) els !! h = Some e -> srcObject e = Some v.
Proof.
  unfold attached. destruct (default false (enableMirror c)); intros Hl.
  - apply sink_after_alter in Hl as (e1 & Hl & ->).
    apply sink_after_alter in Hl as (e0 & _ & ->). reflexivity.
  - apply sink_after_alter in Hl as (e0 & _ & ->). reflexivity.
Qed.

(** Case analysis on the paths of [start]. *)
Ltac start_paths_cases :=
  unfold start_paths; cbn zeta;
  repeat match goal with
         | |- context [match heard ?H ?r ?l ?n with _ => _ end] =>
             destruct (heard H r l n) eqn:?
         | |- context [match Stream.startStream ?P ?c ?s with _ => _ end] =>
             let Hs := fresh "Hs" in
             destruct (Stream.startStream P c s) as [[?r|?err] [?t ?w]] eqn:Hs
         | |- context [match sink_step ?P ?c ?v ?h ?els with _ => _ end] =>
             let Hk := fresh "Hk" in
             destruct (sink_step P c v h els) eqn:Hk
         end;
  repeat match goal with
         | |- context [start_caught ?H ?c ?x ?o ?b] =>
             let e := fresh "thrown" in let ns := fresh "ns" in
             let Hc := fresh "Hcaught" in
             destruct (start_caught_spec H c x o b) as (e & ns & Hc & _);
             rewrite Hc; clear Hc
         end.

(** ** Live zoom *)

(** C5. For every zoom below 1, [setZoom] rejects with an INVALID_CONFIG-coded
    error and nothing else happens: the session and the browser are left as
    they were, so the track's [applyConstraints] is not called.  For a zoom
    of at least 1 on a session whose stream has a video track, the patch
    [{zoom}] is applied to that track, once, and when the track accepts it
    [zoomLevel] is set to the new zoom; the call then resolves, unless the
    host's [onStateChange] throws when it is told: with callbacks that
    return it resolves. *)
Theorem setZoom_rejects_below_one (H : Webcam.Host) (P : Platform)
    (zoom : JS.number) (s : Webcam.Self) :
  (JS.ltb zoom JS.lit_1 = true ->
     thrown_code (fst (Webcam.setZoom H P zoom s)) = Some INVALID_CONFIG
     /\ snd (Webcam.setZoom H P zoom s) = s
     /\ apply_calls (media (snd (snd (Webcam.setZoom H P zoom s))))
        = apply_calls (media (snd s)))
  /\ (JS.leb JS.lit_1 zoom = true ->
      forall st track rest,
        Stream.activeStream (Webcam.stream (fst s)) = Some st ->
        getVideoTracks st = track :: rest ->
        apply_calls (media (snd (snd (Webcam.setZoom H P zoom s))))
        = apply_calls (media (snd s)) ++ [(track_id track, zoom_patch zoom)]
        /\ (apply_answer P track (zoom_patch zoom) = None ->
            zoomLevel (Webcam.state (fst (snd (Webcam.setZoom H P zoom s))))
            = Some zoom
            /\ (heard H (Webcam.registered (fst s) onStateChange)
                  (Webcam.notifications (fst s))
                  (Webcam.StateChange
                     (Webcam.set_zoomLevel (Some zoom) (Webcam.state (fst s))))
                = None ->
                fst (Webcam.setZoom H P zoom s) = Ok tt)
            /\ fst (Webcam.setZoom Webcam.quiet P zoom s) = Ok tt
            /\ zoomLevel (Webcam.state
                            (fst (snd (Webcam.setZoom Webcam.quiet P zoom s))))
               = Some zoom)).
Proof.
  destruct s as [o b]. split.
  - intros Hlt. unfold Webcam.setZoom. rewrite Hlt. cbn. auto.
  - intros Hge st track rest Hst Hv.
    unfold Webcam.setZoom. rewrite (leb_not_ltb _ _ Hge).
    rewrite !control_cases. cbn [fst snd].
    rewrite (applyConstraints_on_track P (zoom_patch zoom) (Webcam.stream o)
               (media b) st track rest Hst Hv).
    destruct (apply_answer P track (zoom_patch zoom)) as [e|]; cbn.
    + split; [reflexivity | discriminate].
    + rewrite heard_quiet. split; [reflexivity|]. intros _.
      split; [reflexivity|]. split; [|split; reflexivity].
      now intros ->.
Qed.

(** On the started 1280x720 session: a zoom of 0.5 is rejected, a zoom of 2
    is applied and recorded. *)
Lemma setZoom_rejects_below_one_witness :
  thrown_code (fst (Webcam.setZoom Webcam.quiet Scenario.hd_camera Scenario.one_half
                      Scenario.started))
  = Some INVALID_CONFIG
  /\ fst (Webcam.setZoom Webcam.quiet Scenario.hd_camera (JS.of_Z 2) Scenario.started)
     = Ok tt
  /\ zoomLevel (Webcam.state
                  (fst (snd (Webcam.setZoom Webcam.quiet Scenario.hd_camera (JS.of_Z 2)
                               Scenario.started))))
     = Some (JS.of_Z 2).
Proof.
  split.
  - exact (proj1 (proj1 (setZoom_rejects_below_one Webcam.quiet Scenario.hd_camera
                           Scenario.one_half Scenario.started)
                    ltac:(vm_compute; reflexivity))).
  - destruct (proj2 (setZoom_rejects_below_one Webcam.quiet Scenario.hd_camera
                      (JS.of_Z 2) Scenario.started)
                ltac:(vm_compute; reflexivity)
                Scenario.hd_stream Scenario.hd_track []
                ltac:(vm_compute; reflexivity)
                ltac:(vm_compute; reflexivity)) as [_ Haccepted].
    exact (proj2 (proj2 (Haccepted ltac:(vm_compute; reflexivity)))).
Defined.

(** ** The session's transitions *)

Section Transitions.

Variable H : Webcam.Host.
Variable P : Platform.

(** When [start] resolves. *)
Lemma start_resolves (cfg : option WebcamConfiguration) (s : Webcam.Self) :
  fst (Webcam.start H P cfg s) = Ok tt ->
  status (Webcam.state (fst (snd (Webcam.start H P cfg s)))) = ready
  /\ state_error (Webcam.state (fst (snd (Webcam.start H P cfg s)))) = None
  /\ exists r,
       activeStream (Webcam.state (fst (snd (Webcam.start H P cfg s))))
       = Some (start_result r)
       /\ Stream.activeStream (Webcam.stream (fst (snd (Webcam.start H P cfg s))))
          = Some (Stream.stream r)
       /\ sink_shows (snd (Webcam.start H P cfg s)) (Some (start_result r))
       /\ track_ids (Stream.stream r)
          ⊆ live_tracks (media (snd (snd (Webcam.start H P cfg s))))
       /\ (srcObject_checked P = true ->
           Webcam.videoElement (fst (snd (Webcam.start H P cfg s))) = None).
Proof.
  destruct s as [o b]. rewrite start_cases.
  destruct (effective_config o cfg) as [c|]; [|discriminate].
  start_paths_cases; cbn [fst snd]; try discriminate. intros _.
  apply sink_step_inr in Hk as [-> Hsink].
  pose proof (startStream_ok _ _ _ _ _ _ _ Hs) as Hheld.
  destruct (startStream_acquires _ _ _ _ _ _ _ Hs) as (shape & _ & Hl & _).
  cbn. split; [reflexivity|]. split; [reflexivity|].
  exists r. split; [reflexivity|]. split; [exact Hheld|].
  split; [|split].
  - intros h e Hh Hl'. cbn in Hh, Hl'. rewrite Hh in Hl'.
    now apply attached_shows in Hl'.
  - rewrite Hl. apply union_subseteq_r.
  - intros Hchecked. destruct Hsink as [Hnone|Hun]; [exact Hnone | congruence].
Qed.

(** When [start] rejects. *)
Lemma start_rejects (cfg : option WebcamConfiguration) (s : Webcam.Self)
    (e : ErrorValue) :
  fst (Webcam.start H P cfg s) = Throw e ->
  (effective_config (fst s) cfg = None ->
   snd (Webcam.start H P cfg s) = s /\ error_code e = Some INVALID_CONFIG)
  /\ (effective_config (fst s) cfg <> None ->
      status (Webcam.state (fst (snd (Webcam.start H P cfg s)))) = error
      /\ (exists recorded,
            state_error (Webcam.state (fst (snd (Webcam.start H P cfg s))))
            = Some recorded
            /\ instanceof_WebcamError recorded = true)
      /\ ((activeStream (Webcam.state (fst (snd (Webcam.start H P cfg s))))
           = activeStream (Webcam.state (fst s))
           /\ Stream.activeStream (Webcam.stream (fst (snd (Webcam.start H P cfg s))))
              = Stream.activeStream (Webcam.stream (fst s))
           /\ elements (snd (snd (Webcam.start H P cfg s))) = elements (snd s)
           /\ live_tracks (media (snd (snd (Webcam.start H P cfg s))))
              = live_tracks (media (snd s)))
          \/ (exists r,
                activeStream (Webcam.state (fst (snd (Webcam.start H P cfg s))))
                = Some (start_result r)
                /\ Stream.activeStream
                     (Webcam.stream (fst (snd (Webcam.start H P cfg s))))
                   = Some (Stream.stream r)
                /\ live_tracks (media (snd (snd (Webcam.start H P cfg s))))
                   = live_tracks (media (snd s)) ∪ track_ids (Stream.stream r)))).
Proof.
  destruct s as [o b]. rewrite start_cases.
  destruct (effective_config o cfg) as [c|] eqn:Hc.
  2: { cbn. intros [= <-]. split; [auto | intros Hn; now destruct Hn]. }
  intros He. split; [intros Hx; cbn in Hx; congruence|]. intros _. revert He.
  assert (forall err, instanceof_WebcamError (start_error err) = true) as Hwe.
  { intros err. unfold start_error.
    destruct (instanceof_WebcamError err) eqn:Hi; [exact Hi | reflexivity]. }
  start_paths_cases; cbn [fst snd]; try discriminate; intros _.
  all: cbn; (split; [reflexivity|]); (split; [eauto|]).
  all: try (pose proof (startStream_ok _ _ _ _ _ _ _ Hs) as Hheld;
            destruct (startStream_acquires _ _ _ _ _ _ _ Hs) as (shape & _ & Hl & _);
            right; exists r; auto; fail).
  - left. auto.
  - apply startStream_throw in Hs as (-> & _ & Hl). left. auto.
Qed.

(** [stop], whatever the host's callbacks do. *)
Lemma stop_always (s : Webcam.Self) :
  status (Webcam.state (fst (snd (Webcam.stop H s)))) = idle
  /\ activeStream (Webcam.state (fst (snd (Webcam.stop H s)))) = None
  /\ Stream.activeStream (Webcam.stream (fst (snd (Webcam.stop H s)))) = None
  /\ sink_shows (snd (Webcam.stop H s)) None
  /\ live_tracks (media (snd (snd (Webcam.stop H s))))
     = live_tracks (media (snd s)) ∖ held_tracks (Webcam.stream (fst s)).
Proof.
  destruct s as [o b]. rewrite stop_cases. unfold stop_paths. cbn zeta.
  destruct (released_world_live (Webcam.stream o) (media b)) as [Hl _].
  destruct (heard H (Webcam.registered o onStateChange) _ _); cbn.
  all: repeat split; auto.
  all: intros h el Hh Hl'; cbn in Hh, Hl'; unfold detached in Hl'; rewrite Hh in Hl'.
  all: apply sink_after_alter in Hl' as (el0 & _ & ->); reflexivity.
Qed.

End Transitions.

(** In a browser, [start] on a session with a video element. *)
Lemma start_strands_the_stream (H : Webcam.Host) (P : Platform)
    (cfg : option WebcamConfiguration) (s : Webcam.Self)
    (c : WebcamConfiguration) (h : ElementRef) :
  effective_config (fst s) cfg = Some c ->
  element_for (fst s) cfg = Some h ->
  srcObject_checked P = true ->
  fst (Webcam.start H P cfg s) <> Ok tt
  /\ forall r t w,
       heard H (onStateChange c) (Webcam.notifications (fst s))
         (Webcam.StateChange (with_status initializing (Webcam.state (fst s))))
       = None ->
       Stream.startStream P c (Webcam.stream (fst s), media (snd s)) = (Ok r, (t, w)) ->
       is_ok (fst (Webcam.start H P cfg s)) = false
       /\ status (Webcam.state (fst (snd (Webcam.start H P cfg s)))) = error
       /\ state_error (Webcam.state (fst (snd (Webcam.start H P cfg s))))
          = Some (WebcamError "Start failed" UNKNOWN_ERROR (Some srcObject_refused))
       /\ activeStream (Webcam.state (fst (snd (Webcam.start H P cfg s))))
          = Some (start_result r)
       /\ Stream.activeStream (Webcam.stream (fst (snd (Webcam.start H P cfg s))))
          = Some (Stream.stream r)
       /\ live_tracks (media (snd (snd (Webcam.start H P cfg s))))
          = live_tracks (media (snd s)) ∪ track_ids (Stream.stream r)
       /\ elements (snd (snd (Webcam.start H P cfg s))) = elements (snd s).
Proof.
  destruct s as [o b]. cbn [fst snd]. intros Hc Hh Hchecked.
  rewrite start_cases, Hc. split.
  - pose proof (start_resolves H P cfg (o, b)) as Hres.
    rewrite start_cases, Hc in Hres. intros Hok.
    destruct (Hres Hok) as (_ & _ & r & _ & _ & _ & _ & Hnone).
    specialize (Hnone Hchecked).
    assert (Webcam.videoElement
              (fst (snd (Webcam.start H P cfg (o, b)))) = Some h) as Hkept.
    { clear Hres Hnone Hok. rewrite start_cases, Hc.
      start_paths_cases; cbn; exact Hh. }
    rewrite start_cases, Hc in Hkept. congruence.
  - intros r t w H1 Hs. unfold start_paths. cbn zeta.
    change (Webcam.notifications (prepared o cfg)) with (Webcam.notifications o).
    change (Webcam.state (prepared o cfg)) with (Webcam.state o).
    change (Webcam.stream (prepared o cfg)) with (Webcam.stream o).
    change (Webcam.videoElement (prepared o cfg)) with (element_for o cfg).
    rewrite H1, Hs, Hh, (sink_step_refused P c r h (elements b) Hchecked).
    pose proof (startStream_ok _ _ _ _ _ _ _ Hs) as Hheld.
    destruct (startStream_acquires _ _ _ _ _ _ _ Hs) as (shape & _ & Hl & _).
    match goal with
    | |- context [start_caught ?H ?c ?x ?o ?b] =>
        destruct (start_caught_spec H c x o b) as (thrown & ns & -> & _)
    end.
    cbn. repeat split; auto.
Qed.

(** C3 (the code departs from it).  What [start] and [stop] do to the
    session, for any host and any browser.

    When [start] resolves, the status is "ready" and the state holds, as
    [activeStream], the start result whose stream the stream manager holds;
    an element of the session has that object as its [srcObject]; in a
    browser that checks [srcObject] the session has no element.

    When [start] rejects because there is no configuration, the session is
    left as it was.  When it rejects otherwise, the status is "error" and a
    WebcamError is recorded; and either nothing was acquired (the state's
    stream, the manager's stream, the page and the live tracks are as before),
    or the acquisition had succeeded and is not undone: the state holds the
    new start result, the manager holds its stream, and its tracks are live.

    In particular, in a browser that checks [srcObject], [start] on a session
    with a video element never resolves: when the first report returns and
    the camera is granted, [start] rejects, records "Start failed", and
    leaves the granted stream attached and live.

    [stop] leaves the status "idle", no stream in the state or in the
    manager, the sink detached and no live track of the stream the manager
    held, whatever the callbacks do; it returns when they return. *)
Theorem session_transitions (H : Webcam.Host) (P : Platform)
    (cfg : option WebcamConfiguration) (s : Webcam.Self) :
  (fst (Webcam.start H P cfg s) = Ok tt ->
     status (Webcam.state (fst (snd (Webcam.start H P cfg s)))) = ready
     /\ exists r,
          activeStream (Webcam.state (fst (snd (Webcam.start H P cfg s))))
          = Some (start_result r)
          /\ Stream.activeStream (Webcam.stream (fst (snd (Webcam.start H P cfg s))))
             = Some (Stream.stream r)
          /\ sink_shows (snd (Webcam.start H P cfg s)) (Some (start_result r))
          /\ (srcObject_checked P = true ->
              Webcam.videoElement (fst (snd (Webcam.start H P cfg s))) = None))
  /\ (forall e,
        fst (Webcam.start H P cfg s) = Throw e ->
        (effective_config (fst s) cfg = None -> snd (Webcam.start H P cfg s) = s)
        /\ (effective_config (fst s) cfg <> None ->
            status (Webcam.state (fst (snd (Webcam.start H P cfg s)))) = error
            /\ (exists recorded,
                  state_error (Webcam.state (fst (snd (Webcam.start H P cfg s))))
                  = Some recorded
                  /\ instanceof_WebcamError recorded = true)
            /\ ((activeStream (Webcam.state (fst (snd (Webcam.start H P cfg s))))
                 = activeStream (Webcam.state (fst s))
                 /\ Stream.activeStream
                      (Webcam.stream (fst (snd (Webcam.start H P cfg s))))
                    = Stream.activeStream (Webcam.stream (fst s))
                 /\ elements (snd (snd (Webcam.start H P cfg s))) = elements (snd s)
                 /\ live_tracks (media (snd (snd (Webcam.start H P cfg s))))
                    = live_tracks (media (snd s)))
                \/ (exists r,
                      activeStream (Webcam.state (fst (snd (Webcam.start H P cfg s))))
                      = Some (start_result r)
                      /\ Stream.activeStream
                           (Webcam.stream (fst (snd (Webcam.start H P cfg s))))
                         = Some (Stream.stream r)
                      /\ live_tracks (media (snd (snd (Webcam.start H P cfg s))))
                         = live_tracks (media (snd s))
                           ∪ track_ids (Stream.stream r)))))
  /\ (forall c h,
        effective_config (fst s) cfg = Some c ->
        element_for (fst s) cfg = Some h ->
        srcObject_checked P = true ->
        fst (Webcam.start H P cfg s) <> Ok tt
        /\ forall r t w,
             heard H (onStateChange c) (Webcam.notifications (fst s))
               (Webcam.StateChange
                  (with_status initializing (Webcam.state (fst s)))) = None ->
             Stream.startStream P c (Webcam.stream (fst s), media (snd s))
             = (Ok r, (t, w)) ->
             is_ok (fst (Webcam.start H P cfg s)) = false
             /\ status (Webcam.state (fst (snd (Webcam.start H P cfg s)))) = error
             /\ state_error (Webcam.state (fst (snd (Webcam.start H P cfg s))))
                = Some (WebcamError "Start failed" UNKNOWN_ERROR
                                    (Some srcObject_refused))
             /\ activeStream (Webcam.state (fst (snd (Webcam.start H P cfg s))))
                = Some (start_result r)
             /\ Stream.activeStream
                  (Webcam.stream (fst (snd (Webcam.start H P cfg s))))
                = Some (Stream.stream r)
             /\ live_tracks (media (snd (snd (Webcam.start H P cfg s))))
                = live_tracks (media (snd s)) ∪ track_ids (Stream.stream r)
             /\ elements (snd (snd (Webcam.start H P cfg s))) = elements (snd s))
  /\ (status (Webcam.state (fst (snd (Webcam.stop H s)))) = idle
      /\ activeStream (Webcam.state (fst (snd (Webcam.stop H s)))) = None
      /\ Stream.activeStream (Webcam.stream (fst (snd (Webcam.stop H s)))) = None
      /\ sink_shows (snd (Webcam.stop H s)) None
      /\ live_tracks (media (snd (snd (Webcam.stop H s))))
         ## held_tracks (Webcam.stream (fst s))
      /\ (live_tracks (media (snd s)) ⊆ held_tracks (Webcam.stream (fst s)) ->
          live_tracks (media (snd (snd (Webcam.stop H s)))) = ∅)
      /\ fst (Webcam.stop Webcam.quiet s) = Ok tt).
Proof.
  split; [|split; [|split]].
  - intros Hok.
    destruct (start_resolves H P cfg s Hok) as (Hst & _ & r & Ha & Hm & Hsink & _ & Hn).
    split; [exact Hst|]. exists r. auto.
  - intros e He.
    destruct (start_rejects H P cfg s e He) as [Hnone Hsome].
    split; [intros Hc; now destruct (Hnone Hc) | exact Hsome].
  - intros c h. apply start_strands_the_stream.
  - destruct (stop_always H s) as (Hst & Has & Hm & Hsink & Hlive).
    split; [exact Hst|]. split; [exact Has|]. split; [exact Hm|].
    split; [exact Hsink|].
    split; [rewrite Hlive; clear; set_solver|].
    split; [intros Hsub; rewrite Hlive; clear -Hsub; set_solver|].
    destruct s as [o b]. now rewrite stop_run.
Qed.

(** The specification's example in a browser: [start] with the video
    element of the page, on the camera that grants 1280x720.  [start]
    rejects, and the granted stream is still attached: the state holds the
    start result, the manager holds the stream and its track is live. *)
Lemma session_transitions_witness :
  is_ok (fst (Webcam.start Webcam.quiet Scenario.hd_camera
                (Some Scenario.s720_then_hd) (Scenario.session None))) = false
  /\ status (Webcam.state (fst Scenario.previewed)) = error
  /\ activeStream (Webcam.state (fst Scenario.previewed))
     = Some (start_result Scenario.hd_result)
  /\ Stream.activeStream (Webcam.stream (fst Scenario.previewed))
     = Some Scenario.hd_stream
  /\ live_tracks (media (snd Scenario.previewed))
     = live_tracks (media (snd (Scenario.session None)))
       ∪ track_ids Scenario.hd_stream.
Proof.
  destruct (proj2 (proj1 (proj2 (proj2
              (session_transitions Webcam.quiet Scenario.hd_camera
                 (Some Scenario.s720_then_hd) (Scenario.session None))))
              Scenario.s720_then_hd 0%nat eq_refl eq_refl eq_refl)
              Scenario.hd_result
              {| Stream.activeStream := Some Scenario.hd_stream |}
              (snd (snd (Stream.startStream Scenario.hd_camera Scenario.s720_then_hd
                           (Stream.new, initial_world))))
              eq_refl ltac:(vm_compute; reflexivity))
    as (Hok & Hst & _ & Ha & Hm & Hl & _).
  split; [exact Hok|]. split; [exact Hst|]. split; [exact Ha|].
  split; [exact Hm | exact Hl].
Defined.

(** [start()] on a session that was never given a configuration rejects
    and leaves the status "idle", not "error". *)
Lemma start_without_configuration_stays_idle :
  is_ok (fst (Webcam.start Webcam.quiet Scenario.hd_camera None
                (Scenario.session None))) = false
  /\ thrown_code (fst (Webcam.start Webcam.quiet Scenario.hd_camera None
                         (Scenario.session None)))
     = Some INVALID_CONFIG
  /\ status (Webcam.state (fst (snd (Webcam.start Webcam.quiet Scenario.hd_camera None
                                       (Scenario.session None))))) = idle.
Proof. repeat split; reflexivity. Qed.

(** ** The active resolution *)

(** [start] never writes [activeResolution]. *)
Lemma start_keeps_activeResolution (H : Webcam.Host) (P : Platform)
    (cfg : option WebcamConfiguration) (s : Webcam.Self) :
  activeResolution (Webcam.state (fst (snd (Webcam.start H P cfg s))))
  = activeResolution (Webcam.state (fst s)).
Proof.
  destruct s as [o b]. rewrite start_cases.
  destruct (effective_config o cfg) as [c|]; [|reflexivity].
  start_paths_cases; reflexivity.
Qed.

(** Once the state holds a start result, [getCurrentResolution] throws. *)
Lemma getCurrentResolution_on_start_result (o : Webcam.t) (r : Stream.StartResult) :
  activeStream (Webcam.state o) = Some (start_result r) ->
  Webcam.getCurrentResolution o
  = Throw (TypeError "this.state.activeStream.getVideoTracks is not a function").
Proof. unfold Webcam.getCurrentResolution. now intros ->. Qed.

(** C2 (the code departs from it).  [start] never writes
    [activeResolution], whatever the host and the browser; and whenever
    [start] resolves, what the state holds as [activeStream] is the whole
    start result, on which [getCurrentResolution] throws a TypeError: it
    returns no label.

    The specification's example, run without a video element: the candidates
    are S720 then HD and the camera only does 1280x720.  [startStream] does
    return HD with its label, and [start] resolves; after it the state holds
    no [activeResolution], the label HD is only inside the object stored as
    [activeStream], and [getCurrentResolution] throws.  With the video element
    of the page, [start] rejects. *)
Theorem start_drops_the_label_of_the_used_resolution :
  (forall (H : Webcam.Host) (P : Platform) (cfg : option WebcamConfiguration)
          (s : Webcam.Self),
      activeResolution (Webcam.state (fst (snd (Webcam.start H P cfg s))))
      = activeResolution (Webcam.state (fst s)))
  /\ (forall (H : Webcam.Host) (P : Platform) (cfg : option WebcamConfiguration)
             (s : Webcam.Self),
        fst (Webcam.start H P cfg s) = Ok tt ->
        Webcam.getCurrentResolution (fst (snd (Webcam.start H P cfg s)))
        = Throw (TypeError "this.state.activeStream.getVideoTracks is not a function"))
  /\ fst (Stream.startStream Scenario.hd_camera Scenario.headless
            (Stream.new, initial_world))
     = Ok {| Stream.stream := Scenario.hd_stream;
             Stream.usedResolution := Some Scenario.HD |}
  /\ fst (Webcam.start Webcam.quiet Scenario.hd_camera (Some Scenario.headless)
            (Scenario.session None)) = Ok tt
  /\ activeResolution (Webcam.state (fst Scenario.started)) = None
  /\ activeStream (Webcam.state (fst Scenario.started))
     = Some (start_result {| Stream.stream := Scenario.hd_stream;
                             Stream.usedResolution := Some Scenario.HD |})
  /\ Webcam.getCurrentResolution (fst Scenario.started)
     = Throw (TypeError "this.state.activeStream.getVideoTracks is not a function")
  /\ is_ok (fst (Webcam.start Webcam.quiet Scenario.hd_camera
                   (Some Scenario.s720_then_hd) (Scenario.session None))) = false.
Proof.
  split; [exact start_keeps_activeResolution|].
  split.
  { intros H P cfg s Hok.
    destruct (start_resolves H P cfg s Hok) as (_ & _ & r & Ha & _).
    exact (getCurrentResolution_on_start_result _ r Ha). }
  repeat split; vm_compute; reflexivity.
Qed.

(** The example run: [start] resolves and [getCurrentResolution] throws. *)
Lemma start_drops_the_label_of_the_used_resolution_witness :
  fst (Webcam.start Webcam.quiet Scenario.hd_camera (Some Scenario.headless)
         (Scenario.session None)) = Ok tt
  /\ Webcam.getCurrentResolution (fst Scenario.started)
     = Throw (TypeError "this.state.activeStream.getVideoTracks is not a function").
Proof.
  split; [vm_compute; reflexivity|].
  apply (proj1 (proj2 start_drops_the_label_of_the_used_resolution)
           Webcam.quiet Scenario.hd_camera (Some Scenario.headless)
           (Scenario.session None)).
  vm_compute; reflexivity.
Defined.

(** ** Disposal of the session *)

Lemma state_settles (st : WebcamStateInternal) :
  idle_state (idle_state st) = idle_state st.
Proof. reflexivity. Qed.






(* ===================================================================== *)
(** * Further properties                                                 *)
(* ===================================================================== *)

(** ** Permissions (core/device.ts) *)

Lemma record_permission_run {S} (D : DevicePlatform) (name : PermissionName)
    (key : string) (permissions : Permissions) (s : S) :
  Device.record_permission D name key permissions s
  = (Ok (<[key := reported_state D name]> permissions), s).
Proof.
  unfold Device.record_permission, reported_state, try_catch, bind, answer, ret, throw.
  now destruct (permissions_query D name).
Qed.

Lemma checkPermissions_run {S} (D : DevicePlatform) (s : S) :
  Device.checkPermissions D s
  = (Ok (<["microphone" := reported_state D microphone]>
           (<["camera" := reported_state D camera]> ∅)), s).
Proof.
  unfold Device.checkPermissions, bind.
  rewrite record_permission_run, record_permission_run. reflexivity.
Qed.

(** X1. [checkPermissions] never throws and touches nothing, whatever the
    browser answers to the two permission queries: it returns a record with
    exactly the keys "camera" and "microphone", each holding the state the
    browser reported, or "prompt" when the query for it failed. *)
Theorem checkPermissions_never_throws (D : DevicePlatform) (w : World) :
  exists p,
    Device.checkPermissions D w = (Ok p, w)
    /\ base.dom p = ({["camera"; "microphone"]} : gset string)
    /\ p !! "camera" = Some (reported_state D camera)
    /\ p !! "microphone" = Some (reported_state D microphone).
Proof.
  eexists. split; [apply checkPermissions_run|].
  split; [|split].
  - rewrite !dom_insert_L, dom_empty_L. set_solver.
  - reflexivity.
  - reflexivity.
Qed.

Lemma getUserMedia_flags_run (D : DevicePlatform) (video audio : bool) (w : World) :
  match gum_flags D video audio with
  | inl e => getUserMedia_flags D video audio w = (Throw e, w)
  | inr shape =>
      exists w',
        getUserMedia_flags D video audio w = (Ok (granted_stream w shape), w')
        /\ live_tracks w' = live_tracks w ∪ track_ids (granted_stream w shape)
        /\ gum_calls w' = gum_calls w
        /\ apply_calls w' = apply_calls w
        /\ next_id w' = (S (next_id w) + List.length shape)%nat
  end.
Proof.
  unfold getUserMedia_flags, granted_stream.
  destruct (gum_flags D video audio); [reflexivity|].
  eexists. split; [reflexivity|]. cbn. auto.
Qed.

(** X2. [requestPermissions] never throws, whether the browser grants the
    request or not, and it answers what [checkPermissions] answers.  In a
    world whose track identities are fresh it leaves the set of live tracks
    as it found it: every track of the stream it opened has been stopped. *)
Theorem requestPermissions_releases_the_camera (D : DevicePlatform)
    (options : option PermissionRequestOptions) (w : World) :
  fresh_ids w ->
  exists p w',
    Device.requestPermissions D options w = (Ok p, w')
    /\ Device.checkPermissions D w' = (Ok p, w')
    /\ live_tracks w' = live_tracks w
    /\ fresh_ids w'.
Proof.
  intros Hf. unfold Device.requestPermissions, try_catch, bind, modify.
  pose proof (getUserMedia_flags_run D
                (default false (request_video (default Device.default_request options)))
                (default false (request_audio (default Device.default_request options)))
                w) as Hg.
  destruct (gum_flags D _ _) as [e|shape].
  - rewrite Hg. do 2 eexists.
    split; [apply checkPermissions_run|].
    split; [apply checkPermissions_run|]. auto.
  - destruct Hg as (w1 & -> & Hl & _ & _ & Hn). cbn.
    rewrite checkPermissions_run.
    do 2 eexists.
    split; [reflexivity|].
    split; [apply checkPermissions_run|].
    destruct (stop_tracks_run (granted_stream w shape) w1) as (Hl' & Hn' & _).
    pose proof (granted_stream_fresh w shape Hf) as Hd.
    split.
    + rewrite Hl', Hl. set_solver.
    + apply (fresh_ids_granted w _ shape Hf).
      * rewrite Hl', Hl. set_solver.
      * congruence.
Qed.

(** In the studio, with the default options and nothing live before: the
    camera permission is reported as granted, the microphone permission,
    which cannot be queried, as "prompt", and no track is live afterwards. *)
Lemma requestPermissions_releases_the_camera_witness :
  exists p w',
    Device.requestPermissions Studio.browser None initial_world = (Ok p, w')
    /\ p !! "camera" = Some granted
    /\ p !! "microphone" = Some prompt
    /\ live_tracks w' = live_tracks initial_world.
Proof.
  destruct (requestPermissions_releases_the_camera Studio.browser None
              initial_world fresh_ids_initial) as (p & w' & H1 & H2 & H3 & _).
  exists p, w'. split; [exact H1|].
  rewrite checkPermissions_run in H2. injection H2 as <-.
  split; [reflexivity|]. split; [reflexivity | exact H3].
Defined.

(** ** Device capabilities (core/device.ts) *)




(** X4. Every failure of [getDeviceCapabilities] is reported as a
    DEVICES_ERROR whose message starts with "Failed to get device
    capabilities: " and which carries the cause.  When the browser refused
    the test stream nothing was opened.  When the failure came after the
    stream was granted (no video track in it, or a browser without
    [getCapabilities]), the tracks of the test stream are all still live:
    the call does not stop them. *)
Theorem getDeviceCapabilities_failure (P : Platform) (D : DevicePlatform)
    (deviceId : string) (w w' : World) (e : ErrorValue) :
  Device.getDeviceCapabilities P D deviceId w = (Throw e, w') ->
  exists detail cause,
    e = WebcamError ("Failed to get device capabilities: " ++ detail)
                    DEVICES_ERROR (Some cause)
    /\ gum_calls w' = gum_calls w ++ [Device.test_constraints deviceId]
    /\ match gum P (Device.test_constraints deviceId) with
       | inl rejection => cause = rejection /\ live_tracks w' = live_tracks w
       | inr shape =>
           live_tracks w' = live_tracks w ∪ track_ids (granted_stream w shape)
       end.
Proof.
  unfold Device.getDeviceCapabilities, try_catch, bind, modify, answer, throw.
  pose proof (getUserMedia_run P (Device.test_constraints deviceId) w) as Hg.
  destruct (gum P (Device.test_constraints deviceId)) as [e0|shape].
  - rewrite Hg. intros [= <- <-]. do 2 eexists. cbn. eauto.
  - destruct Hg as (w1 & -> & Hl & Hc & _ & Hn).
    destruct (getVideoTracks (granted_stream w shape)) as [|track rest].
    + intros [= <- <-]. do 2 eexists. eauto.
    + destruct (getCapabilities_answer D track) as [e0|caps]; [|discriminate].
      intros [= <- <-]. do 2 eexists. eauto.
Qed.

(** In the browser without [getCapabilities] the call fails with
    DEVICES_ERROR, and the track of the test stream is still live. *)
Lemma getDeviceCapabilities_failure_witness :
  exists e w',
    Device.getDeviceCapabilities Scenario.hd_camera Studio.old_browser "cam-0"
      initial_world = (Throw e, w')
    /\ error_code e = Some DEVICES_ERROR
    /\ live_tracks w' = live_tracks initial_world ∪ track_ids Scenario.hd_stream.
Proof.
  destruct (Device.getDeviceCapabilities Scenario.hd_camera Studio.old_browser "cam-0"
              initial_world) as [[cap|e] w'] eqn:H.
  - vm_compute in H. discriminate H.
  - exists e, w'. split; [reflexivity|].
    destruct (getDeviceCapabilities_failure _ _ _ _ _ _ H)
      as (detail & cause & -> & _ & Hm).
    split; [reflexivity|]. exact Hm.
Defined.

(** ** The error taxonomy of [Stream.startStream] *)

Lemma startStream_throws_handled (P : Platform) (config : WebcamConfiguration)
    (self : Stream.t) (w : World) (e : ErrorValue) (out : Stream.Self) :
  Stream.startStream P config (self, w) = (Throw e, out) ->
  exists cause,
    e = Stream._handleStartError cause
    /\ (forall c, Stream._buildConstraints config = Ok c ->
                  (forall rs, preferredResolutions config <> Some (array rs)) ->
                  gum P c = inl cause).
Proof.
  unfold Stream.startStream, try_catch, bind, Stream.in_world, focus, throw.
  destruct (preferredResolutions config) as [[r0|rs]|] eqn:Hp; cbn [fst snd].
  - unfold Stream.attempt, bind, lift_result, getUserMedia.
    destruct (Stream._buildConstraints config) as [c|e0].
    + destruct (gum P c) as [e1|shape] eqn:Hg; cbn; [|discriminate].
      intros [= <- <-]. eexists. split; [reflexivity|].
      intros c' [= <-] _. exact Hg.
    + cbn. intros [= <- <-]. eexists. split; [reflexivity|]. discriminate.
  - destruct (Stream.try_resolutions P config rs None w)
      as [[[[[s r1]|] [l|]]|e0] w1]; cbn; try discriminate.
    + intros [= <- <-]. eexists. split; [reflexivity|].
      intros c _ Hn. now destruct (Hn rs).
    + intros [= <- <-]. exists (PlainError "No resolution worked").
      split; [reflexivity|].
      intros c _ Hn. now destruct (Hn rs).
    + intros [= <- <-]. eexists. split; [reflexivity|].
      intros c _ Hn. now destruct (Hn rs).
  - unfold Stream.attempt, bind, lift_result, getUserMedia.
    destruct (Stream._buildConstraints config) as [c|e0].
    + destruct (gum P c) as [e1|shape] eqn:Hg; cbn; [|discriminate].
      intros [= <- <-]. eexists. split; [reflexivity|].
      intros c' [= <-] _. exact Hg.
    + cbn. intros [= <- <-]. eexists. split; [reflexivity|]. discriminate.
Qed.

(** X5. Whatever makes [startStream] fail, what it throws is a WebcamError
    that carries the cause as [originalError] and whose code is read off the
    cause's name alone: NotAllowedError gives PERMISSION_DENIED, NotFoundError
    DEVICE_NOT_FOUND, NotReadableError DEVICE_BUSY, OverconstrainedError
    OVERCONSTRAINED, and every other cause UNKNOWN_ERROR.  In particular the
    code is never INVALID_CONFIG, also when the cause is the rejection of an
    invalid resolution.  With a single resolution or none, the cause is the
    browser's answer to the one request. *)
Theorem startStream_error_taxonomy (P : Platform) (config : WebcamConfiguration)
    (self : Stream.t) (w : World) (e : ErrorValue) (out : Stream.Self) :
  Stream.startStream P config (self, w) = (Throw e, out) ->
  exists message code cause,
    e = WebcamError message code (Some cause)
    /\ (error_name cause = Some "NotAllowedError" -> code = PERMISSION_DENIED)
    /\ (error_name cause = Some "NotFoundError" -> code = DEVICE_NOT_FOUND)
    /\ (error_name cause = Some "NotReadableError" -> code = DEVICE_BUSY)
    /\ (error_name cause = Some "OverconstrainedError" -> code = OVERCONSTRAINED)
    /\ (error_name cause <> Some "NotAllowedError" ->
        error_name cause <> Some "NotFoundError" ->
        error_name cause <> Some "NotReadableError" ->
        error_name cause <> Some "OverconstrainedError" ->
        code = UNKNOWN_ERROR)
    /\ code <> INVALID_CONFIG
    /\ (forall c, Stream._buildConstraints config = Ok c ->
                  (forall rs, preferredResolutions config <> Some (array rs)) ->
                  gum P c = inl cause).
Proof.
  intros H. apply startStream_throws_handled in H as (cause & -> & Hc).
  unfold Stream._handleStartError.
  destruct (error_name cause) as [n|] eqn:Hn.
  - destruct (String.eqb_spec n "NotAllowedError") as [->|H1].
    { do 3 eexists. split; [reflexivity|].
      repeat split; intros; try congruence; eauto. }
    destruct (String.eqb_spec n "NotFoundError") as [->|H2].
    { do 3 eexists. split; [reflexivity|].
      repeat split; intros; try congruence; eauto. }
    destruct (String.eqb_spec n "NotReadableError") as [->|H3].
    { do 3 eexists. split; [reflexivity|].
      repeat split; intros; try congruence; eauto. }
    destruct (String.eqb_spec n "OverconstrainedError") as [->|H4].
    { do 3 eexists. split; [reflexivity|].
      repeat split; intros; try congruence; eauto. }
    do 3 eexists. split; [reflexivity|].
    repeat split; intros; try congruence; eauto.
  - do 3 eexists. split; [reflexivity|].
    repeat split; intros; try congruence; eauto.
Qed.

(** The browser refuses the camera with NotAllowedError: [startStream]
    throws PERMISSION_DENIED. *)
Lemma startStream_error_taxonomy_witness :
  exists e out,
    Stream.startStream Studio.locked_camera (Scenario.config_with None)
      (Stream.new, initial_world) = (Throw e, out)
    /\ error_code e = Some PERMISSION_DENIED.
Proof.
  destruct (Stream.startStream Studio.locked_camera (Scenario.config_with None)
              (Stream.new, initial_world)) as [[r|e] out] eqn:H.
  - vm_compute in H. discriminate H.
  - exists e, out. split; [reflexivity|].
    destruct (startStream_error_taxonomy _ _ _ _ _ _ H)
      as (m & code & cause & -> & Hna & _ & _ & _ & _ & _ & Hc).
    cbn. f_equal. apply Hna.
    pose proof (Hc _ ltac:(vm_compute; reflexivity) ltac:(discriminate)) as Hg.
    cbn in Hg. injection Hg as <-. reflexivity.
Defined.


(** ** Live controls *)

Lemma control_run (H : Webcam.Host) (P : Platform)
    (patch : MediaTrackConstraintSet)
    (record : WebcamStateInternal -> WebcamStateInternal) (failure : string)
    (s : Webcam.Self) :
  control_outcome H s record failure
    (Webcam.apply_and_record H P patch record failure s).
Proof.
  destruct s as [o b]. rewrite control_cases.
  destruct (applyConstraints_effects P patch (Webcam.stream o) (media b))
    as (w' & Hsnd & Hl & Hn & _ & Hthrow).
  destruct (Stream.applyConstraints P patch (Webcam.stream o, media b))
    as [[[]|e] [t w1]]; cbn in Hsnd, Hthrow; injection Hsnd as -> ->.
  - unfold control_outcome. cbn [fst snd]. cbn zeta.
    change (Webcam.state (notified _ (Webcam.set_state ?st _))) with st.
    destruct (heard H (Webcam.registered o onStateChange) (Webcam.notifications o)
                (Webcam.StateChange (record (Webcam.state o)))) as [x|] eqn:Hh.
    + split; [|destruct o; cbn; repeat split; auto].
      right. exists x. split; [reflexivity|]. split; [reflexivity|].
      split; [reflexivity|].
      unfold heard in Hh. destruct (Webcam.registered o onStateChange);
        [destruct o; reflexivity | discriminate].
    + split; [|destruct o; cbn; repeat split; auto].
      split; [reflexivity|]. split; [destruct o; reflexivity | reflexivity].
  - destruct (Hthrow e eq_refl) as [He Hcode].
    unfold control_outcome, control_error. rewrite He. cbn [fst snd]. cbn zeta.
    split; [|destruct o; cbn; repeat split; auto].
    left. destruct o; cbn; auto.
Qed.



(** ** Every call keeps the session consistent *)

Lemma getDeviceCapabilities_world (P : Platform) (D : DevicePlatform)
    (deviceId : string) (w : World) :
  fresh_ids w ->
  fresh_ids (snd (Device.getDeviceCapabilities P D deviceId w))
  /\ live_tracks w ⊆ live_tracks (snd (Device.getDeviceCapabilities P D deviceId w)).
Proof.
  intros Hf. unfold Device.getDeviceCapabilities, try_catch, bind, modify, answer, throw.
  pose proof (getUserMedia_run P (Device.test_constraints deviceId) w) as Hg.
  destruct (gum P (Device.test_constraints deviceId)) as [e0|shape].
  - rewrite Hg. cbn. split; [exact Hf | set_solver].
  - destruct Hg as (w1 & -> & Hl & Hc & _ & Hn).
    pose proof (granted_stream_fresh w shape Hf) as Hd.
    assert (fresh_ids w1) as Hf1.
    { apply (fresh_ids_granted w _ shape Hf); [rewrite Hl; set_solver | exact Hn]. }
    destruct (getVideoTracks (granted_stream w shape)) as [|track rest]; cbn.
    + split; [exact Hf1 | rewrite Hl; set_solver].
    + destruct (getCapabilities_answer D track) as [e0|caps]; cbn.
      * split; [exact Hf1 | rewrite Hl; set_solver].
      * destruct (stop_tracks_run (granted_stream w shape) w1) as (Hl' & Hn' & _).
        split.
        -- apply (fresh_ids_granted w _ shape Hf); [rewrite Hl', Hl; set_solver|congruence].
        -- rewrite Hl', Hl. set_solver.
Qed.

Lemma requestPermissions_world (D : DevicePlatform)
    (options : option PermissionRequestOptions) (w : World) :
  fresh_ids w ->
  fresh_ids (snd (Device.requestPermissions D options w))
  /\ live_tracks (snd (Device.requestPermissions D options w)) = live_tracks w.
Proof.
  intros Hf. unfold Device.requestPermissions, try_catch, bind, modify.
  pose proof (getUserMedia_flags_run D
                (default false (request_video (default Device.default_request options)))
                (default false (request_audio (default Device.default_request options)))
                w) as Hg.
  destruct (gum_flags D _ _) as [e|shape].
  - rewrite Hg. rewrite checkPermissions_run. cbn. auto.
  - destruct Hg as (w1 & -> & Hl & _ & _ & Hn). cbn.
    rewrite checkPermissions_run. cbn.
    destruct (stop_tracks_run (granted_stream w shape) w1) as (Hl' & Hn' & _).
    pose proof (granted_stream_fresh w shape Hf) as Hd.
    split.
    + apply (fresh_ids_granted w _ shape Hf); [rewrite Hl', Hl; set_solver|congruence].
    + rewrite Hl', Hl. set_solver.
Qed.

Lemma captureImage_session (C : CanvasPlatform) (options : CaptureOptions)
    (s : Webcam.Self) :
  Webcam.stream (fst (snd (Webcam.captureImage C options s))) = Webcam.stream (fst s)
  /\ Webcam.state (fst (snd (Webcam.captureImage C options s))) = Webcam.state (fst s)
  /\ media (snd (snd (Webcam.captureImage C options s))) = media (snd s)
  /\ elements (snd (snd (Webcam.captureImage C options s))) = elements (snd s).
Proof.
  destruct s as [o b]. unfold Webcam.captureImage. unfold_monad. cbn.
  destruct (Webcam.videoElement o) as [h|]; cbn; [|auto].
  match goal with
  | |- context [Capture.captureImage ?C ?v ?opts ?st] =>
      destruct (Capture.captureImage C v opts st) as [r [c d]]
  end.
  cbn. auto.
Qed.

Lemma getCurrentDevice_session (D : DevicePlatform) (s : Webcam.Self) :
  snd (Webcam.getCurrentDevice D s) = s.
Proof.
  destruct s as [o b].
  unfold Webcam.getCurrentDevice, Webcam.getDevices, Webcam.in_device,
    Device.getVideoDevices, answer, lift_result.
  unfold_monad. cbn.
  destruct (activeStream (Webcam.state o)) as [[st|r]|]; [|reflexivity|reflexivity].
  cbn.
  destruct (getVideoTracks st) as [|track rest]; [reflexivity|].
  destruct (deviceId_of D track) as [id|]; [|reflexivity].
  destruct (String.eqb id ""); [reflexivity|].
  cbn. destruct (enumerateDevices_answer D); cbn; now destruct b.
Qed.

Lemma consistent_control (H : Webcam.Host) (s : Webcam.Self)
    (record : WebcamStateInternal -> WebcamStateInternal) (failure : string)
    (result : Result unit * Webcam.Self) :
  (forall st, status (record st) = status st
              /\ activeStream (record st) = activeStream st
              /\ state_error (record st) = state_error st) ->
  control_outcome H s record failure result ->
  consistent s -> consistent (snd result).
Proof.
  intros Hrec (Hout & Hstream & _ & _ & _ & _ & _ & Hlive & Hnext).
  unfold consistent. intros (H1 & H2 & H3 & H4 & H5 & H6 & H7).
  assert (status (Webcam.state (fst (snd result))) = status (Webcam.state (fst s))
          /\ activeStream (Webcam.state (fst (snd result)))
             = activeStream (Webcam.state (fst s))
          /\ state_error (Webcam.state (fst (snd result)))
             = state_error (Webcam.state (fst s))) as (Es & Ea & Ee).
  { destruct (fst result).
    - destruct Hout as [-> _]. apply Hrec.
    - destruct Hout as [(_ & -> & _)|(x & _ & _ & -> & _)]; [auto | apply Hrec]. }
  cbn. rewrite Es, Ea, Ee, Hstream, Hlive.
  split; [exact H1|]. split; [exact H2|]. split; [exact H3|].
  split; [exact H4|]. split; [exact H5|]. split; [exact H6|].
  intros i Hi. rewrite Hnext. apply H7. now rewrite <- Hlive.
Qed.

Lemma consistent_intro (o : Webcam.t) (b : Browser) :
  wraps (activeStream (Webcam.state o)) (Stream.activeStream (Webcam.stream o)) ->
  (status (Webcam.state o) = ready
   /\ is_Some (activeStream (Webcam.state o))
   /\ state_error (Webcam.state o) = None)
  \/ (status (Webcam.state o) = idle
      /\ activeStream (Webcam.state o) = None
      /\ state_error (Webcam.state o) = None)
  \/ (status (Webcam.state o) = error
      /\ is_Some (state_error (Webcam.state o))) ->
  held_tracks (Webcam.stream o) ⊆ live_tracks (media b) ->
  fresh_ids (media b) ->
  consistent (o, b).
Proof.
  intros H1 Hcase H6 H7. unfold consistent. cbn.
  split; [exact H1|].
  destruct Hcase as [(Hs & Ha & He)|[(Hs & Ha & He)|(Hs & He)]]; rewrite Hs.
  - rewrite He. split; [discriminate|]. split; [intros _; exact Ha|].
    split; [discriminate|]. split; [|auto].
    split; [discriminate | intros [x [=]]].
  - rewrite He, Ha. split; [discriminate|]. split; [discriminate|].
    split; [reflexivity|]. split; [|auto].
    split; [discriminate | intros [x [=]]].
  - split; [discriminate|]. split; [discriminate|]. split; [discriminate|].
    split; [|auto]. split; auto.
Qed.

Lemma consistent_start (H : Webcam.Host) (P : Platform)
    (cfg : option WebcamConfiguration) (s : Webcam.Self) :
  consistent s -> consistent (snd (Webcam.start H P cfg s)).
Proof.
  destruct s as [o b]. intros Hc.
  pose proof Hc as (H1 & H2 & H3 & H4 & H5 & H6 & H7).
  cbn in H1, H2, H3, H4, H5, H6, H7.
  rewrite start_cases.
  destruct (effective_config o cfg) as [c|]; [|exact Hc].
  start_paths_cases; cbn [snd].
  all: try (pose proof (startStream_ok _ _ _ _ _ _ _ Hs) as Ht;
            pose proof (startStream_acquires _ _ _ _ _ _ _ Hs) as Ha;
            destruct (acquired_fresh _ _ _ Ha H7) as [Hf' Hd];
            destruct Ha as (shape & _ & Hl & _)).
  all: try (pose proof (startStream_throw_world _ _ _ _ _ _ _ Hs) as Hn;
            apply startStream_throw in Hs as (-> & _ & Hl)).
  all: apply consistent_intro; cbn.
  all: try (right; right; eauto; fail).
  all: try (left; eauto; fail).
  all: try exact H1.
  all: try exact Hf'.
  all: try exact H7.
  all: try exact H6.
  all: try (cbn in Ht; rewrite Ht; reflexivity).
  all: try (unfold held_tracks; cbn in Ht |- *; rewrite Ht, Hl; apply union_subseteq_r).
  all: try (rewrite Hl; exact H6).
  all: try (intros i Hi; rewrite Hn; apply H7; now rewrite <- Hl).
Qed.

Lemma consistent_stop (H : Webcam.Host) (s : Webcam.Self) :
  consistent s -> consistent (snd (Webcam.stop H s)).
Proof.
  destruct s as [o b]. intros (_ & _ & _ & _ & _ & _ & H7). cbn in H7.
  rewrite stop_cases. unfold stop_paths. cbn zeta.
  destruct (released_world_live (Webcam.stream o) (media b)) as [Hl Hn].
  destruct (heard H (Webcam.registered o onStateChange) _ _); cbn [snd].
  all: apply consistent_intro; cbn.
  all: try exact I.
  all: try (right; left; auto; fail).
  all: try apply empty_subseteq.
  all: intros i Hi; rewrite Hn; apply H7; rewrite Hl in Hi.
  all: now apply elem_of_difference in Hi as [Hi _].
Qed.

Lemma consistent_dispose (H : Webcam.Host) (s : Webcam.Self) :
  consistent s -> consistent (snd (Webcam.dispose H s)).
Proof.
  destruct s as [o b]. intros Hc. apply (consistent_stop H) in Hc.
  rewrite dispose_cases.
  destruct (Webcam.stop H (o, b)) as [[[]|x] [o' b']]; exact Hc.
Qed.

Lemma consistent_settled (H : Webcam.Host) (c : Call) (s : Webcam.Self) :
  consistent s -> consistent (settled H c s).
Proof.
  destruct s as [o b]. intros Hc.
  pose proof Hc as (H1 & H2 & H3 & H4 & H5 & H6 & H7). cbn in H1, H2, H3, H4, H5, H6, H7.
  destruct c as [P cfg| | |C options|m|P enabled|P zoom|P mode|D options|D|D|P D id|D];
    cbn [settled].
  - now apply consistent_start.
  - now apply consistent_stop.
  - now apply consistent_dispose.
  - (* captureImage *)
    destruct (captureImage_session C options (o, b)) as (Es & Est & Em & _).
    unfold consistent. rewrite Es, Est, Em. exact Hc.
  - (* setMirror *)
    rewrite setMirror_run. exact Hc.
  - (* setTorch *)
    apply (consistent_control H (o, b) (Webcam.set_torchEnabled (Some enabled))
             "Failed to set torch");
      [intros st; cbn; auto | apply control_run | exact Hc].
  - (* setZoom *)
    unfold Webcam.setZoom. destruct (JS.ltb zoom JS.lit_1); [exact Hc|].
    apply (consistent_control H (o, b) (Webcam.set_zoomLevel (Some zoom))
             "Failed to set zoom");
      [intros st; cbn; auto | apply control_run | exact Hc].
  - (* setFocusMode *)
    apply (consistent_control H (o, b) (Webcam.set_focusMode (Some mode))
             "Failed to set focus mode");
      [intros st; cbn; auto | apply control_run | exact Hc].
  - (* requestPermissions *)
    destruct (requestPermissions_world D options (media b) H7) as [Hf Hl].
    unfold Webcam.requestPermissions, Webcam.in_device, focus. cbn.
    destruct (Device.requestPermissions D options (media b)) as [r w'].
    cbn in *. unfold consistent; cbn. rewrite Hl. tauto.
  - (* checkPermissions *)
    unfold Webcam.checkPermissions, Webcam.in_device, focus. cbn.
    rewrite checkPermissions_run. cbn. now destruct b.
  - (* getDevices *)
    unfold Webcam.getDevices, Webcam.in_device, focus, Device.getVideoDevices,
      try_catch, bind, answer, ret, throw. cbn.
    destruct (enumerateDevices_answer D); cbn; now destruct b.
  - (* getCapabilities *)
    destruct (getDeviceCapabilities_world P D id (media b) H7) as [Hf Hl].
    unfold Webcam.getCapabilities, Webcam.in_device, focus. cbn.
    destruct (Device.getDeviceCapabilities P D id (media b)) as [r w'].
    cbn in *. unfold consistent; cbn.
    assert (held_tracks (Webcam.stream o) ⊆ live_tracks w')
      by now transitivity (live_tracks (media b)).
    tauto.
  - (* getCurrentDevice *)
    rewrite getCurrentDevice_session. exact Hc.
Qed.

Lemma constructor_consistent (C : CanvasPlatform) (cfg : option WebcamConfiguration)
    (b b' : Browser) (o : Webcam.t) :
  Webcam.constructor C cfg b = (Ok o, b') ->
  fresh_ids (media b) ->
  live_tracks (media b') = live_tracks (media b) /\ consistent (o, b').
Proof.
  unfold Webcam.constructor, Capture.constructor, bind, focus, createElement_canvas,
    fresh_handle, ret, throw, bind.
  cbn. destruct (getContext C); cbn; [|discriminate].
  intros [= <- <-] Hf. split; [reflexivity|].
  apply consistent_intro; cbn.
  - exact I.
  - right. left. auto.
  - apply empty_subseteq.
  - exact Hf.
Qed.

(** ** The scenario's sessions are consistent *)

Lemma session_consistent (cfg : option WebcamConfiguration) :
  consistent (Scenario.session cfg).
Proof.
  unfold Scenario.session.
  destruct (Webcam.constructor Scenario.canvases cfg Scenario.page)
    as [[o|e] b] eqn:H.
  - now apply (constructor_consistent _ _ _ _ _ H fresh_ids_initial).
  - vm_compute in H. discriminate H.
Qed.

Lemma started_consistent : consistent Scenario.started.
Proof. apply consistent_start, session_consistent. Qed.

Lemma consistent_fresh (s : Webcam.Self) :
  consistent s -> fresh_ids (media (snd s)).
Proof. intros (_ & _ & _ & _ & _ & _ & H). exact H. Qed.

Lemma consistent_held (s : Webcam.Self) :
  consistent s ->
  held_tracks (Webcam.stream (fst s)) ⊆ live_tracks (media (snd s)).
Proof. intros (_ & _ & _ & _ & _ & H & _). exact H. Qed.

Lemma started_stream :
  Stream.activeStream (Webcam.stream (fst Scenario.started))
  = Some Scenario.hd_stream.
Proof. vm_compute. reflexivity. Qed.

(** ** Invariants of the session *)

Lemma history_consistent (H : Webcam.Host) (cs : list Call) (s : Webcam.Self) :
  consistent s -> consistent (history H cs s).
Proof.
  revert s. induction cs as [|c cs IH]; intros s Hs; [exact Hs|].
  cbn. apply IH, consistent_settled, Hs.
Qed.

(** X7. Invariants of the session.  Take a session created by the
    constructor in a browser whose track identities are fresh, and make any
    sequence of calls to its methods, with any arguments, any answers of the
    browser and callbacks that return or throw as they like, each call after
    the one before has settled.  Then, whether the calls returned or threw:
    the state holds no stream exactly when the stream manager holds none, and
    what it holds otherwise is a start result whose stream is the one the
    manager holds, never that stream itself; the status is not
    "initializing"; the status "ready" comes with a stream in the state and
    the status "idle" with none; the status is "error" exactly when an error
    is recorded; and every track of the stream the manager holds is live. *)
Theorem session_invariants (H : Webcam.Host) (C : CanvasPlatform)
    (cfg : option WebcamConfiguration)
    (b b' : Browser) (o : Webcam.t) (calls : list Call) :
  fresh_ids (media b) ->
  Webcam.constructor C cfg b = (Ok o, b') ->
  consistent (history H calls (o, b')).
Proof.
  intros Hf Hnew. apply history_consistent.
  now apply (constructor_consistent C cfg b b' o Hnew).
Qed.

(** A session of the scenario, with a host whose [onStateChange] throws
    once a zoom is recorded: it is started, zoomed, asked for the
    capabilities of a camera in a browser that cannot tell them, started
    again where the camera is refused, and disposed. *)
Lemma session_invariants_witness :
  exists o b,
    Webcam.constructor Scenario.canvases None Scenario.page = (Ok o, b)
    /\ consistent
         (history Scenario.zoom_averse
                  [call_start Scenario.hd_camera (Some Scenario.headless);
                   call_setZoom Scenario.hd_camera (JS.of_Z 2);
                   call_getCapabilities Scenario.hd_camera Studio.old_browser "cam-0";
                   call_start Studio.locked_camera None;
                   call_dispose]
                  (o, b)).
Proof.
  eexists. eexists. split; [vm_compute; reflexivity|].
  apply (session_invariants Scenario.zoom_averse Scenario.canvases None Scenario.page).
  - exact fresh_ids_initial.
  - vm_compute. reflexivity.
Defined.

(** ** Starting and stopping *)

Lemma start_ok_world (H : Webcam.Host) (P : Platform)
    (cfg : option WebcamConfiguration) (s s1 : Webcam.Self) :
  Webcam.start H P cfg s = (Ok tt, s1) ->
  exists st,
    Stream.activeStream (Webcam.stream (fst s1)) = Some st
    /\ acquired (media (snd s)) (media (snd s1)) st.
Proof.
  destruct s as [o b]. rewrite start_cases.
  destruct (effective_config o cfg) as [c|]; [|discriminate].
  start_paths_cases; try discriminate.
  intros [= <-]. cbn.
  exists (Stream.stream r). split.
  - exact (startStream_ok _ _ _ _ _ _ _ Hs).
  - exact (startStream_acquires _ _ _ _ _ _ _ Hs).
Qed.

Lemma stop_world (H : Webcam.Host) (s : Webcam.Self) :
  live_tracks (media (snd (snd (Webcam.stop H s))))
  = live_tracks (media (snd s)) ∖ held_tracks (Webcam.stream (fst s))
  /\ nothing_attached (snd (Webcam.stop H s)).
Proof.
  destruct (stop_always H s) as (_ & Ha & Hm & Hsink & Hl).
  split; [exact Hl|]. split; [exact Ha|]. split; [exact Hm | exact Hsink].
Qed.

Lemma stop_returns (s : Webcam.Self) : fst (Webcam.stop Webcam.quiet s) = Ok tt.
Proof. destruct s as [o b]. now rewrite stop_run. Qed.

Lemma dispose_world (H : Webcam.Host) (s : Webcam.Self) :
  live_tracks (media (snd (snd (Webcam.dispose H s))))
  = live_tracks (media (snd s)) ∖ held_tracks (Webcam.stream (fst s)).
Proof.
  destruct (stop_world H s) as [Hl _].
  destruct s as [o b]. rewrite dispose_cases.
  destruct (Webcam.stop H (o, b)) as [[[]|x] [o' b']]; exact Hl.
Qed.

(** X8. Starting and then stopping gives the camera back.  When [start]
    resolves in a browser whose track identities are fresh, the tracks of
    the stream it acquired are new and live; a [stop] (or a [dispose]) that
    follows returns when the host's callbacks return, and whatever they do
    it leaves exactly the tracks live that were live before the [start], with
    no stream in the state, the manager or the sink. *)
Theorem start_then_stop_releases_the_camera (H : Webcam.Host) (P : Platform)
    (cfg : option WebcamConfiguration) (s s1 : Webcam.Self) :
  fresh_ids (media (snd s)) ->
  Webcam.start H P cfg s = (Ok tt, s1) ->
  (exists st,
     Stream.activeStream (Webcam.stream (fst s1)) = Some st
     /\ track_ids st ## live_tracks (media (snd s))
     /\ live_tracks (media (snd s1)) = live_tracks (media (snd s)) ∪ track_ids st)
  /\ fst (Webcam.stop Webcam.quiet s1) = Ok tt
  /\ live_tracks (media (snd (snd (Webcam.stop H s1)))) = live_tracks (media (snd s))
  /\ live_tracks (media (snd (snd (Webcam.dispose H s1)))) = live_tracks (media (snd s))
  /\ nothing_attached (snd (Webcam.stop H s1)).
Proof.
  intros Hf Hstart.
  destruct (start_ok_world H P cfg s s1 Hstart) as (st & Ht & Ha).
  destruct (acquired_fresh _ _ _ Ha Hf) as [_ Hd].
  destruct Ha as (shape & _ & Hl & _).
  destruct (stop_world H s1) as (Hlive & Hnone).
  split; [exists st; auto|].
  split; [apply stop_returns|].
  assert (held_tracks (Webcam.stream (fst s1)) = track_ids st) as Hh
    by (unfold held_tracks; now rewrite Ht).
  split; [|split; [|exact Hnone]].
  - rewrite Hlive, Hh, Hl. clear -Hd. set_solver.
  - rewrite dispose_world, Hh, Hl. clear -Hd. set_solver.
Qed.

(** The scenario's session, started on the 1280x720 camera and stopped: the
    tracks that are live are those of the page before the start. *)
Lemma start_then_stop_releases_the_camera_witness :
  live_tracks (media (snd (snd (Webcam.stop Webcam.quiet Scenario.started))))
  = live_tracks (media (snd (Scenario.session None))).
Proof.
  refine (proj1 (proj2 (proj2 (start_then_stop_releases_the_camera
            Webcam.quiet Scenario.hd_camera (Some Scenario.headless)
            (Scenario.session None) Scenario.started _ _)))).
  - apply consistent_fresh, session_consistent.
  - vm_compute. reflexivity.
Defined.

(** X9. [start] does not stop the stream it replaces.  When a session that
    holds a live stream is started again and [start] resolves, the tracks of
    the old stream are still live, the session now holds a stream that shares
    no track with it, and neither [stop] nor [dispose] ends the old tracks
    afterwards, although the session then refers to no stream at all. *)
Theorem restart_abandons_the_previous_stream (H : Webcam.Host) (P : Platform)
    (cfg : option WebcamConfiguration) (s s1 : Webcam.Self) (old : MediaStream) :
  fresh_ids (media (snd s)) ->
  Stream.activeStream (Webcam.stream (fst s)) = Some old ->
  track_ids old ⊆ live_tracks (media (snd s)) ->
  Webcam.start H P cfg s = (Ok tt, s1) ->
  track_ids old ⊆ live_tracks (media (snd s1))
  /\ held_tracks (Webcam.stream (fst s1)) ## track_ids old
  /\ track_ids old ⊆ live_tracks (media (snd (snd (Webcam.stop H s1))))
  /\ track_ids old ⊆ live_tracks (media (snd (snd (Webcam.dispose H s1))))
  /\ nothing_attached (snd (Webcam.stop H s1)).
Proof.
  intros Hf Hold Hlive Hstart.
  destruct (start_ok_world H P cfg s s1 Hstart) as (st & Ht & Ha).
  destruct (acquired_fresh _ _ _ Ha Hf) as [_ Hd].
  destruct Ha as (shape & _ & Hl & _).
  destruct (stop_world H s1) as (Hstop & Hnone).
  assert (held_tracks (Webcam.stream (fst s1)) = track_ids st) as Hh
    by (unfold held_tracks; now rewrite Ht).
  rewrite Hstop, dispose_world, Hh, Hl.
  split; [|split; [|split; [|split; [|exact Hnone]]]].
  all: clear -Hd Hlive; set_solver.
Qed.

(** The started session of the scenario is started a second time and then
    disposed: the track of the first stream is still live. *)
Lemma restart_abandons_the_previous_stream_witness :
  track_ids Scenario.hd_stream
  ⊆ live_tracks (media (snd (snd (Webcam.dispose Webcam.quiet
        (snd (Webcam.start Webcam.quiet Scenario.hd_camera None
                Scenario.started)))))).
Proof.
  refine (proj1 (proj2 (proj2 (proj2 (restart_abandons_the_previous_stream
            Webcam.quiet Scenario.hd_camera None Scenario.started
            (snd (Webcam.start Webcam.quiet Scenario.hd_camera None Scenario.started))
            Scenario.hd_stream _ _ _ _))))).
  - apply consistent_fresh, started_consistent.
  - exact started_stream.
  - pose proof (consistent_held _ started_consistent) as H.
    unfold held_tracks in H. rewrite started_stream in H. exact H.
  - vm_compute. reflexivity.
Defined.

(** ** Callbacks *)

(** Case analysis on the paths of [start], keeping what the catch block
    reports. *)
Ltac start_paths_reports :=
  unfold start_paths; cbn zeta;
  repeat match goal with
         | |- context [match heard ?H ?r ?l ?n with _ => _ end] =>
             destruct (heard H r l n) eqn:?
         | |- context [match Stream.startStream ?P ?c ?s with _ => _ end] =>
             let Hs := fresh "Hs" in
             destruct (Stream.startStream P c s) as [[?r|?err] [?t ?w]] eqn:Hs
         | |- context [match sink_step ?P ?c ?v ?h ?els with _ => _ end] =>
             let Hk := fresh "Hk" in
             destruct (sink_step P c v h els) eqn:Hk
         end;
  repeat match goal with
         | |- context [start_caught ?H ?c ?x ?o ?b] =>
             let e := fresh "thrown" in let ns := fresh "ns" in
             let Hc := fresh "Hcaught" in let Hns := fresh "Hns" in
             destruct (start_caught_spec H c x o b) as (e & ns & Hc & Hns);
             rewrite Hc; clear Hc
         end.

(** X10. The order of the callbacks.  For any host: a [start] without any
    configuration invokes nothing; a [start] that resolves has invoked
    [onStateChange] with the "initializing" state (error cleared, the stream
    still the one from before), then [onStateChange] with the final "ready"
    state, then [onStreamStart], whose argument is the start result object
    that the state holds, not a media stream; a [start] that rejects after
    the configuration check has invoked [onStateChange] with the
    "initializing" state first and, among what follows, [onError] with the
    error that the state records.  A [stop] that returns has invoked
    [onStateChange] with the final "idle" state, then [onStreamStop].

    For a host whose callbacks return: a [start] that rejects after the
    configuration check invokes [onStateChange] with the "initializing"
    state, then [onError] with the error it throws, then [onStateChange] with
    the final "error" state, which records that same error; and [stop]
    invokes [onStateChange] and then [onStreamStop].

    Each callback is invoked only when registered. *)
Theorem callback_order (H : Webcam.Host) (P : Platform)
    (cfg : option WebcamConfiguration) (s : Webcam.Self) :
  match effective_config (fst s) cfg with
  | None =>
      Webcam.notifications (fst (snd (Webcam.start H P cfg s)))
      = Webcam.notifications (fst s)
  | Some c =>
      (fst (Webcam.start H P cfg s) = Ok tt ->
       exists r,
         activeStream (Webcam.state (fst (snd (Webcam.start H P cfg s))))
         = Some (start_result r)
         /\ Webcam.notifications (fst (snd (Webcam.start H P cfg s)))
            = Webcam.notifications (fst s)
              ++ reported (onStateChange c)
                   (Webcam.StateChange
                      (with_status initializing (Webcam.state (fst s))))
              ++ reported (onStateChange c)
                   (Webcam.StateChange
                      (Webcam.state (fst (snd (Webcam.start H P cfg s)))))
              ++ reported (onStreamStart c) (Webcam.StreamStart (start_result r)))
      /\ (forall e,
            fst (Webcam.start H P cfg s) = Throw e ->
            exists recorded rest,
              state_error (Webcam.state (fst (snd (Webcam.start H P cfg s))))
              = Some recorded
              /\ Webcam.notifications (fst (snd (Webcam.start H P cfg s)))
                 = Webcam.notifications (fst s)
                   ++ reported (onStateChange c)
                        (Webcam.StateChange
                           (with_status initializing (Webcam.state (fst s))))
                   ++ rest
              /\ (onError c = true -> In (Webcam.ErrorReported recorded) rest))
      /\ (forall e,
            fst (Webcam.start Webcam.quiet P cfg s) = Throw e ->
            state_error (Webcam.state (fst (snd (Webcam.start Webcam.quiet P cfg s))))
            = Some e
            /\ Webcam.notifications (fst (snd (Webcam.start Webcam.quiet P cfg s)))
               = Webcam.notifications (fst s)
                 ++ reported (onStateChange c)
                      (Webcam.StateChange
                         (with_status initializing (Webcam.state (fst s))))
                 ++ reported (onError c) (Webcam.ErrorReported e)
                 ++ reported (onStateChange c)
                      (Webcam.StateChange
                         (Webcam.state
                            (fst (snd (Webcam.start Webcam.quiet P cfg s))))))
  end
  /\ (fst (Webcam.stop H s) = Ok tt ->
      Webcam.notifications (fst (snd (Webcam.stop H s)))
      = Webcam.notifications (fst s)
        ++ reported (Webcam.registered (fst s) onStateChange)
             (Webcam.StateChange (Webcam.state (fst (snd (Webcam.stop H s)))))
        ++ reported (Webcam.registered (fst s) onStreamStop) Webcam.StreamStop)
  /\ Webcam.notifications (fst (snd (Webcam.stop Webcam.quiet s)))
     = Webcam.notifications (fst s)
       ++ reported (Webcam.registered (fst s) onStateChange)
            (Webcam.StateChange
               (Webcam.state (fst (snd (Webcam.stop Webcam.quiet s)))))
       ++ reported (Webcam.registered (fst s) onStreamStop) Webcam.StreamStop.
Proof.
  destruct s as [o b]. cbn [fst snd]. split; [|split].
  - destruct (effective_config o cfg) as [c|] eqn:Hcfg.
    2: { rewrite start_cases, Hcfg. reflexivity. }
    split; [|split].
    + rewrite start_cases, Hcfg.
      start_paths_cases; cbn [fst snd]; try discriminate. intros _.
      exists r. split; [reflexivity|]. cbn. now rewrite <- !app_assoc.
    + intros e. rewrite start_cases, Hcfg.
      start_paths_reports; cbn [fst snd]; try discriminate; intros _.
      all: eexists; eexists; (split; [reflexivity|]); cbn.
      all: rewrite <- ?app_assoc.
      all: (split; [reflexivity|]).
      all: intros Herr.
      all: try (apply in_or_app; right).
      all: try (apply in_or_app; right).
      all: destruct Hns as [->| ->]; rewrite Herr.
      all: rewrite ?in_app_iff; unfold reported; cbn; auto.
    + intros e. rewrite start_run, Hcfg.
      destruct (Stream.startStream P c (Webcam.stream o, media b))
        as [[r|err] [t w']];
        [destruct (sink_step P c (start_result r) (element_for o cfg) (elements b))|];
        cbn [fst snd]; try discriminate.
      all: intros [= <-]; split; reflexivity.
  - rewrite stop_cases. unfold stop_paths. cbn zeta.
    destruct (heard H (Webcam.registered o onStateChange) _ _);
      cbn [fst snd]; [discriminate|].
    intros _. reflexivity.
  - rewrite stop_run. reflexivity.
Qed.

(** The scenario's start, without a video element: it resolves, and the
    three callbacks were invoked in order, [onStreamStart] with the start
    result. *)
Lemma callback_order_witness :
  List.map (fun n => match n with
                     | Webcam.StateChange st => inl (status st)
                     | Webcam.StreamStart v => inr (Some v)
                     | _ => inr None
                     end)
           (Webcam.notifications (fst Scenario.started))
  = [inl initializing; inl ready; inr (Some (start_result Scenario.hd_result))].
Proof.
  destruct (proj1 (proj1 (callback_order Webcam.quiet Scenario.hd_camera
                            (Some Scenario.headless) (Scenario.session None)))
              ltac:(vm_compute; reflexivity))
    as (r & Ha & Hn).
  assert (r = Scenario.hd_result) as ->     by (vm_compute in Ha; injection Ha as Ha; rewrite <- Ha; reflexivity).
  unfold Scenario.started. rewrite Hn. vm_compute. reflexivity.
Defined.

(** ** The preview mirror *)

(** X11. [setMirror] and [getMirror] round trip.  On a session attached to
    an element of the page, [setMirror(m)] returns and [getMirror()] then
    answers [m]; the call writes the element's style transform and nothing
    else: its other properties, the other elements, the session and the rest
    of the browser are as before.  On a session without an element
    [setMirror] does nothing and [getMirror()] answers false. *)
Theorem mirror_round_trip (m : bool) (s : Webcam.Self) :
  (forall h e,
     Webcam.videoElement (fst s) = Some h ->
     elements (snd s) !! h = Some e ->
     fst (Webcam.setMirror m s) = Ok tt
     /\ Webcam.getMirror (snd (Webcam.setMirror m s)) = m
     /\ elements (snd (snd (Webcam.setMirror m s))) !! h
        = Some (Webcam.set_style_transform (if m then "scaleX(-1)" else "") e)
     /\ (forall h', h' <> h ->
                    elements (snd (snd (Webcam.setMirror m s))) !! h'
                    = elements (snd s) !! h')
     /\ fst (snd (Webcam.setMirror m s)) = fst s
     /\ media (snd (snd (Webcam.setMirror m s))) = media (snd s)
     /\ dom (snd (snd (Webcam.setMirror m s))) = dom (snd s))
  /\ (Webcam.videoElement (fst s) = None ->
      Webcam.setMirror m s = (Ok tt, s) /\ Webcam.getMirror s = false).
Proof.
  destruct s as [o b]. rewrite setMirror_run. cbn [fst snd]. split.
  - intros h e Hh He. rewrite Hh. unfold Webcam.getMirror. cbn. rewrite Hh.
    rewrite lookup_alter_eq, He. cbn.
    split; [reflexivity|]. split; [now destruct m|]. split; [reflexivity|].
    split; [|auto]. intros h' Hne. now rewrite lookup_alter_ne.
  - intros Hn. rewrite Hn. unfold Webcam.getMirror. cbn. rewrite Hn.
    split; [now destruct b | reflexivity].
Qed.

(** The scenario's session is attached to the element of the page: after
    [setMirror(true)], [getMirror()] answers true. *)
Lemma mirror_round_trip_witness :
  Webcam.getMirror
    (snd (Webcam.setMirror true (Scenario.session (Some Scenario.s720_then_hd))))
  = true.
Proof.
  refine (proj1 (proj2 (proj1 (mirror_round_trip true _) 0%nat Scenario.video _ _)));
    vm_compute; reflexivity.
Defined.

(** X12. [start] can mirror the preview but never un-mirrors it.  When
    [start] resolves on a session attached to an element of the page, the
    preview is mirrored afterwards exactly when the configuration enables the
    mirror or the element was mirrored already: [enableMirror: false] leaves
    a mirrored element mirrored.  This only happens where [srcObject] is a
    plain property: what [start] has assigned to the element's [srcObject]
    is the start result object that the state holds, not a media stream, and
    a browser's video element refuses it. *)
Theorem start_never_unmirrors (H : Webcam.Host) (P : Platform)
    (cfg : option WebcamConfiguration)
    (s out : Webcam.Self) (c : WebcamConfiguration) (h : ElementRef)
    (e : HTMLVideoElement) :
  Webcam.start H P cfg s = (Ok tt, out) ->
  effective_config (fst s) cfg = Some c ->
  Webcam.videoElement (fst out) = Some h ->
  elements (snd s) !! h = Some e ->
  Webcam.getMirror out
  = (default false (enableMirror c) || String.eqb (style_transform e) "scaleX(-1)")
  /\ srcObject_checked P = false
  /\ exists e' r,
       elements (snd out) !! h = Some e'
       /\ srcObject e' = Some (start_result r)
       /\ activeStream (Webcam.state (fst out)) = Some (start_result r)
       /\ Stream.activeStream (Webcam.stream (fst out)) = Some (Stream.stream r).
Proof.
  destruct s as [o b]. rewrite start_cases. cbn [fst snd]. intros Hrun Hc.
  rewrite Hc in Hrun. revert Hrun.
  start_paths_cases; try discriminate.
  intros [= <-]. cbn [fst snd]. intros Hh He.
  cbn in Hh, Hk.
  rewrite Hh in Hk.
  apply sink_step_inr in Hk as [-> [Hnone|Hun]]; [discriminate|].
  pose proof (startStream_ok _ _ _ _ _ _ _ Hs) as Hheld.
  unfold Webcam.getMirror, attached. cbn. rewrite Hh.
  destruct (default false (enableMirror c)); cbn.
  - rewrite !lookup_alter_eq, He. cbn. split; [reflexivity|].
    split; [exact Hun|]. eexists _, r. eauto.
  - rewrite !lookup_alter_eq, He. cbn. split; [reflexivity|].
    split; [exact Hun|]. eexists _, r. eauto.
Qed.

(** The scenario's start with stand-in elements: the configuration does not
    enable the mirror and the element was not mirrored, so the preview is
    not mirrored. *)
Lemma start_never_unmirrors_witness :
  Webcam.getMirror Scenario.previewed_on_stand_in = false.
Proof.
  refine (proj1 (start_never_unmirrors Webcam.quiet Scenario.stand_in
                   (Some Scenario.s720_then_hd) (Scenario.session None)
                   Scenario.previewed_on_stand_in Scenario.s720_then_hd 0%nat
                   Scenario.video _ _ _ _));
    vm_compute; reflexivity.
Defined.

(** ** The current device and the stream quality *)

Lemma getVideoDevices_run {S} (D : DevicePlatform) (s : S) :
  Device.getVideoDevices D s
  = (match enumerateDevices_answer D with
     | inr devices => Ok (List.filter Device.is_videoinput devices)
     | inl cause =>
         Throw (WebcamError "Failed to enumerate devices" DEVICES_ERROR (Some cause))
     end, s).
Proof.
  unfold Device.getVideoDevices, try_catch, bind, answer, ret, throw.
  now destruct (enumerateDevices_answer D).
Qed.

(** What the state of a consistent session holds as [activeStream]. *)
Lemma consistent_value (s : Webcam.Self) :
  consistent s ->
  activeStream (Webcam.state (fst s)) = None
  \/ exists r, activeStream (Webcam.state (fst s)) = Some (start_result r).
Proof.
  intros (Hw & _). unfold wraps in Hw.
  destruct (activeStream (Webcam.state (fst s))) as [[st|r]|]; eauto.
  now destruct (Stream.activeStream (Webcam.stream (fst s))).
Qed.

(** X13. [getCurrentDevice] never changes the session.  It answers null
    when the state holds no stream.  When the state holds a start result, as
    it does after every [start] that got a stream, the call of
    [getVideoTracks] on it throws a TypeError; so on a session reached from
    the constructor by calls of its methods [getCurrentDevice] answers null or
    throws that TypeError, and never names a device.  Were the state to hold
    a media stream, as its type declares, the answer would be null for a
    stream without video track or a first video track without device id;
    otherwise the devices would be enumerated: the DEVICES_ERROR of
    [getVideoDevices] when that fails, and else a video input of the
    enumeration whose id is the track's, or null when there is none. *)
Theorem getCurrentDevice_answers_null_or_throws (D : DevicePlatform)
    (s : Webcam.Self) :
  (activeStream (Webcam.state (fst s)) = None ->
   Webcam.getCurrentDevice D s = (Ok None, s))
  /\ (forall r,
        activeStream (Webcam.state (fst s)) = Some (start_result r) ->
        Webcam.getCurrentDevice D s
        = (Throw (TypeError "this.state.activeStream.getVideoTracks is not a function"),
           s))
  /\ (consistent s ->
      Webcam.getCurrentDevice D s = (Ok None, s)
      \/ Webcam.getCurrentDevice D s
         = (Throw (TypeError "this.state.activeStream.getVideoTracks is not a function"),
            s))
  /\ (forall st,
        activeStream (Webcam.state (fst s)) = Some (media_stream st) ->
        getVideoTracks st = [] ->
        Webcam.getCurrentDevice D s = (Ok None, s))
  /\ (forall st track rest,
        activeStream (Webcam.state (fst s)) = Some (media_stream st) ->
        getVideoTracks st = track :: rest ->
        deviceId_of D track = None \/ deviceId_of D track = Some "" ->
        Webcam.getCurrentDevice D s = (Ok None, s))
  /\ (forall st track rest id,
        activeStream (Webcam.state (fst s)) = Some (media_stream st) ->
        getVideoTracks st = track :: rest ->
        deviceId_of D track = Some id ->
        id <> "" ->
        match enumerateDevices_answer D with
        | inl cause =>
            Webcam.getCurrentDevice D s
            = (Throw (WebcamError "Failed to enumerate devices" DEVICES_ERROR
                                  (Some cause)), s)
        | inr devices =>
            exists found,
              Webcam.getCurrentDevice D s = (Ok found, s)
              /\ match found with
                 | Some d =>
                     List.In d devices
                     /\ device_kind d = videoinput
                     /\ deviceId (device_info d) = id
                 | None =>
                     forall d, List.In d devices ->
                               device_kind d = videoinput ->
                               deviceId (device_info d) <> id
                 end
        end).
Proof.
  assert (activeStream (Webcam.state (fst s)) = None ->
          Webcam.getCurrentDevice D s = (Ok None, s)) as Hnull.
  { destruct s as [o b]. unfold Webcam.getCurrentDevice. unfold_monad. cbn [fst snd].
    intros ->. reflexivity. }
  assert (forall r,
            activeStream (Webcam.state (fst s)) = Some (start_result r) ->
            Webcam.getCurrentDevice D s
            = (Throw (TypeError "this.state.activeStream.getVideoTracks is not a function"),
               s)) as Hthrow.
  { destruct s as [o b]. unfold Webcam.getCurrentDevice, lift_result.
    unfold_monad. cbn [fst snd]. intros r ->. reflexivity. }
  split; [exact Hnull|]. split; [exact Hthrow|].
  split.
  { intros Hc. destruct (consistent_value s Hc) as [Hn|[r Hr]];
      [left; now apply Hnull | right; now apply (Hthrow r)]. }
  destruct s as [o b].
  unfold Webcam.getCurrentDevice, Webcam.getDevices, Webcam.in_device, lift_result.
  unfold_monad. cbn [fst snd].
  split; [|split].
  - intros st -> Hv. cbn. rewrite Hv. reflexivity.
  - intros st track rest -> Hv Hid. cbn. rewrite Hv.
    destruct Hid as [->| ->]; reflexivity.
  - intros st track rest id -> Hv Hd Hid. cbn. rewrite Hv, Hd.
    destruct (String.eqb_spec id "") as [|_]; [contradiction|].
    rewrite getVideoDevices_run.
    destruct (enumerateDevices_answer D) as [cause|devices]; cbn.
    + now destruct b.
    + eexists. split; [now destruct b|].
      destruct (List.find _ _) as [d|] eqn:Hfind.
      * apply List.find_some in Hfind as [Hin Heq].
        apply List.filter_In in Hin as [Hin Hk].
        apply String.eqb_eq in Heq.
        unfold Device.is_videoinput in Hk.
        destruct (device_kind d); try discriminate. auto.
      * intros d Hin Hk Heq.
        pose proof (List.find_none _ _ Hfind d) as Hnone.
        cbn in Hnone. rewrite Heq, String.eqb_refl in Hnone.
        assert (List.In d (List.filter Device.is_videoinput devices)) as Hf.
        { apply List.filter_In. split; [exact Hin|].
          unfold Device.is_videoinput. now rewrite Hk. }
        specialize (Hnone Hf). discriminate.
Qed.

(** The started session in the studio: the camera is on, its track reports
    the id "cam-0", and [getCurrentDevice] throws. *)
Lemma getCurrentDevice_answers_null_or_throws_witness :
  fst (Webcam.getCurrentDevice Studio.browser Scenario.started)
  = Throw (TypeError "this.state.activeStream.getVideoTracks is not a function").
Proof.
  rewrite (proj1 (proj2 (getCurrentDevice_answers_null_or_throws
                          Studio.browser Scenario.started))
             Scenario.hd_result ltac:(vm_compute; reflexivity)).
  reflexivity.
Defined.



(** ** The scenario's capture engine satisfies the preconditions *)

Lemma fresh_capture_handles : handles_fresh (snd Scenario.fresh_capture).
Proof. intros u Hu. vm_compute in Hu. discriminate Hu. Qed.

Lemma fresh_capture_usable : usable Scenario.fresh_capture.
Proof.
  split; [eexists; vm_compute; reflexivity|].
  split; [eexists; vm_compute; reflexivity|].
  intros d Hd. vm_compute in Hd. discriminate Hd.
Qed.

Lemma video_has_frame : has_frame Scenario.video.
Proof. reflexivity. Qed.


(** ** The capture engine: refusals *)

(** X15. The three capture methods refuse a video element that is missing
    or has no decoded frame ([readyState] below 2): each throws the same
    VIDEO_ELEMENT_NOT_SET error and leaves the engine and the browser exactly
    as they were.  The session's [captureImage] does the same when its
    element has no frame, and throws a VIDEO_ELEMENT_NOT_SET error of its own
    when the session has no element. *)
Theorem capture_requires_a_ready_video (C : CanvasPlatform)
    (options : CaptureOptions) :
  (forall videoElement (s : Capture.Self),
     not_ready videoElement ->
     Capture.captureImageData videoElement options s
     = (Throw Capture.video_not_ready, s)
     /\ Capture.captureImage C videoElement options s
        = (Throw Capture.video_not_ready, s)
     /\ Capture.captureImageBitmap C videoElement options s
        = (Throw Capture.video_not_ready, s))
  /\ error_code Capture.video_not_ready = Some VIDEO_ELEMENT_NOT_SET
  /\ (forall s : Webcam.Self,
        Webcam.videoElement (fst s) = None ->
        Webcam.captureImage C options s
        = (Throw (WebcamError "No video element attached" VIDEO_ELEMENT_NOT_SET None),
           s))
  /\ (forall (s : Webcam.Self) h,
        Webcam.videoElement (fst s) = Some h ->
        not_ready (elements (snd s) !! h) ->
        Webcam.captureImage C options s = (Throw Capture.video_not_ready, s)).
Proof.
  split; [|split; [reflexivity|split]].
  - intros [v|] s Hn; cbn in Hn.
    + unfold Capture.captureImageData, Capture.captureImage,
        Capture.captureImageBitmap. rewrite Hn. auto.
    + auto.
  - intros [o b] Hv. unfold Webcam.captureImage. unfold_monad. cbn in *.
    now rewrite Hv.
  - intros [o b] h Hv Hn. unfold Webcam.captureImage. unfold_monad. cbn in *.
    rewrite Hv. cbn.
    destruct (elements b !! h) as [v|]; cbn in Hn.
    + unfold Capture.captureImage. rewrite Hn. unfold throw. cbn.
      now destruct o, b.
    + unfold Capture.captureImage, throw. cbn. now destruct o, b.
Qed.

(** Without a video element, [captureImageData] on a new engine throws and
    leaves it as it was. *)
Lemma capture_requires_a_ready_video_witness :
  Capture.captureImageData None no_options Scenario.fresh_capture
  = (Throw Capture.video_not_ready, Scenario.fresh_capture).
Proof.
  exact (proj1 (proj1 (capture_requires_a_ready_video Scenario.canvases no_options)
                      None Scenario.fresh_capture I)).
Defined.

(** ** The capture engine: object URLs *)

Lemma fresh_handle_not_registered (d : Dom) (k : nat) :
  handles_fresh d -> (next_handle d <= k)%nat -> k ∉ object_urls d.
Proof. intros Hf Hk Hin. apply Hf in Hin. lia. Qed.

Lemma register_then_revoke (urls : gset nat) (k : nat) :
  k ∉ urls -> (urls ∪ {[k]}) ∖ {[k]} = urls.
Proof. set_solver. Qed.

Lemma handles_fresh_later (urls : gset nat) (n m : nat) :
  (forall u, u ∈ urls -> (u < n)%nat) -> (n <= m)%nat ->
  forall u, u ∈ urls -> (u < m)%nat.
Proof. intros Hf Hnm u Hu. apply Hf in Hu. lia. Qed.

(** X16. [captureImage] and object URLs.  A call that returns has registered
    exactly one object URL, a new one, and it is the [url] of the result.  A
    call that throws leaves the registered object URLs as they were: when
    the conversion to base64 fails, the URL created for the blob is revoked
    before the error is thrown. *)
Theorem captureImage_registers_one_object_url (C : CanvasPlatform)
    (videoElement : option HTMLVideoElement) (options : CaptureOptions)
    (s : Capture.Self) :
  handles_fresh (snd s) ->
  handles_fresh (snd (snd (Capture.captureImage C videoElement options s)))
  /\ match fst (Capture.captureImage C videoElement options s) with
     | Ok r =>
         (CaptureImageResult.url r ∉ object_urls (snd s))
         /\ object_urls (snd (snd (Capture.captureImage C videoElement options s)))
            = object_urls (snd s) ∪ {[ CaptureImageResult.url r ]}
     | Throw _ =>
         object_urls (snd (snd (Capture.captureImage C videoElement options s)))
         = object_urls (snd s)
     end.
Proof.
  destruct s as [o d]. intros Hf. cbn [snd] in Hf.
  destruct (Capture.captureImage C videoElement options (o, d)) as [r out] eqn:H.
  unfold_capture. cbn in H.
  repeat step_in H.
  all: injection H as <- <-; cbn [fst snd object_urls next_handle CaptureImageResult.url].
  all: unfold handles_fresh; cbn [fst snd object_urls next_handle].
  all: try (split; [exact Hf | reflexivity]).
  all: pose proof (fresh_handle_not_registered d (S (next_handle d)) Hf
                     ltac:(lia)) as Hk.
  all: rewrite ?(register_then_revoke _ _ Hk).
  all: match goal with
       | |- _ /\ _ /\ _ => split; [|split; [exact Hk | reflexivity]]
       | |- _ /\ _ => split; [|reflexivity]
       end.
  all: intros u Hu;
    first [ apply elem_of_union in Hu as [Hu|Hu];
            [apply Hf in Hu; lia | apply elem_of_singleton in Hu; lia]
          | apply Hf in Hu; lia ].
Qed.

(** In a browser whose FileReader fails, [captureImage] on a new engine
    throws and no object URL stays registered. *)
Lemma captureImage_registers_one_object_url_witness :
  is_ok (fst (Capture.captureImage Studio.no_reader (Some Scenario.video)
                no_options Scenario.fresh_capture)) = false
  /\ object_urls (snd (snd (Capture.captureImage Studio.no_reader
                              (Some Scenario.video) no_options
                              Scenario.fresh_capture)))
     = object_urls (snd Scenario.fresh_capture).
Proof.
  pose proof (proj2 (captureImage_registers_one_object_url Studio.no_reader
                       (Some Scenario.video) no_options Scenario.fresh_capture
                       fresh_capture_handles)) as H.
  destruct (fst (Capture.captureImage Studio.no_reader (Some Scenario.video)
                   no_options Scenario.fresh_capture)) as [r|e] eqn:Hr.
  - vm_compute in Hr. discriminate Hr.
  - split; [reflexivity | exact H].
Defined.

(** ** The capture engine: what [captureImage] hands over *)

(** X17. When [captureImage] returns, the result announces as its MIME
    type the requested type, "image/jpeg" when none (or the empty string) was
    requested, and its blob has the type the browser encoded that request
    in, which differs when the browser does not encode the requested type.
    The result carries no base64 text when [includeBase64] is false, and
    otherwise the text the FileReader produced for that blob.  The timestamp
    is the clock's value.  The call has drawn exactly once, from the crop
    region when one is given, into a rectangle of the size the result
    announces, and it has read no pixels. *)
Theorem captureImage_result (C : CanvasPlatform) (video : HTMLVideoElement)
    (options : CaptureOptions) (s out : Capture.Self) (r : CaptureImageResult.t) :
  Capture.captureImage C (Some video) options s = (Ok r, out) ->
  blob_type (CaptureImageResult.blob r)
  = encoded_type C (CaptureImageResult.mimeType r)
  /\ (forall ty, imageType options = Some ty -> ty <> "" ->
                 CaptureImageResult.mimeType r = ty)
  /\ (imageType options = None \/ imageType options = Some "" ->
      CaptureImageResult.mimeType r = "image/jpeg")
  /\ (includeBase64 options = Some false -> CaptureImageResult.base64 r = None)
  /\ (includeBase64 options <> Some false ->
      is_Some (CaptureImageResult.base64 r)
      /\ CaptureImageResult.base64 r = readAsDataURL C (CaptureImageResult.blob r))
  /\ CaptureImageResult.timestamp r = now (snd s)
  /\ (exists tr,
        draw_calls (snd out)
        = draw_calls (snd s)
          ++ [{| draw_source := crop options;
                 draw_width := CaptureImageResult.width r;
                 draw_height := CaptureImageResult.height r;
                 draw_transform := tr |}])
  /\ pixel_reads (snd out) = pixel_reads (snd s).
Proof.
  destruct s as [o d]. intros H.
  unfold_capture. cbn in H.
  repeat step_in H.
  all: try discriminate H.
  all: injection H as <- <-.
  all: cbn [fst snd CaptureImageResult.blob CaptureImageResult.mimeType
            CaptureImageResult.base64 CaptureImageResult.timestamp
            CaptureImageResult.width CaptureImageResult.height
            blob_type draw_calls pixel_reads now].
  all: split; [reflexivity|].
  all: split; [intros ty Hty Hne; simplify_eq;
               try reflexivity;
               try (exfalso; apply Hne; now apply String.eqb_eq)|].
  all: split; [intros [Hty|Hty]; simplify_eq; try reflexivity|].
  all: try match goal with
           | Hb : (?ty =? "")%string = false, Hty : Some ?ty = Some "" |- _ =>
               injection Hty as ->; discriminate Hb
           end.
  all: split; [intros Hb; try reflexivity;
               match goal with
               | Hd : default true (includeBase64 _) = true |- _ =>
                   rewrite Hb in Hd; discriminate Hd
               end|].
  all: split; [intros Hb; try (split; [eexists; reflexivity | congruence]);
               match goal with
               | Hd : default true (includeBase64 ?o) = false |- _ =>
                   destruct (includeBase64 o) as [[|]|];
                   [discriminate Hd | now destruct Hb | discriminate Hd]
               end|].
  all: split; [reflexivity|].
  all: split; [eexists; reflexivity | reflexivity].
Qed.

(** The scenario's browser encodes JPEG and WebP only: asked for a BMP,
    the capture returns a PNG blob and announces "image/bmp". *)
Lemma captureImage_result_witness :
  exists r,
    fst (Capture.captureImage Scenario.canvases (Some Scenario.video)
           Scenario.as_bmp Scenario.fresh_capture) = Ok r
    /\ CaptureImageResult.mimeType r = "image/bmp"
    /\ blob_type (CaptureImageResult.blob r) = "image/png".
Proof.
  destruct (Capture.captureImage Scenario.canvases (Some Scenario.video)
              Scenario.as_bmp Scenario.fresh_capture) as [[r|e] out] eqn:H;
    [|vm_compute in H; discriminate H].
  exists r. split; [reflexivity|].
  destruct (captureImage_result _ _ _ _ _ _ H) as (Hb & Hty & _).
  rewrite Hb, (Hty "image/bmp" eq_refl ltac:(discriminate)).
  split; reflexivity.
Defined.

(** ** The capture engine: the pooled buffer and the other captures *)

Lemma eqb_sym (a b : JS.number) : JS.eqb a b = JS.eqb b a.
Proof.
  unfold JS.eqb, SFeqb. rewrite (SFcompare_antisym a b).
  destruct (SFcompare a b) as [[]|]; reflexivity.
Qed.

Lemma same_geometry_sym (a b : JS.number * JS.number * JS.number) :
  same_geometry a b = same_geometry b a.
Proof.
  unfold same_geometry.
  now rewrite (eqb_sym (fst (fst a))), (eqb_sym (snd (fst a))), (eqb_sym (snd a)).
Qed.

(** Whatever [captureImageBitmap] does, it leaves the main pipeline alone
    and reads no pixels. *)
Lemma captureImageBitmap_pool (C : CanvasPlatform)
    (videoElement : option HTMLVideoElement) (options : CaptureOptions)
    (s : Capture.Self) :
  main_pipeline (fst (snd (Capture.captureImageBitmap C videoElement options s)))
  = main_pipeline (fst s)
  /\ (next_handle (snd s)
      <= next_handle (snd (snd (Capture.captureImageBitmap C videoElement options s))))%nat
  /\ pixel_reads (snd (snd (Capture.captureImageBitmap C videoElement options s)))
     = pixel_reads (snd s)
  /\ object_urls (snd (snd (Capture.captureImageBitmap C videoElement options s)))
     = object_urls (snd s).
Proof.
  destruct s as [o d].
  destruct (Capture.captureImageBitmap C videoElement options (o, d)) as [r out] eqn:H.
  unfold_capture. cbn in H.
  repeat step_in H.
  all: injection H as <- <-; cbn; repeat split; lia.
Qed.

(** Whatever [captureImage] does on a usable engine, it leaves the engine
    usable, with its cache at the geometry of the call, and it drops the
    pooled buffer exactly when that geometry is new. *)
Lemma captureImage_pool (C : CanvasPlatform) (video : HTMLVideoElement)
    (options : CaptureOptions) (s : Capture.Self) :
  usable s -> has_frame video ->
  usable (snd (Capture.captureImage C (Some video) options s))
  /\ (next_handle (snd s)
      <= next_handle (snd (snd (Capture.captureImage C (Some video) options s))))%nat
  /\ (forall g,
        negb (Capture.dimensions_changed
                (fst (snd (Capture.captureImage C (Some video) options s)))
                (fst (fst g)) (snd (fst g)) (snd g))
        = same_geometry (geometry video options) g)
  /\ Capture.reusableImageData (fst (snd (Capture.captureImage C (Some video) options s)))
     = (if Capture.dimensions_changed (fst s)
             (fst (fst (geometry video options)))
             (snd (fst (geometry video options)))
             (snd (geometry video options))
        then None else Capture.reusableImageData (fst s)).
Proof.
  destruct s as [o d]. intros ([cv Hcv] & [ctx Hctx] & Hfresh) Hready.
  destruct o as [cv0 ctx0 pooled dims sc0 mir mcv mctx].
  cbn [fst snd Capture.canvas Capture.context Capture.reusableImageData] in *.
  subst cv0 ctx0. unfold has_frame in Hready.
  unfold geometry, expected_size, floor_of_scaled, effective_scale. cbn [fst snd].
  destruct (sourceWidth_source_size video options) as [<- <-].
  destruct (Capture.captureImage C (Some video) options _) as [r0 out] eqn:H.
  unfold Capture.captureImage in H. rewrite Hready in H.
  unfold_capture. cbn in H.
  repeat step_in H.
  all: injection H as <- <-; cbn [fst snd].
  all: split;
    [split; [eexists; reflexivity|]; split; [eexists; reflexivity|];
     let d0 := fresh "d" in let Hd := fresh "Hd" in
     intros d0 Hd; cbn in Hd; try discriminate Hd;
     apply Hfresh in Hd; cbn; lia|].
  all: split; [cbn; lia|].
  all: split; [|cbn; reflexivity].
  all: intros g; rewrite dimensions_changed_spec, negb_involutive; cbn;
    try reflexivity.
  all: match goal with
       | Hc : Capture.dimensions_changed _ _ _ _ = false |- _ =>
           rewrite dimensions_changed_spec in Hc;
           apply negb_false_iff in Hc; cbn in Hc;
           exact (same_geometry_compat _ _ g Hc)
       end.
Qed.

(** X18. The pooled pixel buffer and the other two captures.  Take a usable
    engine and a capture whose geometry is not NaN, and call
    [captureImageData] twice with it.  A [captureImageBitmap] call in
    between, whatever its arguments and outcome, does not disturb the pool:
    the second call returns the buffer of the first.  A [captureImage] call
    in between shares the surface with [captureImageData]: when its geometry
    is the same the second call still returns the buffer of the first, and
    when its geometry differs it has dropped the pooled buffer, so that the
    second call returns a newly allocated one. *)
Theorem pooled_buffer_and_the_other_captures (C : CanvasPlatform)
    (video : HTMLVideoElement) (options : CaptureOptions) (s0 : Capture.Self) :
  usable s0 -> has_frame video ->
  same_geometry (geometry video options) (geometry video options) = true ->
  exists r1 s1,
    Capture.captureImageData (Some video) options s0 = (Ok r1, s1)
    /\ (forall videoElement' options',
          exists r3 s3,
            Capture.captureImageData (Some video) options
              (snd (Capture.captureImageBitmap C videoElement' options' s1))
            = (Ok r3, s3)
            /\ CaptureImageDataResult.imageData r3 = CaptureImageDataResult.imageData r1)
    /\ (forall video' options',
          has_frame video' ->
          exists r3 s3,
            Capture.captureImageData (Some video) options
              (snd (Capture.captureImage C (Some video') options' s1))
            = (Ok r3, s3)
            /\ (same_geometry (geometry video options) (geometry video' options') = true ->
                CaptureImageDataResult.imageData r3 = CaptureImageDataResult.imageData r1)
            /\ (same_geometry (geometry video options) (geometry video' options') = false ->
                data_id (CaptureImageDataResult.imageData r3)
                <> data_id (CaptureImageDataResult.imageData r1))).
Proof.
  intros Hs0 Hv Hself.
  destruct (captureImageData_step video options s0 Hs0 Hv)
    as (r1 & s1 & H1 & Hs1 & Hpool1 & Hgeo1 & _).
  exists r1, s1. split; [exact H1|]. split.
  - intros videoElement' options'.
    destruct (captureImageBitmap_pool C videoElement' options' s1)
      as (Hmain & Hnext & _ & _).
    set (s2 := snd (Capture.captureImageBitmap C videoElement' options' s1)) in *.
    unfold main_pipeline in Hmain. injection Hmain as Hcv Hctx Hp Hdims Hsc Hmir.
    assert (usable s2) as Hs2.
    { destruct Hs1 as (Hc1 & Hc2 & Hf1). unfold usable.
      rewrite Hcv, Hctx, Hp. split; [exact Hc1|]. split; [exact Hc2|].
      intros d Hd. apply Hf1 in Hd. lia. }
    destruct (captureImageData_step video options s2 Hs2 Hv)
      as (r3 & s3 & H3 & _ & _ & _ & Hcase & _).
    exists r3, s3. split; [exact H3|].
    unfold Capture.dimensions_changed in Hcase. rewrite Hdims, Hsc, Hp in Hcase.
    fold (Capture.dimensions_changed (fst s1)
            (fst (fst (geometry video options))) (snd (fst (geometry video options)))
            (snd (geometry video options))) in Hcase.
    specialize (Hgeo1 (geometry video options)). rewrite Hself in Hgeo1.
    apply negb_true_iff in Hgeo1. rewrite Hgeo1, Hpool1 in Hcase. apply Hcase.
  - intros video' options' Hv'.
    destruct (captureImage_pool C video' options' s1 Hs1 Hv')
      as (Hs2 & Hnext & Hgeo2 & Hp2).
    set (s2 := snd (Capture.captureImage C (Some video') options' s1)) in *.
    destruct (captureImageData_step video options s2 Hs2 Hv)
      as (r3 & s3 & H3 & _ & _ & _ & Hcase & _).
    exists r3, s3. split; [exact H3|].
    specialize (Hgeo2 (geometry video options)).
    rewrite same_geometry_sym in Hgeo2.
    pose proof (Hgeo1 (geometry video' options')) as Hgeo1'.
    split; intros Hsame; rewrite Hsame in Hgeo2, Hgeo1'.
    + apply negb_true_iff in Hgeo2, Hgeo1'.
      rewrite Hgeo1', Hpool1 in Hp2. rewrite Hgeo2, Hp2 in Hcase. apply Hcase.
    + apply negb_false_iff in Hgeo2. rewrite Hgeo2 in Hcase.
      destruct Hcase as (Hid & _). rewrite Hid.
      destruct Hs1 as (_ & _ & Hf1). specialize (Hf1 _ Hpool1). lia.
Qed.

(** A capture at scale 0.5, then a [captureImage] at scale 1, then the
    capture at scale 0.5 again: the last call returns a new buffer. *)
Lemma pooled_buffer_and_the_other_captures_witness :
  exists r1 s1 r3 s3,
    Capture.captureImageData (Some Scenario.video)
      (Scenario.at_scale Scenario.one_half) Scenario.fresh_capture = (Ok r1, s1)
    /\ Capture.captureImageData (Some Scenario.video)
         (Scenario.at_scale Scenario.one_half)
         (snd (Capture.captureImage Scenario.canvases (Some Scenario.video)
                 (Scenario.at_scale JS.lit_1) s1)) = (Ok r3, s3)
    /\ data_id (CaptureImageDataResult.imageData r3)
       <> data_id (CaptureImageDataResult.imageData r1).
Proof.
  destruct (pooled_buffer_and_the_other_captures Scenario.canvases Scenario.video
              (Scenario.at_scale Scenario.one_half) Scenario.fresh_capture
              fresh_capture_usable video_has_frame
              ltac:(vm_compute; reflexivity)) as (r1 & s1 & H1 & _ & Himg).
  destruct (Himg Scenario.video (Scenario.at_scale JS.lit_1) video_has_frame)
    as (r3 & s3 & H3 & _ & Hdiff).
  exists r1, s1, r3, s3. split; [exact H1|]. split; [exact H3|].
  apply Hdiff. vm_compute. reflexivity.
Defined.

(** ** The capture engine: bitmaps *)

(** X19. [captureImageBitmap] on a frame that is ready.  Whatever goes
    wrong is reported as a CAPTURE_FAILED error that carries the cause.  The
    call never touches the main surface, its context, the pooled buffer or
    the cached geometry, reads no pixels and registers no object URL.
    Without mirroring it does not touch the engine at all and draws nothing:
    it returns a new bitmap when the browser creates one, and otherwise
    throws and leaves everything as it was. *)
Theorem captureImageBitmap_effects (C : CanvasPlatform) (video : HTMLVideoElement)
    (options : CaptureOptions) (s : Capture.Self) :
  has_frame video ->
  (forall e,
     fst (Capture.captureImageBitmap C (Some video) options s) = Throw e ->
     exists cause, e = bitmap_failure cause)
  /\ main_pipeline (fst (snd (Capture.captureImageBitmap C (Some video) options s)))
     = main_pipeline (fst s)
  /\ pixel_reads (snd (snd (Capture.captureImageBitmap C (Some video) options s)))
     = pixel_reads (snd s)
  /\ object_urls (snd (snd (Capture.captureImageBitmap C (Some video) options s)))
     = object_urls (snd s)
  /\ (default false (mirror options) = false ->
      fst (snd (Capture.captureImageBitmap C (Some video) options s)) = fst s
      /\ draw_calls (snd (snd (Capture.captureImageBitmap C (Some video) options s)))
         = draw_calls (snd s)
      /\ (createImageBitmap_ok C = true ->
          exists r,
            fst (Capture.captureImageBitmap C (Some video) options s) = Ok r
            /\ bitmap_id (CaptureImageBitmapResult.imageBitmap r) = next_handle (snd s)
            /\ next_handle (snd (snd (Capture.captureImageBitmap C (Some video) options s)))
               = S (next_handle (snd s)))
      /\ (createImageBitmap_ok C = false ->
          snd (Capture.captureImageBitmap C (Some video) options s) = s
          /\ is_ok (fst (Capture.captureImageBitmap C (Some video) options s)) = false)).
Proof.
  intros Hv.
  destruct (captureImageBitmap_pool C (Some video) options s) as (Hmain & _ & Hpx & Hurl).
  split; [|split; [exact Hmain|split; [exact Hpx|split; [exact Hurl|]]]].
  - intros e. destruct s as [o d].
    destruct (Capture.captureImageBitmap C (Some video) options (o, d)) as [r out] eqn:H.
    unfold Capture.captureImageBitmap in H. rewrite Hv in H.
    unfold try_catch in H.
    match type of H with
    | (let (_, _) := ?body in _) = _ => destruct body as [[r0|e0] s']
    end; cbn in H; injection H as <- <-; cbn; intros [= <-].
    eexists. reflexivity.
  - intros Hm. destruct s as [o d].
    unfold Capture.captureImageBitmap. rewrite Hv, Hm.
    unfold_capture. cbn.
    destruct (createImageBitmap_ok C); cbn.
    + split; [now destruct o|]. split; [reflexivity|].
      split; [|discriminate]. intros _. eexists. split; [reflexivity|]. auto.
    + split; [now destruct o|]. split; [reflexivity|].
      split; [discriminate|]. intros _. split; [now destruct o, d | reflexivity].
Qed.

(** Without options, [captureImageBitmap] leaves a new engine as it was. *)
Lemma captureImageBitmap_effects_witness :
  fst (snd (Capture.captureImageBitmap Scenario.canvases (Some Scenario.video)
              no_options Scenario.fresh_capture))
  = fst Scenario.fresh_capture.
Proof.
  exact (proj1 (proj2 (proj2 (proj2 (proj2
           (captureImageBitmap_effects Scenario.canvases Scenario.video no_options
              Scenario.fresh_capture video_has_frame)))) eq_refl)).
Defined.

Lemma strict_neq_false_same (a b : JS.number) :
  JS.strict_neq a b = false -> same_number a b.
Proof.
  unfold JS.strict_neq. intros H. right. now apply negb_false_iff in H.
Qed.

Ltac same_size :=
  first [ left; reflexivity
        | match goal with
          | H : _ || _ = false |- _ => apply orb_false_iff in H as [? ?]
          end; apply strict_neq_false_same; assumption ].

(** One mirrored [captureImageBitmap] call on an engine whose mirror
    surface is in working order. *)
Lemma mirrored_capture_step (C : CanvasPlatform) (video : HTMLVideoElement)
    (options : CaptureOptions) (s : Capture.Self) :
  has_frame video ->
  default false (mirror options) = true ->
  mirror_ready (fst s) ->
  getContext_2d C = true ->
  createImageBitmap_ok C = true ->
  exists r out cv,
    Capture.captureImageBitmap C (Some video) options s = (Ok r, out)
    /\ Capture.mirrorCanvas (fst out) = Some cv
    /\ is_Some (Capture.mirrorContext (fst out))
    /\ same_number (canvas_width cv) (CaptureImageBitmapResult.width r)
    /\ same_number (canvas_height cv) (CaptureImageBitmapResult.height r)
    /\ draw_calls (snd out)
       = draw_calls (snd s)
         ++ [{| draw_source := crop options;
                draw_width := CaptureImageBitmapResult.width r;
                draw_height := CaptureImageBitmapResult.height r;
                draw_transform := mirror_transform (CaptureImageBitmapResult.width r) |}]
    /\ match Capture.mirrorCanvas (fst s) with
       | Some old =>
           canvas_id cv = canvas_id old
           /\ bitmap_id (CaptureImageBitmapResult.imageBitmap r) = next_handle (snd s)
           /\ next_handle (snd out) = S (next_handle (snd s))
       | None =>
           canvas_id cv = next_handle (snd s)
           /\ bitmap_id (CaptureImageBitmapResult.imageBitmap r) = S (next_handle (snd s))
           /\ next_handle (snd out) = S (S (next_handle (snd s)))
       end.
Proof.
  destruct s as [o d]. intros Hv Hm Hready Hctx Hbmp.
  destruct o as [cv0 ctx0 pooled dims sc0 mir mcv mctx].
  unfold mirror_ready in Hready. cbn [fst snd Capture.mirrorCanvas Capture.mirrorContext] in *.
  unfold has_frame in Hv.
  destruct (Capture.captureImageBitmap C (Some video) options _) as [r0 out] eqn:H.
  unfold Capture.captureImageBitmap in H. rewrite Hv, Hm in H.
  unfold_capture. unfold getContext in H. rewrite Hctx, Hbmp in H. cbn in H.
  destruct mcv as [old|]; cbn in H.
  - destruct Hready as [Hn|[ctx Hc]]; [discriminate Hn|]. subst mctx. cbn in H.
    repeat step_in H.
    all: injection H as <- <-; cbn [fst snd].
    all: eexists; eexists; eexists; split; [reflexivity|]; cbn.
    all: split; [reflexivity|]; split; [eexists; reflexivity|].
    all: split; [same_size|].
    all: split; [same_size|].
    all: split; [reflexivity|]; auto.
  - repeat step_in H.
    all: injection H as <- <-; cbn [fst snd].
    all: eexists; eexists; eexists; split; [reflexivity|]; cbn.
    all: split; [reflexivity|]; split; [eexists; reflexivity|].
    all: split; [same_size|].
    all: split; [same_size|].
    all: split; [reflexivity|]; auto.
Qed.

Ltac unfold_capture_in H :=
  unfold Capture.captureImageData, Capture.captureImage, Capture.captureImageBitmap,
    Capture.mirrored_bitmap, Capture.toBlob, Capture.draw_frame, Capture.apply_mirror,
    Capture.setTransform, Capture.resizeCanvas, Capture.update,
    Capture.this, Capture.in_dom, drawImage, getImageData_new,
    createImageBitmap, createElement_canvas, fresh_handle, log_draw, log_read,
    set_object_urls,
    bind, ret, throw, try_catch, when, modify, get, focus in H.

(** X20. The mirror surface of [captureImageBitmap] is created once.  On
    an engine whose mirror surface is in working order, in a browser that
    hands out 2D contexts and bitmaps, two mirrored captures in a row both
    return; the second draws on the surface the first one used and allocates
    nothing but its bitmap, which is a new one.  After each call the surface
    has the size of the bitmap returned, and the frame was drawn once, under
    the mirror transform for that width. *)
Theorem mirror_surface_is_created_once (C : CanvasPlatform)
    (video1 video2 : HTMLVideoElement) (options1 options2 : CaptureOptions)
    (s0 : Capture.Self) :
  has_frame video1 -> has_frame video2 ->
  default false (mirror options1) = true ->
  default false (mirror options2) = true ->
  mirror_ready (fst s0) ->
  getContext_2d C = true ->
  createImageBitmap_ok C = true ->
  exists r1 s1 r2 s2 cv1 cv2,
    Capture.captureImageBitmap C (Some video1) options1 s0 = (Ok r1, s1)
    /\ Capture.captureImageBitmap C (Some video2) options2 s1 = (Ok r2, s2)
    /\ Capture.mirrorCanvas (fst s1) = Some cv1
    /\ Capture.mirrorCanvas (fst s2) = Some cv2
    /\ canvas_id cv2 = canvas_id cv1
    /\ next_handle (snd s2) = S (next_handle (snd s1))
    /\ bitmap_id (CaptureImageBitmapResult.imageBitmap r2)
       <> bitmap_id (CaptureImageBitmapResult.imageBitmap r1)
    /\ same_number (canvas_width cv2) (CaptureImageBitmapResult.width r2)
    /\ same_number (canvas_height cv2) (CaptureImageBitmapResult.height r2)
    /\ draw_calls (snd s2)
       = draw_calls (snd s0)
         ++ [{| draw_source := crop options1;
                draw_width := CaptureImageBitmapResult.width r1;
                draw_height := CaptureImageBitmapResult.height r1;
                draw_transform :=
                  mirror_transform (CaptureImageBitmapResult.width r1) |};
             {| draw_source := crop options2;
                draw_width := CaptureImageBitmapResult.width r2;
                draw_height := CaptureImageBitmapResult.height r2;
                draw_transform :=
                  mirror_transform (CaptureImageBitmapResult.width r2) |}].
Proof.
  intros Hv1 Hv2 Hm1 Hm2 Hready Hctx Hbmp.
  destruct (mirrored_capture_step C video1 options1 s0 Hv1 Hm1 Hready Hctx Hbmp)
    as (r1 & s1 & cv1 & H1 & Hcv1 & Hc1 & _ & _ & Hd1 & Hcase1).
  assert (mirror_ready (fst s1)) as Hready1 by now right.
  destruct (mirrored_capture_step C video2 options2 s1 Hv2 Hm2 Hready1 Hctx Hbmp)
    as (r2 & s2 & cv2 & H2 & Hcv2 & _ & Hw2 & Hh2 & Hd2 & Hcase2).
  rewrite Hcv1 in Hcase2. destruct Hcase2 as (Hid & Hb2 & Hn2).
  exists r1, s1, r2, s2, cv1, cv2.
  split; [exact H1|]. split; [exact H2|]. split; [exact Hcv1|].
  split; [exact Hcv2|]. split; [exact Hid|]. split; [exact Hn2|].
  split; [|split; [exact Hw2|split; [exact Hh2|]]].
  - rewrite Hb2. destruct (Capture.mirrorCanvas (fst s0));
      destruct Hcase1 as (_ & -> & ->); lia.
  - rewrite Hd2, Hd1, <- app_assoc. reflexivity.
Qed.

(** Two mirrored captures on a new engine: the second allocates one handle,
    its bitmap. *)
Lemma mirror_surface_is_created_once_witness :
  exists r1 s1 r2 s2,
    Capture.captureImageBitmap Scenario.canvases (Some Scenario.video)
      (Scenario.mirrored_at_scale Scenario.one_half) Scenario.fresh_capture
    = (Ok r1, s1)
    /\ Capture.captureImageBitmap Scenario.canvases (Some Scenario.video)
         (Scenario.mirrored_at_scale JS.lit_1) s1 = (Ok r2, s2)
    /\ next_handle (snd s2) = S (next_handle (snd s1)).
Proof.
  destruct (mirror_surface_is_created_once Scenario.canvases
              Scenario.video Scenario.video
              (Scenario.mirrored_at_scale Scenario.one_half)
              (Scenario.mirrored_at_scale JS.lit_1) Scenario.fresh_capture
              video_has_frame video_has_frame eq_refl eq_refl
              (or_introl eq_refl) eq_refl eq_refl)
    as (r1 & s1 & r2 & s2 & cv1 & cv2 & H1 & H2 & _ & _ & _ & Hn & _).
  exists r1, s1, r2, s2. auto.
Defined.

(** X21. A mirror surface whose context could not be created is never
    repaired.  When the first mirrored [captureImageBitmap] call finds that
    the browser gives no 2D context, it throws CAPTURE_FAILED and leaves the
    engine with a mirror canvas but no mirror context.  From then on every
    mirrored call fails in the same way, whatever the browser would answer
    now: it throws CAPTURE_FAILED caused by a TypeError, creates nothing and
    draws nothing.  Only [dispose] clears the broken surface: after it, a
    mirrored call in a browser that hands out contexts and bitmaps returns. *)
Theorem failed_mirror_surface_is_not_repaired (C C' : CanvasPlatform)
    (video video' : HTMLVideoElement) (options options' : CaptureOptions)
    (s0 : Capture.Self) :
  has_frame video -> has_frame video' ->
  default false (mirror options) = true ->
  default false (mirror options') = true ->
  Capture.mirrorCanvas (fst s0) = None ->
  getContext_2d C = false ->
  exists s1,
    Capture.captureImageBitmap C (Some video) options s0
    = (Throw (bitmap_failure no_mirror_context), s1)
    /\ is_Some (Capture.mirrorCanvas (fst s1))
    /\ Capture.mirrorContext (fst s1) = None
    /\ (exists m s2,
          Capture.captureImageBitmap C' (Some video') options' s1
          = (Throw (bitmap_failure (TypeError m)), s2)
          /\ is_Some (Capture.mirrorCanvas (fst s2))
          /\ Capture.mirrorContext (fst s2) = None
          /\ next_handle (snd s2) = next_handle (snd s1)
          /\ draw_calls (snd s2) = draw_calls (snd s1))
    /\ (getContext_2d C' = true -> createImageBitmap_ok C' = true ->
        is_ok (fst (Capture.captureImageBitmap C' (Some video') options'
                      (snd (Capture.dispose s1)))) = true).
Proof.
  destruct s0 as [o d]. intros Hv Hv' Hm Hm' Hnone Hctx.
  destruct o as [cv0 ctx0 pooled dims sc0 mir mcv mctx].
  cbn [fst snd Capture.mirrorCanvas] in Hnone. subst mcv.
  unfold has_frame in Hv, Hv'.
  destruct (Capture.captureImageBitmap C (Some video) options _) as [r1 s1] eqn:H1.
  unfold Capture.captureImageBitmap in H1. rewrite Hv, Hm in H1.
  unfold_capture_in H1. unfold getContext in H1. rewrite Hctx in H1. cbn in H1.
  injection H1 as <- <-.
  eexists. split; [reflexivity|]. cbn [fst snd].
  split; [eexists; reflexivity|]. split; [reflexivity|]. split.
  - unfold Capture.captureImageBitmap. rewrite Hv', Hm'.
    unfold_capture. cbn.
    destruct (JS.strict_neq _ _ || JS.strict_neq _ _); cbn;
      do 2 eexists; (split; [reflexivity|]); cbn;
      (split; [eexists; reflexivity|]); auto.
  - intros Hctx' Hbmp'.
    match goal with
    | |- context [Capture.dispose ?s] => rewrite (dispose_run s)
    end. cbn [fst snd].
    match goal with
    | |- context [Capture.captureImageBitmap C' (Some video') options' ?s] =>
        destruct (mirrored_capture_step C' video' options' s Hv' Hm'
                    ltac:(now left) Hctx' Hbmp') as (r & out & cv & -> & _)
    end.
    reflexivity.
Qed.

(** A mirrored capture where canvases give no context, then one in the
    scenario's browser, which would give one: the second fails as well. *)
Lemma failed_mirror_surface_is_not_repaired_witness :
  is_ok (fst (Capture.captureImageBitmap Scenario.canvases (Some Scenario.video)
                (Scenario.mirrored_at_scale Scenario.one_half)
                (snd (Capture.captureImageBitmap Studio.no_context
                        (Some Scenario.video)
                        (Scenario.mirrored_at_scale Scenario.one_half)
                        Scenario.fresh_capture)))) = false.
Proof.
  destruct (failed_mirror_surface_is_not_repaired Studio.no_context
              Scenario.canvases Scenario.video Scenario.video
              (Scenario.mirrored_at_scale Scenario.one_half)
              (Scenario.mirrored_at_scale Scenario.one_half)
              Scenario.fresh_capture
              video_has_frame video_has_frame eq_refl eq_refl eq_refl eq_refl)
    as (s1 & H1 & _ & _ & (m & s2 & H2 & _) & _).
  rewrite H1. cbn [snd]. rewrite H2. reflexivity.
Defined.

(** X22. What the engine throws once it has no context, as after
    [dispose].  On a frame that is ready, [captureImageData] and
    [captureImage] fail and leave the engine and the browser as they were.
    When the mirror option of the call (false by default) equals the cached
    mirror flag, which [dispose] does not reset, the error is a
    CAPTURE_FAILED WebcamError caused by a TypeError.  When it differs, the
    error is that TypeError itself: it is not a WebcamError and has no
    code. *)
Theorem capture_errors_on_a_disposed_engine (C : CanvasPlatform)
    (video : HTMLVideoElement) (options : CaptureOptions) (s : Capture.Self) :
  has_frame video ->
  released (fst s) ->
  (default false (mirror options) = Capture.cachedMirror (fst s) ->
   exists m,
     Capture.captureImageData (Some video) options s
     = (Throw (WebcamError "Failed to draw video to canvas" CAPTURE_FAILED
                           (Some (TypeError m))), s)
     /\ Capture.captureImage C (Some video) options s
        = (Throw (WebcamError "Failed to draw video to canvas" CAPTURE_FAILED
                              (Some (TypeError m))), s))
  /\ (default false (mirror options) <> Capture.cachedMirror (fst s) ->
      exists m,
        Capture.captureImageData (Some video) options s = (Throw (TypeError m), s)
        /\ Capture.captureImage C (Some video) options s = (Throw (TypeError m), s)
        /\ instanceof_WebcamError (TypeError m) = false
        /\ error_code (TypeError m) = None).
Proof.
  destruct s as [o d]. intros Hv Hrel.
  destruct o as [cv ctx pooled dims sc0 mir mcv mctx].
  destruct Hrel as (Hcv & Hctx & Hmcv & Hmctx & Hpool). cbn in *. subst.
  unfold has_frame in Hv.
  unfold Capture.captureImageData, Capture.captureImage. rewrite Hv.
  set (m' := default false (mirror options)) in *. clearbody m'.
  unfold_capture. cbn. split.
  - intros ->.
    destruct (Capture.dimensions_changed _ _ _ _); cbn;
      rewrite Bool.eqb_reflx; cbn; eexists; split; reflexivity.
  - intros Hne.
    assert (Bool.eqb m' mir = false) as Hb
      by (apply Bool.eqb_false_iff; exact Hne).
    destruct (Capture.dimensions_changed _ _ _ _); cbn; rewrite Hb; cbn;
      eexists; repeat split; reflexivity.
Qed.

(** After [dispose] of a new engine the cached mirror flag is false: a
    mirrored [captureImageData] throws a TypeError. *)
Lemma capture_errors_on_a_disposed_engine_witness :
  exists m,
    fst (Capture.captureImageData (Some Scenario.video)
           (Scenario.mirrored_at_scale Scenario.one_half) Studio.disposed_capture)
    = Throw (TypeError m).
Proof.
  destruct (proj2 (capture_errors_on_a_disposed_engine Scenario.canvases
                     Scenario.video (Scenario.mirrored_at_scale Scenario.one_half)
                     Studio.disposed_capture video_has_frame
                     ltac:(vm_compute; repeat split; reflexivity))
                  ltac:(vm_compute; discriminate)) as (m & H & _).
  exists m. rewrite H. reflexivity.
Defined.


(** ** Capabilities *)

(** X23. The support checks of the session.  Without a stream, or with a
    stream that has no video track, [isTorchSupported], [isZoomSupported]
    and [isFocusSupported] answer false and do not ask the browser.  With a
    video track, in a browser that reports the same capabilities for every
    track, they answer what [getDeviceCapabilities] reports as [hasTorch],
    [hasZoom] and [hasFocus].  In a browser without [getCapabilities] they
    throw the browser's TypeError as it is. *)
Theorem support_checks_agree_with_capabilities (P : Platform) (D : DevicePlatform)
    (o : Webcam.t) :
  (Stream.activeStream (Webcam.stream o) = None
   \/ (exists st, Stream.activeStream (Webcam.stream o) = Some st
                  /\ getVideoTracks st = []) ->
   Stream.getCapabilities D (Webcam.stream o) = Ok None
   /\ Webcam.isTorchSupported D o = Ok false
   /\ Webcam.isZoomSupported D o = Ok false
   /\ Webcam.isFocusSupported D o = Ok false)
  /\ (forall st track rest,
        Stream.activeStream (Webcam.stream o) = Some st ->
        getVideoTracks st = track :: rest ->
        (forall caps,
           (forall t, getCapabilities_answer D t = inr caps) ->
           forall deviceId w w' cap,
             Device.getDeviceCapabilities P D deviceId w = (Ok cap, w') ->
             Webcam.isTorchSupported D o = Ok (hasTorch cap)
             /\ Webcam.isZoomSupported D o = Ok (hasZoom cap)
             /\ Webcam.isFocusSupported D o = Ok (hasFocus cap))
        /\ (forall e,
              getCapabilities_answer D track = inl e ->
              Webcam.isTorchSupported D o = Throw e
              /\ Webcam.isZoomSupported D o = Throw e
              /\ Webcam.isFocusSupported D o = Throw e)).
Proof.
  unfold Webcam.isTorchSupported, Webcam.isZoomSupported, Webcam.isFocusSupported,
    Webcam.supports, Stream.getCapabilities.
  split.
  - intros [-> | (st & -> & ->)]; auto.
  - intros st track rest -> ->. split.
    + intros caps Hall deviceId w w' cap.
      rewrite (Hall track).
      unfold Device.getDeviceCapabilities, try_catch, bind, modify, answer, throw, ret.
      pose proof (getUserMedia_run P (Device.test_constraints deviceId) w) as Hg.
      destruct (gum P (Device.test_constraints deviceId)) as [e|shape].
      * rewrite Hg. discriminate.
      * destruct Hg as (w1 & -> & _).
        destruct (getVideoTracks (granted_stream w shape)) as [|t0 rest0];
          [discriminate|].
        rewrite (Hall t0). intros [= <- _]. cbn. auto.
    + intros e ->. auto.
Qed.

(** The started session in the studio: zoom is supported, the torch is not. *)
Lemma support_checks_agree_with_capabilities_witness :
  Webcam.isZoomSupported Studio.browser (fst Scenario.started) = Ok true
  /\ Webcam.isTorchSupported Studio.browser (fst Scenario.started) = Ok false.
Proof.
  destruct (Device.getDeviceCapabilities Scenario.hd_camera Studio.browser "cam-0"
              initial_world) as [[cap|e] w'] eqn:H;
    [|vm_compute in H; discriminate H].
  destruct (proj1 (proj2 (support_checks_agree_with_capabilities
                            Scenario.hd_camera Studio.browser (fst Scenario.started))
                         Scenario.hd_stream Scenario.hd_track []
                         ltac:(vm_compute; reflexivity) ltac:(reflexivity))
                  Studio.camera_capabilities (fun _ => eq_refl)
                  "cam-0" initial_world w' cap H) as (Ht & Hz & _).
  rewrite Hz, Ht. vm_compute in H. injection H as <- <-. split; reflexivity.
Defined.


(** ** Displaying a captured frame *)

(** X24. [displayImageData] on a target canvas, for an image whose
    dimensions are numbers.  When the target gives no 2D context the call
    throws UNKNOWN_ERROR and leaves the target as it is.  Otherwise it
    returns, the target is the same canvas and has the size of the image,
    and displaying the same image again changes nothing: a target that
    already has the size of the image is not resized. *)
Theorem displayImageData_is_idempotent (C : CanvasPlatform) (imageData : ImageData)
    (target : Canvas) :
  JS.eqb (data_width imageData) (data_width imageData) = true ->
  JS.eqb (data_height imageData) (data_height imageData) = true ->
  (getContext_2d C = false ->
   Capture.displayImageData C imageData target
   = (Throw (WebcamError "Target canvas has no context" UNKNOWN_ERROR None), target))
  /\ (getContext_2d C = true ->
      exists target',
        Capture.displayImageData C imageData target = (Ok tt, target')
        /\ canvas_id target' = canvas_id target
        /\ same_number (canvas_width target') (data_width imageData)
        /\ same_number (canvas_height target') (data_height imageData)
        /\ Capture.displayImageData C imageData target' = (Ok tt, target')).
Proof.
  intros Hw Hh.
  unfold Capture.displayImageData, getContext, bind, get, when, modify, ret, throw.
  split; intros ->; [reflexivity|].
  destruct (JS.strict_neq (canvas_width target) (data_width imageData)
            || JS.strict_neq (canvas_height target) (data_height imageData)) eqn:Hne.
  - eexists. split; [reflexivity|]. cbn.
    split; [reflexivity|]. split; [now left|]. split; [now left|].
    unfold JS.strict_neq. rewrite Hw, Hh. reflexivity.
  - eexists. split; [reflexivity|].
    split; [reflexivity|].
    pose proof Hne as Hne'. apply orb_false_iff in Hne' as [H1 H2].
    split; [now apply strict_neq_false_same|].
    split; [now apply strict_neq_false_same|].
    now rewrite Hne.
Qed.

(** A 640x360 image on a canvas of the default size: the canvas is resized,
    and displaying the image again leaves it as it is. *)
Lemma displayImageData_is_idempotent_witness :
  exists target',
    Capture.displayImageData Scenario.canvases Studio.frame Studio.target
    = (Ok tt, target')
    /\ canvas_id target' = canvas_id Studio.target
    /\ Capture.displayImageData Scenario.canvases Studio.frame target'
       = (Ok tt, target').
Proof.
  destruct (proj2 (displayImageData_is_idempotent Scenario.canvases Studio.frame
                     Studio.target ltac:(vm_compute; reflexivity)
                     ltac:(vm_compute; reflexivity)) eq_refl)
    as (t' & H1 & H2 & _ & _ & H3).
  exists t'. auto.
Defined.

(** ** An empty list of resolutions *)

(** X25. An empty [preferredResolutions] list is not treated as "no
    preference".  [startStream] then throws without asking the browser for
    anything: the error is an UNKNOWN_ERROR caused by the plain error "No
    resolution worked", and the stream manager and the browser are left as
    they were.  [start] with such a configuration, on a host whose callbacks
    return, rejects with that error, records it, ends in the status "error"
    and has made no request. *)
Theorem startStream_with_an_empty_list (P : Platform) (config : WebcamConfiguration) :
  preferredResolutions config = Some (array []) ->
  (forall (self : Stream.t) (w : World),
     Stream.startStream P config (self, w)
     = (Throw (WebcamError "Failed to start camera" UNKNOWN_ERROR
                           (Some (PlainError "No resolution worked"))),
        (self, w)))
  /\ (forall (cfg : option WebcamConfiguration) (s : Webcam.Self),
        effective_config (fst s) cfg = Some config ->
        fst (Webcam.start Webcam.quiet P cfg s)
        = Throw (WebcamError "Failed to start camera" UNKNOWN_ERROR
                             (Some (PlainError "No resolution worked")))
        /\ status (Webcam.state (fst (snd (Webcam.start Webcam.quiet P cfg s)))) = error
        /\ state_error (Webcam.state (fst (snd (Webcam.start Webcam.quiet P cfg s))))
           = Some (WebcamError "Failed to start camera" UNKNOWN_ERROR
                               (Some (PlainError "No resolution worked")))
        /\ media (snd (snd (Webcam.start Webcam.quiet P cfg s))) = media (snd s)).
Proof.
  intros Hp.
  assert (forall (self : Stream.t) (w : World),
            Stream.startStream P config (self, w)
            = (Throw (WebcamError "Failed to start camera" UNKNOWN_ERROR
                                  (Some (PlainError "No resolution worked"))),
               (self, w))) as Hrun.
  { intros self w.
    unfold Stream.startStream, try_catch, bind, Stream.in_world, focus, throw, ret.
    rewrite Hp. cbn. now destruct self. }
  split; [exact Hrun|].
  intros cfg [o b] Hc. cbn [fst snd] in *.
  rewrite start_run, Hc, Hrun. cbn. auto.
Qed.

(** The scenario's configuration with an empty list: [startStream] throws
    and the browser has seen no request. *)
Lemma startStream_with_an_empty_list_witness :
  exists e,
    Stream.startStream Scenario.hd_camera Studio.empty_list
      (Stream.new, initial_world) = (Throw e, (Stream.new, initial_world))
    /\ error_code e = Some UNKNOWN_ERROR.
Proof.
  eexists. split.
  - exact (proj1 (startStream_with_an_empty_list Scenario.hd_camera
                    Studio.empty_list eq_refl) Stream.new initial_world).
  - reflexivity.
Defined.
